(** * School-management backend: a shallow embedding of the request handlers

    The repository holds two Express servers over the same Mongoose models:
    the full server (users, students, grades with a derived letter,
    attendance, fees, notifications) and a simplified one (no letter grade,
    no notifications, a fee update route).  Both are embedded here as pure
    functions [handler : inputs -> Store -> Response * Store]; the document
    database is a record of collections, each a list of documents in
    insertion order, and the generated [_id] comes from a counter.

    Conventions of the embedding:
    - a JSON field that may be absent ([undefined]) is an [option];
    - a JS [Number] is a rational [Q], a [Date] is its epoch value in
      milliseconds ([Z]), an [ObjectId] is a [nat], a string is the
      sequence of its UTF-8 bytes;
    - [bcrypt], [jsonwebtoken] and [Number.prototype.toLocaleString] are
      external: they are the fields of the class [Externals]; so are the
      database's regular expressions and its [$avg], parameters of the
      handlers that use them;
    - a rejected promise inside [try { ... } catch (err)] is a value of
      [Exn]; every handler maps it to status 500. *)

From Stdlib Require Import String Ascii List ZArith QArith Bool Arith Lia Lqa.
From Stdlib Require Import Permutation Sorted DecimalString.
Import ListNotations.

Local Close Scope Q_scope.
Local Open Scope string_scope.
Local Open Scope list_scope.

(** ** Values *)

Definition ObjectId := nat.
Definition Date := Z.
Definition Number := Q.

Bind Scope Z_scope with Date.
Bind Scope Q_scope with Number.

(** [a || b] on strings: the empty string and [undefined] are falsy. *)
Definition orDefault (v : option string) (d : string) : string :=
  match v with
  | Some s => if (s =? EmptyString)%string then d else s
  | None => d
  end.

Definition optStringEqb (a b : option string) : bool :=
  match a, b with
  | Some x, Some y => (x =? y)%string
  | None, None => true
  | _, _ => false
  end.

Definition memString (s : string) (l : list string) : bool :=
  existsb (fun x => (x =? s)%string) l.

(** [s.replace(pat, '')] with a string pattern: the first occurrence only. *)
Fixpoint dropString (n : nat) (s : string) : string :=
  match n, s with
  | O, _ => s
  | S n', String _ s' => dropString n' s'
  | S _, EmptyString => EmptyString
  end.

Fixpoint removeFirstOccurrence (pat s : string) : string :=
  if String.prefix pat s then dropString (String.length pat) s
  else match s with
       | EmptyString => EmptyString
       | String c s' => String c (removeFirstOccurrence pat s')
       end.

(** [String.prototype.trim].  A string is kept as the sequence of its
    UTF-8 bytes, and the characters [trim] strips are the white space and
    line terminators of ECMAScript: U+0009 to U+000D and U+0020, one byte
    each; U+00A0, two bytes; U+1680, U+2000 to U+200A, U+2028, U+2029,
    U+202F, U+205F, U+3000 and U+FEFF, three bytes each. *)
Definition isSpace (c : ascii) : bool :=
  let n := nat_of_ascii c in
  Nat.eqb n 32 || (Nat.leb 9 n && Nat.leb n 13).

Definition isSpace2 (c1 c2 : ascii) : bool :=
  Nat.eqb (nat_of_ascii c1) 194 && Nat.eqb (nat_of_ascii c2) 160.

Definition isSpace3 (c1 c2 c3 : ascii) : bool :=
  let n1 := nat_of_ascii c1 in
  let n2 := nat_of_ascii c2 in
  let n3 := nat_of_ascii c3 in
  (Nat.eqb n1 225 && Nat.eqb n2 154 && Nat.eqb n3 128)
  || (Nat.eqb n1 226 && Nat.eqb n2 128
      && ((Nat.leb 128 n3 && Nat.leb n3 138)
          || Nat.eqb n3 168 || Nat.eqb n3 169 || Nat.eqb n3 175))
  || (Nat.eqb n1 226 && Nat.eqb n2 129 && Nat.eqb n3 159)
  || (Nat.eqb n1 227 && Nat.eqb n2 128 && Nat.eqb n3 128)
  || (Nat.eqb n1 239 && Nat.eqb n2 187 && Nat.eqb n3 191).

Fixpoint trimStart (s : string) : string :=
  match s with
  | String c1 s1 =>
      if isSpace c1 then trimStart s1
      else match s1 with
           | String c2 s2 =>
               if isSpace2 c1 c2 then trimStart s2
               else match s2 with
                    | String c3 s3 =>
                        if isSpace3 c1 c2 c3 then trimStart s3 else s
                    | EmptyString => s
                    end
           | EmptyString => s
           end
  | EmptyString => EmptyString
  end.

(** A string of white space only. *)
Definition allWhite (s : string) : bool := (trimStart s =? EmptyString)%string.

Fixpoint trimEnd (s : string) : string :=
  match s with
  | EmptyString => EmptyString
  | String c s' => if allWhite s then EmptyString else String c (trimEnd s')
  end.

Definition trim (s : string) : string := trimEnd (trimStart s).

(** The bytes that occur in the encoding of a character [trim] strips. *)
Definition whiteBytes : list nat :=
  [9; 10; 11; 12; 13; 32; 194; 160; 225; 154; 128; 129; 130; 131; 132; 133;
   134; 135; 136; 137; 138; 226; 168; 169; 175; 159; 227; 239; 187; 191].

Definition whiteByte (c : ascii) : bool :=
  existsb (Nat.eqb (nat_of_ascii c)) whiteBytes.

(** ** Dates: [setHours(0, 0, 0, 0)] in a zone at a fixed offset from UTC *)

Definition msPerDay : Z := 86400000.

Definition startOfDay (tzOffset : Z) (t : Date) : Date :=
  (t - (t + tzOffset) mod msPerDay)%Z.

Definition endOfDay (tzOffset : Z) (t : Date) : Date :=
  (startOfDay tzOffset t + msPerDay - 1)%Z.

(** ** Errors thrown inside a handler's [try] block *)

Inductive Exn : Type :=
| ValidationError (model path : string)
| CastError (model path : string)
| DuplicateKey (model path : string)
| ImmutableField (path : string)
| IllegalArguments (what : string).

Definition Result (A : Type) : Type := (Exn + A)%type.

Definition bindResult {A B : Type} (r : Result A) (k : A -> Result B) : Result B :=
  match r with
  | inl e => inl e
  | inr a => k a
  end.

Notation "x <- r ;; k" := (bindResult r (fun x => k))
  (at level 61, r at next level, right associativity).

Definition required {A : Type} (model path : string) (v : option A) : Result A :=
  match v with
  | Some a => inr a
  | None => inl (ValidationError model path)
  end.

(** A required [String] path rejects [undefined] and the empty string. *)
Definition requiredString (model path : string) (v : option string) : Result string :=
  match v with
  | Some s => if (s =? EmptyString)%string then inl (ValidationError model path) else inr s
  | None => inl (ValidationError model path)
  end.

Definition enumOf (model path : string) (allowed : list string) (s : string)
  : Result string :=
  if memString s allowed then inr s else inl (ValidationError model path).

(** An optional path with an [enum]: validated only when present. *)
Definition optionalEnum (model path : string) (allowed : list string)
  (v : option string) : Result (option string) :=
  match v with
  | None => inr None
  | Some s => if memString s allowed then inr (Some s)
              else inl (ValidationError model path)
  end.

Definition inRange (model path : string) (lo hi : Q) (n : Number) : Result Number :=
  if Qle_bool lo n && Qle_bool n hi then inr n
  else inl (ValidationError model path).

(** ** Mongoose queries over a collection kept in insertion order *)

Section Collection.
Context {A : Type}.
Variable idOf : A -> ObjectId.

Definition findOne (p : A -> bool) (c : list A) : option A := find p c.

Definition findById (i : ObjectId) (c : list A) : option A :=
  findOne (fun d => Nat.eqb (idOf d) i) c.

Definition findMany (p : A -> bool) (c : list A) : list A := filter p c.

Definition countDocuments (p : A -> bool) (c : list A) : nat :=
  length (filter p c).

Fixpoint removeFirst (p : A -> bool) (c : list A) : list A :=
  match c with
  | [] => []
  | d :: c' => if p d then c' else d :: removeFirst p c'
  end.

Fixpoint updateFirst (p : A -> bool) (f : A -> A) (c : list A) : list A :=
  match c with
  | [] => []
  | d :: c' => if p d then f d :: c' else d :: updateFirst p f c'
  end.

Definition findOneAndDelete (p : A -> bool) (c : list A) : option A * list A :=
  (findOne p c, removeFirst p c).

Definition findByIdAndDelete (i : ObjectId) (c : list A) : option A * list A :=
  findOneAndDelete (fun d => Nat.eqb (idOf d) i) c.

(** With [{ new: true }] the updated document is returned. *)
Definition findOneAndUpdate (p : A -> bool) (f : A -> A) (c : list A)
  : option A * list A :=
  match findOne p c with
  | Some d => (Some (f d), updateFirst p f c)
  | None => (None, c)
  end.

Definition updateMany (p : A -> bool) (f : A -> A) (c : list A) : list A :=
  map (fun d => if p d then f d else d) c.

Definition deleteMany (p : A -> bool) (c : list A) : list A :=
  filter (fun d => negb (p d)) c.

(** [doc.save()] on a document that was read from the collection. *)
Definition saveExisting (d : A) (c : list A) : list A :=
  updateFirst (fun x => Nat.eqb (idOf x) (idOf d)) (fun _ => d) c.

End Collection.

(** [.sort({ key: -1 })]: descending, by insertion into a sorted list. *)
Section Sorting.
Context {A : Type}.
Variable geb : A -> A -> bool.

Fixpoint insertDesc (x : A) (l : list A) : list A :=
  match l with
  | [] => [x]
  | y :: l' => if geb x y then x :: l else y :: insertDesc x l'
  end.

Definition sortDesc (l : list A) : list A := fold_right insertDesc [] l.

End Sorting.

Definition distinct {A : Type} (eq_dec : forall x y : A, {x = y} + {x <> y})
  {B : Type} (f : B -> A) (c : list B) : list A :=
  nodup eq_dec (map f c).

(** [.limit(n)]: zero means no limit, a negative value counts as its
    absolute value. *)
Definition limit {A : Type} (n : Z) (l : list A) : list A :=
  if (n =? 0)%Z then l else firstn (Z.abs_nat n) l.

(** ** External libraries

    [bcryptHash password salt] is [bcrypt.hash(password, 10)] with the salt
    it drew; [jwtSign payload secret iat] is [jwt.sign(payload, secret,
    { expiresIn: '7d' })] issued at second [iat]; [jwtVerify token secret t]
    is [jwt.verify(token, secret)] evaluated at second [t], [None] when it
    throws (bad signature, malformed or expired token). *)

Record AuthUser : Type := mkAuthUser { id : ObjectId; role : string }.

Class Externals : Type := {
  bcryptHash : string -> string -> string;
  bcryptCompare : string -> string -> bool;
  jwtSign : AuthUser -> string -> Z -> string;
  jwtVerify : string -> string -> Z -> option AuthUser;
  toLocaleString : Number -> string
}.

Definition sevenDays : Z := 604800.

(** What the handlers rely on from the two libraries. *)
Record ExternalsLaws (E : Externals) : Prop := {
  compare_hash : forall password salt,
    bcryptCompare password (bcryptHash password salt) = true;
  hash_not_plaintext : forall password salt,
    bcryptHash password salt <> password;
  sign_nonempty : forall payload secret iat,
    jwtSign payload secret iat <> EmptyString;
  verify_sign : forall payload secret iat t,
    (t < iat + sevenDays)%Z ->
    jwtVerify (jwtSign payload secret iat) secret t = Some payload;
  verify_expired : forall payload secret iat t,
    (iat + sevenDays <= t)%Z ->
    jwtVerify (jwtSign payload secret iat) secret t = None
}.

(** Process-wide configuration and the per-request clock. *)
Record Config : Type := {
  JWT_SECRET : string;
  tzOffset : Z
}.

Definition seconds (ms : Date) : Z := (ms / 1000)%Z.

(** ** Documents of the full server *)

Module User.
Record t : Type := mk {
  _id : ObjectId;
  full_name : string;
  email : string;
  password : string;
  role : string;
  created_at : Date
}.
End User.

Module Student.
Record t : Type := mk {
  _id : ObjectId;
  name : string;
  rollNumber : string;
  class : string;
  age : Number;
  gender : string;
  email : string;
  phone : option string;
  address : option string;
  guardianName : option string;
  guardianPhone : option string;
  admissionDate : Date;
  status : string;
  created_at : Date
}.
End Student.

Module Grade.
Record t : Type := mk {
  _id : ObjectId;
  student_id : ObjectId;
  subject : string;
  marks : Number;
  grade : option string;
  term : string;
  academic_year : string;
  remarks : option string;
  created_at : Date
}.
End Grade.

Module Attendance.
Record t : Type := mk {
  _id : ObjectId;
  student_id : ObjectId;
  date : Date;
  status : string;
  remarks : option string;
  created_at : Date
}.
End Attendance.

Module Fee.
Record t : Type := mk {
  _id : ObjectId;
  student_id : ObjectId;
  amount : Number;
  payment_date : option Date;
  payment_method : option string;
  term : string;
  academic_year : string;
  status : string;
  receipt_number : option string;
  created_at : Date
}.
End Fee.

Module Notification.
Record t : Type := mk {
  _id : ObjectId;
  title : string;
  message : string;
  type : string;
  category : string;
  recipient : ObjectId;
  read : bool;
  created_at : Date
}.
End Notification.

Record Store : Type := mkStore {
  users : list User.t;
  students : list Student.t;
  grades : list Grade.t;
  attendances : list Attendance.t;
  fees : list Fee.t;
  notifications : list Notification.t;
  nextId : ObjectId
}.

Definition emptyStore : Store := mkStore [] [] [] [] [] [] 0.

Definition setUsers (st : Store) (c : list User.t) (n : ObjectId) : Store :=
  mkStore c (students st) (grades st) (attendances st) (fees st)
    (notifications st) n.

Definition setStudents (st : Store) (c : list Student.t) (n : ObjectId) : Store :=
  mkStore (users st) c (grades st) (attendances st) (fees st)
    (notifications st) n.

Definition setGrades (st : Store) (c : list Grade.t) (n : ObjectId) : Store :=
  mkStore (users st) (students st) c (attendances st) (fees st)
    (notifications st) n.

Definition setAttendances (st : Store) (c : list Attendance.t) (n : ObjectId)
  : Store :=
  mkStore (users st) (students st) (grades st) c (fees st)
    (notifications st) n.

Definition setFees (st : Store) (c : list Fee.t) (n : ObjectId) : Store :=
  mkStore (users st) (students st) (grades st) (attendances st) c
    (notifications st) n.

Definition setNotifications (st : Store) (c : list Notification.t)
  (n : ObjectId) : Store :=
  mkStore (users st) (students st) (grades st) (attendances st) (fees st) c n.

(** ** Responses *)

Record UserInfo : Type := {
  info_id : ObjectId;
  info_full_name : string;
  info_email : string;
  info_role : string
}.

Record Dashboard : Type := {
  total_students : nat;
  active_students : nat;
  total_classes : nat;
  present_today : nat;
  pending_fees : nat
}.

(** The fields [populate('student_id', 'name rollNumber class')] selects;
    [None] when the referenced student no longer exists. *)
Record StudentRef : Type := {
  ref_id : ObjectId;
  ref_name : string;
  ref_rollNumber : string;
  ref_class : string
}.

Inductive Body : Type :=
| ErrorBody (error : string)
| ErrMessageBody (err : Exn)
| MessageBody (message : string)
| AuthBody (message token : string) (user : UserInfo)
| RootBody (total_students total_users : nat)
| StudentBody (message : string) (student : Student.t)
| GradeBody (message : string) (grade : Grade.t)
| GradesBody (grades : list (Grade.t * option StudentRef))
| AttendanceBody (message : string) (attendance : Attendance.t)
| AttendancesBody (attendance : list (Attendance.t * option StudentRef))
| FeeBody (message : string) (fee : Fee.t)
| FeesBody (fees : list (Fee.t * option StudentRef))
| DashboardBody (stats : Dashboard)
| NotificationBody (notification : Notification.t)
| NotificationsBody (notifications : list Notification.t)
| CountBody (count : nat).

Record Response : Type := mkResponse { code : nat; body : Body }.

Definition Handler : Type := Store -> Response * Store.

(** [catch (err) { res.status(500).json({ error: err.message }) }] *)
Definition serverError (e : Exn) : Response := mkResponse 500 (ErrMessageBody e).

(** ** The route tables: which registrations pass [authenticate] *)

Inductive Method : Type := GET | POST | PUT | DELETE.

Record Route : Type := mkRoute {
  method : Method;
  path : string;
  usesAuthenticate : bool
}.

Definition methodEqb (a b : Method) : bool :=
  match a, b with
  | GET, GET | POST, POST | PUT, PUT | DELETE, DELETE => true
  | _, _ => false
  end.

Definition isRoute (m : Method) (p : string) (r : Route) : bool :=
  methodEqb (method r) m && (path r =? p)%string.


Definition fullRoutes : list Route := [
  mkRoute GET "/" false;
  mkRoute POST "/register" false;
  mkRoute POST "/login" false;
  mkRoute POST "/logout" true;
  mkRoute GET "/api/students" true;
  mkRoute GET "/api/students/:id" true;
  mkRoute POST "/api/students" true;
  mkRoute PUT "/api/students/:id" true;
  mkRoute DELETE "/api/students/:id" true;
  mkRoute POST "/api/students/bulk" true;
  mkRoute GET "/api/grades/all" true;
  mkRoute GET "/api/grades/student/:studentId" true;
  mkRoute POST "/api/grades" true;
  mkRoute GET "/api/attendance" true;
  mkRoute GET "/api/attendance/student/:studentId" true;
  mkRoute POST "/api/attendance" true;
  mkRoute GET "/api/attendance/stats" true;
  mkRoute GET "/api/fees" true;
  mkRoute GET "/api/fees/student/:studentId" true;
  mkRoute POST "/api/fees" true;
  mkRoute GET "/api/stats/dashboard" true;
  mkRoute GET "/api/reports/class-distribution" true;
  mkRoute GET "/api/reports/top-performers" true;
  mkRoute GET "/api/notifications" true;
  mkRoute GET "/api/notifications/unread-count" true;
  mkRoute PUT "/api/notifications/:id/read" true;
  mkRoute PUT "/api/notifications/mark-all-read" true;
  mkRoute DELETE "/api/notifications/:id" true;
  mkRoute POST "/api/notifications" true;
  mkRoute GET "/api/activities/recent" true
].

Definition simplifiedRoutes : list Route := [
  mkRoute GET "/" false;
  mkRoute POST "/register" false;
  mkRoute POST "/login" false;
  mkRoute POST "/logout" true;
  mkRoute GET "/api/students" true;
  mkRoute GET "/api/students/:id" true;
  mkRoute POST "/api/students" true;
  mkRoute PUT "/api/students/:id" true;
  mkRoute DELETE "/api/students/:id" true;
  mkRoute GET "/api/grades/all" true;
  mkRoute GET "/api/grades/student/:studentId" true;
  mkRoute POST "/api/grades" true;
  mkRoute GET "/api/attendance" true;
  mkRoute GET "/api/attendance/student/:studentId" true;
  mkRoute POST "/api/attendance" true;
  mkRoute GET "/api/attendance/stats" true;
  mkRoute GET "/api/fees" true;
  mkRoute GET "/api/fees/student/:studentId" true;
  mkRoute POST "/api/fees" true;
  mkRoute PUT "/api/fees/:id" true;
  mkRoute GET "/api/stats/dashboard" true;
  mkRoute PUT "/api/users/profile" true;
  mkRoute PUT "/api/users/change-password" true
].

(** ** Middleware and authentication routes

    Both servers have the same text here; the simplified one only adds
    [created_at] to the user object of the two responses. *)

Section Auth.
Context {E : Externals}.
Variable cfg : Config.

(** [req.header('Authorization')?.replace('Bearer ', '')] *)
Definition bearerToken (header : option string) : option string :=
  option_map (removeFirstOccurrence "Bearer ") header.

(** [inl]: the middleware answered itself; [inr]: [req.user] was set and
    [next()] called. *)
Definition authenticate (now : Date) (header : option string)
  : Response + AuthUser :=
  match bearerToken header with
  | None => inl (mkResponse 401 (ErrorBody "Access denied. No token provided."))
  | Some token =>
      if (token =? EmptyString)%string
      then inl (mkResponse 401 (ErrorBody "Access denied. No token provided."))
      else match jwtVerify token (JWT_SECRET cfg) (seconds now) with
           | Some decoded => inr decoded
           | None => inl (mkResponse 400 (ErrorBody "Invalid token"))
           end
  end.

(** [app.METHOD(path, authenticate, handler)] *)
Definition withAuth (now : Date) (header : option string)
  (handler : AuthUser -> Handler) : Handler :=
  fun st =>
    match authenticate now header with
    | inl r => (r, st)
    | inr user => handler user st
    end.

(** A registration of the route table run on a request: the handler sees
    [req.user] only behind the middleware. *)
Definition serve (r : Route) (now : Date) (header : option string)
  (handler : option AuthUser -> Handler) : Handler :=
  if usesAuthenticate r
  then withAuth now header (fun user => handler (Some user))
  else handler None.

(** [GET /] *)
Definition root : Handler :=
  fun st =>
    (mkResponse 200
       (RootBody (countDocuments (fun _ => true) (students st))
                 (countDocuments (fun _ => true) (users st))),
     st).

Definition userInfo (u : User.t) : UserInfo :=
  Build_UserInfo (User._id u) (User.full_name u) (User.email u) (User.role u).

Definition userRoles : list string := ["teacher"; "admin"].

Definition validateUser (full_name email : option string)
  (password role : string) (i : ObjectId) (now : Date) : Result User.t :=
  fn <- requiredString "User" "full_name" full_name ;;
  em <- requiredString "User" "email" email ;;
  pw <- requiredString "User" "password" (Some password) ;;
  rl <- enumOf "User" "role" userRoles role ;;
  inr (User.mk i fn em pw rl now).

Definition byEmail (email : option string) (u : User.t) : bool :=
  optStringEqb (Some (User.email u)) email.

Definition tokenFor (u : User.t) (now : Date) : string :=
  jwtSign (mkAuthUser (User._id u) (User.role u)) (JWT_SECRET cfg) (seconds now).

(** [POST /register] *)
Definition register (now : Date) (salt : string)
  (full_name email password role : option string) : Handler :=
  fun st =>
    match findOne (byEmail email) (users st) with
    | Some _ => (mkResponse 400 (ErrorBody "User already exists"), st)
    | None =>
        match password with
        | None =>
            (serverError (IllegalArguments "data and salt arguments required"), st)
        | Some pw =>
            let hashedPassword := bcryptHash pw salt in
            match validateUser full_name email hashedPassword
                    (orDefault role "teacher") (nextId st) now with
            | inl e => (serverError e, st)
            | inr user =>
                (mkResponse 201
                   (AuthBody "User registered successfully"
                      (tokenFor user now) (userInfo user)),
                 setUsers st (users st ++ [user]) (S (nextId st)))
            end
        end
    end.

(** [POST /login] *)
Definition login (now : Date) (email password : option string) : Handler :=
  fun st =>
    match findOne (byEmail email) (users st) with
    | None => (mkResponse 400 (ErrorBody "Invalid credentials"), st)
    | Some user =>
        match password with
        | None =>
            (serverError (IllegalArguments "data and hash arguments required"), st)
        | Some pw =>
            if bcryptCompare pw (User.password user)
            then (mkResponse 200
                    (AuthBody "Login successful"
                       (tokenFor user now) (userInfo user)), st)
            else (mkResponse 400 (ErrorBody "Invalid credentials"), st)
        end
    end.

(** [POST /logout] *)
Definition logout (user : AuthUser) : Handler :=
  fun st => (mkResponse 200 (MessageBody "Logged out successfully"), st).

End Auth.

(** ** The full server *)

Module Full.

Section Handlers.
Context {E : Externals}.
Variable cfg : Config.

Definition withDefault {A : Type} (v : option A) (d : A) : A :=
  match v with
  | Some a => a
  | None => d
  end.

Definition notificationTypes : list string :=
  ["info"; "warning"; "success"; "error"].

Definition notificationCategories : list string :=
  ["student"; "grade"; "attendance"; "fee"; "system"].

(** [new Notification({ ... })] followed by [save()]: [trim] runs as a
    setter, before the validators. *)
Definition newNotification (title message type category : option string)
  (recipient : option ObjectId) (i : ObjectId) (now : Date)
  : Result Notification.t :=
  tt <- requiredString "Notification" "title" (option_map trim title) ;;
  msg <- requiredString "Notification" "message" (option_map trim message) ;;
  ty <- enumOf "Notification" "type" notificationTypes
          (withDefault type "info") ;;
  cat <- enumOf "Notification" "category" notificationCategories
           (withDefault category "system") ;;
  rc <- required "Notification" "recipient" recipient ;;
  inr (Notification.mk i tt msg ty cat rc false now).

(** The notification a write handler adds for the acting user, after its
    own document was saved. *)
Definition notify (title message type category : string) (user : AuthUser)
  (now : Date) (ok : Response) (st : Store) : Response * Store :=
  match newNotification (Some title) (Some message) (Some type) (Some category)
          (Some (id user)) (nextId st) now with
  | inl e => (serverError e, st)
  | inr n => (ok, setNotifications st (notifications st ++ [n]) (S (nextId st)))
  end.

(** *** Students *)

Definition genders : list string := ["Male"; "Female"; "Other"].
Definition studentStatuses : list string := ["active"; "inactive"; "graduated"].

Definition validateStudent (name rollNumber class : option string)
  (age : option Number) (gender email phone address guardianName
   guardianPhone : option string) (i : ObjectId) (now : Date)
  : Result Student.t :=
  nm <- requiredString "Student" "name" name ;;
  rn <- requiredString "Student" "rollNumber" rollNumber ;;
  cl <- requiredString "Student" "class" class ;;
  ag <- required "Student" "age" age ;;
  g <- requiredString "Student" "gender" gender ;;
  gd <- enumOf "Student" "gender" genders g ;;
  em <- requiredString "Student" "email" email ;;
  inr (Student.mk i nm rn cl ag gd em phone address guardianName
         guardianPhone now "active" now).

(** [POST /api/students] *)
Definition createStudent (now : Date) (user : AuthUser)
  (name rollNumber class : option string) (age : option Number)
  (gender email phone address guardianName guardianPhone : option string)
  : Handler :=
  fun st =>
    match findOne (fun s => optStringEqb (Some (Student.rollNumber s)) rollNumber)
            (students st) with
    | Some _ => (mkResponse 400 (ErrorBody "Roll number already exists"), st)
    | None =>
        match validateStudent name rollNumber class age gender email phone
                address guardianName guardianPhone (nextId st) now with
        | inl e => (serverError e, st)
        | inr student =>
            notify "New Student Added"
              (Student.name student ++ " has been added to class "
               ++ Student.class student)
              "success" "student" user now
              (mkResponse 201 (StudentBody "Student created successfully" student))
              (setStudents st (students st ++ [student]) (S (nextId st)))
        end
    end.

(** The body of [PUT /api/students/:id]: any subset of the schema paths,
    [_id] and [created_at] included. *)
Record StudentUpdates : Type := {
  u_id : option ObjectId;
  u_name : option string;
  u_rollNumber : option string;
  u_class : option string;
  u_age : option Number;
  u_gender : option string;
  u_email : option string;
  u_phone : option string;
  u_address : option string;
  u_guardianName : option string;
  u_guardianPhone : option string;
  u_admissionDate : option Date;
  u_status : option string;
  u_created_at : option Date
}.

(** A required [String] path named by an update must not be emptied. *)
Definition updatedString (model path : string) (v : option string) : Result unit :=
  match v with
  | Some s => if (s =? EmptyString)%string then inl (ValidationError model path) else inr tt
  | None => inr tt
  end.

(** [runValidators: true]: the validators of the paths the update names. *)
Definition validateStudentUpdates (u : StudentUpdates) : Result unit :=
  _ <- updatedString "Student" "name" (u_name u) ;;
  _ <- updatedString "Student" "rollNumber" (u_rollNumber u) ;;
  _ <- updatedString "Student" "class" (u_class u) ;;
  _ <- updatedString "Student" "gender" (u_gender u) ;;
  _ <- optionalEnum "Student" "gender" genders (u_gender u) ;;
  _ <- updatedString "Student" "email" (u_email u) ;;
  _ <- optionalEnum "Student" "status" studentStatuses (u_status u) ;;
  inr tt.

Definition applyStudentUpdates (u : StudentUpdates) (s : Student.t) : Student.t :=
  Student.mk (Student._id s)
    (withDefault (u_name u) (Student.name s))
    (withDefault (u_rollNumber u) (Student.rollNumber s))
    (withDefault (u_class u) (Student.class s))
    (withDefault (u_age u) (Student.age s))
    (withDefault (u_gender u) (Student.gender s))
    (withDefault (u_email u) (Student.email s))
    (match u_phone u with Some v => Some v | None => Student.phone s end)
    (match u_address u with Some v => Some v | None => Student.address s end)
    (match u_guardianName u with
     | Some v => Some v | None => Student.guardianName s end)
    (match u_guardianPhone u with
     | Some v => Some v | None => Student.guardianPhone s end)
    (withDefault (u_admissionDate u) (Student.admissionDate s))
    (withDefault (u_status u) (Student.status s))
    (withDefault (u_created_at u) (Student.created_at s)).

(** The database refuses an update that would give the document another
    [_id]; one that names the [_id] it has changes nothing there. *)
Definition changesId (i : ObjectId) (u : StudentUpdates) : bool :=
  match u_id u with
  | Some j => negb (Nat.eqb j i)
  | None => false
  end.

(** The unique index on [rollNumber] rejects a value another document holds. *)
Definition rollNumberTaken (i : ObjectId) (u : StudentUpdates)
  (c : list Student.t) : bool :=
  match u_rollNumber u with
  | Some r =>
      existsb (fun s => negb (Nat.eqb (Student._id s) i)
                        && (Student.rollNumber s =? r)%string) c
  | None => false
  end.

(** [PUT /api/students/:id] *)
Definition updateStudent (user : AuthUser) (i : ObjectId) (updates : StudentUpdates)
  : Handler :=
  fun st =>
    match validateStudentUpdates updates with
    | inl e => (serverError e, st)
    | inr _ =>
        match findById Student._id i (students st) with
        | None => (mkResponse 404 (ErrorBody "Student not found"), st)
        | Some s =>
            if changesId i updates
            then (serverError (ImmutableField "_id"), st)
            else if rollNumberTaken i updates (students st)
            then (serverError (DuplicateKey "Student" "rollNumber"), st)
            else (mkResponse 200
                    (StudentBody "Student updated successfully"
                       (applyStudentUpdates updates s)),
                  setStudents st
                    (updateFirst (fun d => Nat.eqb (Student._id d) i)
                       (applyStudentUpdates updates) (students st))
                    (nextId st))
        end
    end.

(** [DELETE /api/students/:id] *)
Definition deleteStudent (user : AuthUser) (i : ObjectId) : Handler :=
  fun st =>
    match findByIdAndDelete Student._id i (students st) with
    | (None, _) => (mkResponse 404 (ErrorBody "Student not found"), st)
    | (Some _, remaining) =>
        (mkResponse 200
           (MessageBody "Student and related records deleted successfully"),
         mkStore (users st) remaining
           (deleteMany (fun g => Nat.eqb (Grade.student_id g) i) (grades st))
           (deleteMany (fun a => Nat.eqb (Attendance.student_id a) i)
              (attendances st))
           (deleteMany (fun f => Nat.eqb (Fee.student_id f) i) (fees st))
           (notifications st) (nextId st))
    end.

Definition populate (st : Store) (i : ObjectId) : option StudentRef :=
  option_map
    (fun s => Build_StudentRef (Student._id s) (Student.name s)
                (Student.rollNumber s) (Student.class s))
    (findById Student._id i (students st)).

(** *** Grades *)

(** The letter [POST /api/grades] computes; a comparison with [undefined]
    is false. *)
Definition letterGrade (marks : option Number) : string :=
  match marks with
  | None => "F"
  | Some m =>
      if Qle_bool 90 m then "A+"
      else if Qle_bool 80 m then "A"
      else if Qle_bool 70 m then "B"
      else if Qle_bool 60 m then "C"
      else if Qle_bool 50 m then "D"
      else "F"
  end.

Definition validateGrade (student_id : option ObjectId) (subject : option string)
  (marks : option Number) (grade : string) (term academic_year remarks
   : option string) (i : ObjectId) (now : Date) : Result Grade.t :=
  sid <- required "Grade" "student_id" student_id ;;
  sb <- requiredString "Grade" "subject" subject ;;
  m <- required "Grade" "marks" marks ;;
  mk <- inRange "Grade" "marks" 0 100 m ;;
  tm <- requiredString "Grade" "term" term ;;
  ay <- requiredString "Grade" "academic_year" academic_year ;;
  inr (Grade.mk i sid sb mk (Some grade) tm ay remarks now).

(** [POST /api/grades] *)
Definition createGrade (now : Date) (user : AuthUser)
  (student_id : option ObjectId) (subject : option string)
  (marks : option Number) (term academic_year remarks : option string)
  : Handler :=
  fun st =>
    let grade := letterGrade marks in
    match validateGrade student_id subject marks grade term academic_year
            remarks (nextId st) now with
    | inl e => (serverError e, st)
    | inr gradeRecord =>
        notify "Grade Added"
          ("Grade for " ++ withDefault subject "undefined" ++ " has been recorded")
          "info" "grade" user now
          (mkResponse 201 (GradeBody "Grade added successfully" gradeRecord))
          (setGrades st (grades st ++ [gradeRecord]) (S (nextId st)))
    end.

(** [GET /api/grades/student/:studentId] *)
Definition gradesOfStudent (user : AuthUser) (studentId : ObjectId) : Handler :=
  fun st =>
    (mkResponse 200
       (GradesBody
          (map (fun g => (g, populate st (Grade.student_id g)))
             (findMany (fun g => Nat.eqb (Grade.student_id g) studentId)
                (grades st)))),
     st).

(** *** Attendance *)

Definition attendanceStatuses : list string :=
  ["present"; "absent"; "late"; "excused"].

Definition optIdEqb (a : ObjectId) (b : option ObjectId) : bool :=
  match b with
  | Some x => Nat.eqb a x
  | None => false
  end.

Definition validateAttendance (student_id : option ObjectId)
  (date : option Date) (status remarks : option string) (i : ObjectId)
  (now : Date) : Result Attendance.t :=
  sid <- required "Attendance" "student_id" student_id ;;
  d <- required "Attendance" "date" date ;;
  s <- requiredString "Attendance" "status" status ;;
  sv <- enumOf "Attendance" "status" attendanceStatuses s ;;
  inr (Attendance.mk i sid d sv remarks now).

(** The filter of the lookup in [POST /api/attendance]: the request's date
    at the start of its day against the stored [date]. *)
Definition sameStudentAndDay (student_id : option ObjectId) (day : Date)
  (a : Attendance.t) : bool :=
  optIdEqb (Attendance.student_id a) student_id
  && (Attendance.date a =? day)%Z.

(** [POST /api/attendance] *)
Definition markAttendance (now : Date) (user : AuthUser)
  (student_id : option ObjectId) (date : option Date)
  (status remarks : option string) : Handler :=
  fun st =>
    match date with
    | None => (serverError (CastError "Attendance" "date"), st)
    | Some d =>
        match findOne (sameStudentAndDay student_id (startOfDay (tzOffset cfg) d))
                (attendances st) with
        | Some existingAttendance =>
            match validateAttendance
                    (Some (Attendance.student_id existingAttendance))
                    (Some (Attendance.date existingAttendance))
                    status remarks
                    (Attendance._id existingAttendance)
                    (Attendance.created_at existingAttendance) with
            | inl e => (serverError e, st)
            | inr updated =>
                (mkResponse 200
                   (AttendanceBody "Attendance updated successfully" updated),
                 setAttendances st
                   (saveExisting Attendance._id updated (attendances st))
                   (nextId st))
            end
        | None =>
            match validateAttendance student_id date status remarks
                    (nextId st) now with
            | inl e => (serverError e, st)
            | inr attendance =>
                (mkResponse 201
                   (AttendanceBody "Attendance marked successfully" attendance),
                 setAttendances st (attendances st ++ [attendance])
                   (S (nextId st)))
            end
        end
    end.

(** [GET /api/attendance?date=] *)
Definition attendanceOfDay (user : AuthUser) (date : option Date) : Handler :=
  fun st =>
    match date with
    | None => (mkResponse 400 (ErrorBody "Date parameter is required"), st)
    | Some d =>
        let searchDate := startOfDay (tzOffset cfg) d in
        let endDate := endOfDay (tzOffset cfg) searchDate in
        (mkResponse 200
           (AttendancesBody
              (map (fun a => (a, populate st (Attendance.student_id a)))
                 (findMany
                    (fun a => (searchDate <=? Attendance.date a)%Z
                              && (Attendance.date a <=? endDate)%Z)
                    (attendances st)))),
         st)
    end.

(** [GET /api/attendance/student/:studentId] *)
Definition attendanceOfStudent (user : AuthUser) (studentId : ObjectId)
  (startDate endDate : option Date) : Handler :=
  fun st =>
    let inQuery (a : Attendance.t) :=
      Nat.eqb (Attendance.student_id a) studentId
      && match startDate, endDate with
         | Some s, Some e =>
             (s <=? Attendance.date a)%Z && (Attendance.date a <=? e)%Z
         | _, _ => true
         end in
    (mkResponse 200
       (AttendancesBody
          (map (fun a => (a, populate st (Attendance.student_id a)))
             (sortDesc (fun a b => (Attendance.date b <=? Attendance.date a)%Z)
                (findMany inQuery (attendances st))))),
     st).

(** *** Fees *)

Definition paymentMethods : list string := ["cash"; "card"; "transfer"; "cheque"].
Definition feeStatuses : list string := ["paid"; "pending"; "overdue"].

(** [payment_date] is not passed by the handler: the schema default,
    [Date.now], fills it. *)
Definition validateFee (student_id : option ObjectId) (amount : option Number)
  (payment_method term academic_year receipt_number : option string)
  (status : string) (i : ObjectId) (now : Date) : Result Fee.t :=
  sid <- required "Fee" "student_id" student_id ;;
  am <- required "Fee" "amount" amount ;;
  pm <- optionalEnum "Fee" "payment_method" paymentMethods payment_method ;;
  tm <- requiredString "Fee" "term" term ;;
  ay <- requiredString "Fee" "academic_year" academic_year ;;
  sv <- enumOf "Fee" "status" feeStatuses status ;;
  inr (Fee.mk i sid am (Some now) pm tm ay sv receipt_number now).

Definition naira : string :=
  String (ascii_of_nat 226) (String (ascii_of_nat 130)
    (String (ascii_of_nat 166) EmptyString)).

(** [POST /api/fees] *)
Definition createFee (now : Date) (user : AuthUser)
  (student_id : option ObjectId) (amount : option Number)
  (payment_method term academic_year receipt_number status : option string)
  : Handler :=
  fun st =>
    match validateFee student_id amount payment_method term academic_year
            receipt_number (orDefault status "paid") (nextId st) now with
    | inl e => (serverError e, st)
    | inr fee =>
        notify "Fee Payment Recorded"
          ("Payment of " ++ naira ++ toLocaleString (Fee.amount fee)
           ++ " has been recorded")
          "success" "fee" user now
          (mkResponse 201 (FeeBody "Fee payment recorded successfully" fee))
          (setFees st (fees st ++ [fee]) (S (nextId st)))
    end.

(** [null] sorts below every date. *)
Definition optDateGeb (a b : option Date) : bool :=
  match a, b with
  | _, None => true
  | None, Some _ => false
  | Some x, Some y => (y <=? x)%Z
  end.

(** [GET /api/fees/student/:studentId] *)
Definition feesOfStudent (user : AuthUser) (studentId : ObjectId) : Handler :=
  fun st =>
    (mkResponse 200
       (FeesBody
          (map (fun f => (f, populate st (Fee.student_id f)))
             (sortDesc
                (fun a b => optDateGeb (Fee.payment_date a) (Fee.payment_date b))
                (findMany (fun f => Nat.eqb (Fee.student_id f) studentId)
                   (fees st))))),
     st).

(** *** Dashboard *)

Definition presentOn (today : Date) (a : Attendance.t) : bool :=
  (Attendance.date a =? today)%Z && (Attendance.status a =? "present")%string.

(** [GET /api/stats/dashboard] *)
Definition dashboard (now : Date) (user : AuthUser) : Handler :=
  fun st =>
    let totalStudents := countDocuments (fun _ => true) (students st) in
    let activeStudents :=
      countDocuments (fun s => (Student.status s =? "active")%string)
        (students st) in
    let totalClasses := distinct string_dec Student.class (students st) in
    let today := startOfDay (tzOffset cfg) now in
    let presentToday := countDocuments (presentOn today) (attendances st) in
    let pendingFees :=
      countDocuments (fun f => (Fee.status f =? "pending")%string) (fees st) in
    (mkResponse 200
       (DashboardBody
          (Build_Dashboard totalStudents activeStudents (length totalClasses)
             presentToday pendingFees)),
     st).

(** *** Notifications *)

Definition ownedBy (user : AuthUser) (n : Notification.t) : bool :=
  Nat.eqb (Notification.recipient n) (id user).

Definition ownedWithId (user : AuthUser) (i : ObjectId) (n : Notification.t)
  : bool :=
  Nat.eqb (Notification._id n) i && ownedBy user n.

Definition markRead (n : Notification.t) : Notification.t :=
  Notification.mk (Notification._id n) (Notification.title n)
    (Notification.message n) (Notification.type n) (Notification.category n)
    (Notification.recipient n) true (Notification.created_at n).

(** [GET /api/notifications]; [limitParam] is [parseInt(req.query.limit)],
    [None] when that is [NaN]. *)
Definition listNotifications (user : AuthUser) (limitParam : option Z)
  : Handler :=
  fun st =>
    (mkResponse 200
       (NotificationsBody
          (limit (withDefault limitParam 0%Z)
             (sortDesc
                (fun a b =>
                   (Notification.created_at b <=? Notification.created_at a)%Z)
                (findMany (ownedBy user) (notifications st))))),
     st).

(** [GET /api/notifications/unread-count] *)
Definition unreadCount (user : AuthUser) : Handler :=
  fun st =>
    (mkResponse 200
       (CountBody
          (countDocuments
             (fun n => ownedBy user n && negb (Notification.read n))
             (notifications st))),
     st).

(** [PUT /api/notifications/:id/read] *)
Definition markNotificationRead (user : AuthUser) (i : ObjectId) : Handler :=
  fun st =>
    match findOneAndUpdate (ownedWithId user i) markRead (notifications st) with
    | (None, _) => (mkResponse 404 (ErrorBody "Notification not found"), st)
    | (Some notification, updated) =>
        (mkResponse 200 (NotificationBody notification),
         setNotifications st updated (nextId st))
    end.

(** [PUT /api/notifications/mark-all-read] *)
Definition markAllRead (user : AuthUser) : Handler :=
  fun st =>
    (mkResponse 200 (MessageBody "All notifications marked as read"),
     setNotifications st
       (updateMany (fun n => ownedBy user n && negb (Notification.read n))
          markRead (notifications st))
       (nextId st)).

(** [DELETE /api/notifications/:id] *)
Definition deleteNotification (user : AuthUser) (i : ObjectId) : Handler :=
  fun st =>
    match findOneAndDelete (ownedWithId user i) (notifications st) with
    | (None, _) => (mkResponse 404 (ErrorBody "Notification not found"), st)
    | (Some _, remaining) =>
        (mkResponse 200 (MessageBody "Notification deleted"),
         setNotifications st remaining (nextId st))
    end.

(** [POST /api/notifications] *)
Definition createNotification (now : Date) (user : AuthUser)
  (title message type category : option string) (recipient : option ObjectId)
  : Handler :=
  fun st =>
    match newNotification title message (Some (orDefault type "info")) category
            (Some (withDefault recipient (id user))) (nextId st) now with
    | inl e => (serverError e, st)
    | inr notification =>
        (mkResponse 201 (NotificationBody notification),
         setNotifications st (notifications st ++ [notification])
           (S (nextId st)))
    end.

End Handlers.

End Full.

(** ** The simplified server: the handlers that differ from the full one *)

Module Simplified.

Module Grade.
Record t : Type := mk {
  _id : ObjectId;
  student_id : ObjectId;
  subject : string;
  marks : Number;
  created_at : Date
}.
End Grade.

Module Attendance.
Record t : Type := mk {
  _id : ObjectId;
  student_id : ObjectId;
  date : Date;
  status : string;
  created_at : Date
}.
End Attendance.

Module Fee.
Record t : Type := mk {
  _id : ObjectId;
  student_id : ObjectId;
  amount : Number;
  status : string;
  payment_date : option Date;
  created_at : Date
}.
End Fee.

Record Store : Type := mkStore {
  grades : list Grade.t;
  attendances : list Attendance.t;
  fees : list Fee.t;
  nextId : ObjectId
}.

Inductive Body : Type :=
| ErrorBody (error : string)
| ErrMessageBody (err : Exn)
| GradeBody (message : string) (grade : Grade.t)
| AttendanceBody (message : string) (attendance : Attendance.t)
| FeeBody (message : string) (fee : Fee.t).

Record Response : Type := mkResponse { code : nat; body : Body }.

Definition Handler : Type := Store -> Response * Store.

Definition serverError (e : Exn) : Response := mkResponse 500 (ErrMessageBody e).

Section Handlers.
Variable cfg : Config.

(** [POST /api/grades]: no letter is derived or stored. *)
Definition createGrade (now : Date) (user : AuthUser)
  (student_id : option ObjectId) (subject : option string)
  (marks : option Number) : Handler :=
  fun st =>
    match (sid <- required "Grade" "student_id" student_id ;;
           sb <- requiredString "Grade" "subject" subject ;;
           m <- required "Grade" "marks" marks ;;
           mk <- inRange "Grade" "marks" 0 100 m ;;
           inr (Grade.mk (nextId st) sid sb mk now)) with
    | inl e => (serverError e, st)
    | inr gradeRecord =>
        (mkResponse 201 (GradeBody "Grade added successfully" gradeRecord),
         mkStore (grades st ++ [gradeRecord]) (attendances st) (fees st)
           (S (nextId st)))
    end.

Definition validateAttendance (student_id : option ObjectId)
  (date : option Date) (status : option string) (i : ObjectId) (now : Date)
  : Result Attendance.t :=
  sid <- required "Attendance" "student_id" student_id ;;
  d <- required "Attendance" "date" date ;;
  s <- requiredString "Attendance" "status" status ;;
  sv <- enumOf "Attendance" "status" ["present"; "absent"] s ;;
  inr (Attendance.mk i sid d sv now).

Definition sameStudentAndDay (student_id : option ObjectId) (day : Date)
  (a : Attendance.t) : bool :=
  Full.optIdEqb (Attendance.student_id a) student_id
  && (Attendance.date a =? day)%Z.

(** [POST /api/attendance] *)
Definition markAttendance (now : Date) (user : AuthUser)
  (student_id : option ObjectId) (date : option Date) (status : option string)
  : Handler :=
  fun st =>
    match date with
    | None => (serverError (CastError "Attendance" "date"), st)
    | Some d =>
        match findOne (sameStudentAndDay student_id (startOfDay (tzOffset cfg) d))
                (attendances st) with
        | Some existingAttendance =>
            match validateAttendance
                    (Some (Attendance.student_id existingAttendance))
                    (Some (Attendance.date existingAttendance)) status
                    (Attendance._id existingAttendance)
                    (Attendance.created_at existingAttendance) with
            | inl e => (serverError e, st)
            | inr updated =>
                (mkResponse 200
                   (AttendanceBody "Attendance updated successfully" updated),
                 mkStore (grades st)
                   (saveExisting Attendance._id updated (attendances st))
                   (fees st) (nextId st))
            end
        | None =>
            match validateAttendance student_id date status (nextId st) now with
            | inl e => (serverError e, st)
            | inr attendance =>
                (mkResponse 201
                   (AttendanceBody "Attendance marked successfully" attendance),
                 mkStore (grades st) (attendances st ++ [attendance]) (fees st)
                   (S (nextId st)))
            end
        end
    end.

(** [status === 'paid' ? new Date() : null] on the request's [status]. *)
Definition paymentDateFor (status : option string) (now : Date) : option Date :=
  match status with
  | Some s => if (s =? "paid")%string then Some now else None
  | None => None
  end.

Definition validateFee (student_id : option ObjectId) (amount : option Number)
  (status : string) (payment_date : option Date) (i : ObjectId) (now : Date)
  : Result Fee.t :=
  sid <- required "Fee" "student_id" student_id ;;
  am <- required "Fee" "amount" amount ;;
  sv <- enumOf "Fee" "status" ["paid"; "pending"] status ;;
  inr (Fee.mk i sid am sv payment_date now).

(** [POST /api/fees] *)
Definition createFee (now : Date) (user : AuthUser)
  (student_id : option ObjectId) (amount : option Number)
  (status : option string) : Handler :=
  fun st =>
    match validateFee student_id amount (orDefault status "pending")
            (paymentDateFor status now) (nextId st) now with
    | inl e => (serverError e, st)
    | inr fee =>
        (mkResponse 201 (FeeBody "Fee recorded successfully" fee),
         mkStore (grades st) (attendances st) (fees st ++ [fee])
           (S (nextId st)))
    end.

(** The update document [{ status, payment_date }]: an [undefined] status
    is dropped from it, [payment_date] is always written; no validators
    run. *)
Definition applyFeeUpdate (status : option string) (now : Date) (f : Fee.t)
  : Fee.t :=
  Fee.mk (Fee._id f) (Fee.student_id f) (Fee.amount f)
    (match status with Some s => s | None => Fee.status f end)
    (paymentDateFor status now) (Fee.created_at f).

(** [PUT /api/fees/:id] *)
Definition updateFee (now : Date) (user : AuthUser) (i : ObjectId)
  (status : option string) : Handler :=
  fun st =>
    match findOneAndUpdate (fun f => Nat.eqb (Fee._id f) i)
            (applyFeeUpdate status now) (fees st) with
    | (None, _) => (mkResponse 404 (ErrorBody "Fee not found"), st)
    | (Some fee, updated) =>
        (mkResponse 200 (FeeBody "Fee updated successfully" fee),
         mkStore (grades st) (attendances st) updated (nextId st))
    end.

(** The fee operations of the simplified server, for runs of requests. *)
Inductive FeeOp : Type :=
| CreateFee (now : Date) (user : AuthUser) (student_id : option ObjectId)
    (amount : option Number) (status : option string)
| UpdateFee (now : Date) (user : AuthUser) (i : ObjectId)
    (status : option string).

Definition runFeeOp (op : FeeOp) (st : Store) : Store :=
  match op with
  | CreateFee now user sid amount status =>
      snd (createFee now user sid amount status st)
  | UpdateFee now user i status => snd (updateFee now user i status st)
  end.

Definition runFeeOps (ops : list FeeOp) (st : Store) : Store :=
  fold_left (fun s op => runFeeOp op s) ops st.

End Handlers.

End Simplified.

(** ** The other routes of the full server

    Read routes return a [Reply]: the JSON payload with its status, a
    handler's own error answer, or the catch-all for a thrown error. *)

Inductive Reply (A : Type) : Type :=
| Json (code : nat) (payload : A)
| Refused (code : nat) (error : string)
| Caught (err : Exn).

Arguments Json {A} code payload.
Arguments Refused {A} code error.
Arguments Caught {A} err.

Definition replyCode {A : Type} (r : Reply A) : nat :=
  match r with
  | Json c _ => c
  | Refused c _ => c
  | Caught _ => 500
  end.

(** A query-string parameter that passes [if (param)]. *)
Definition given (v : option string) : option string :=
  match v with
  | Some s => if (s =? EmptyString)%string then None else Some s
  | None => None
  end.

(** The equality a given parameter adds to the query object. *)
Definition matchesParam (v : option string) (field : string) : bool :=
  match given v with
  | Some x => (field =? x)%string
  | None => true
  end.

(** [$group: { _id: key, count: { $sum: 1 } }], groups in order of first
    occurrence. *)
Fixpoint countInto (k : string) (groups : list (string * nat))
  : list (string * nat) :=
  match groups with
  | [] => [(k, 1)]
  | (k', n) :: rest =>
      if (k' =? k)%string then (k', S n) :: rest
      else (k', n) :: countInto k rest
  end.

Definition groupCount (keys : list string) : list (string * nat) :=
  fold_left (fun groups k => countInto k groups) keys [].

(** [obj[key] = value] on an object kept as its list of entries. *)
Fixpoint setKey (k : string) (v : nat) (obj : list (string * nat))
  : list (string * nat) :=
  match obj with
  | [] => [(k, v)]
  | (k', v') :: rest =>
      if (k' =? k)%string then (k', v) :: rest else (k', v') :: setKey k v rest
  end.

Fixpoint getKey (k : string) (obj : list (string * nat)) : option nat :=
  match obj with
  | [] => None
  | (k', v) :: rest => if (k' =? k)%string then Some v else getKey k rest
  end.




(** The fields [populate('student_id', 'name rollNumber class email')]
    selects. *)
Record StudentContact : Type := {
  contact_id : ObjectId;
  contact_name : string;
  contact_rollNumber : string;
  contact_class : string;
  contact_email : string
}.

Record FeeRow : Type := {
  row_fee : Fee.t;
  row_student : option StudentContact;
  student_name : string
}.

Record Activity : Type := {
  activity_type : string;
  activity_title : string;
  activity_description : string;
  timeAgo : string;
  activity_created_at : Date
}.

(** An integer in a template literal. *)
Definition showZ (z : Z) : string := NilEmpty.string_of_int (Z.to_int z).

(** [formatTimeAgo(date)], [now] being the [new Date()] it reads. *)
Definition formatTimeAgo (now date : Date) : string :=
  let diffInSeconds := ((now - date) / 1000)%Z in
  if (diffInSeconds <? 60)%Z then "Just now"
  else if (diffInSeconds <? 3600)%Z
       then (showZ (diffInSeconds / 60) ++ "m ago")%string
  else if (diffInSeconds <? 86400)%Z
       then (showZ (diffInSeconds / 3600) ++ "h ago")%string
  else (showZ (diffInSeconds / 86400) ++ "d ago")%string.

Module Queries.

Section Handlers.
Context {E : Externals}.
Variable cfg : Config.

(** [$regex] with [$options: 'i'] is the database's: [regexI pattern] is
    the compiled matcher, [None] for a pattern the database rejects. *)
Variable regexI : string -> option (string -> bool).

(** [date.getFullYear()], [date.getMonth()] and
    [new Date(year, monthIndex, day)], the runtime's calendar arithmetic in
    the zone of the server. *)
Variable getFullYear getMonth : Date -> Z.
Variable newDate : Z -> Z -> Z -> Date.

(** [$avg] is the database's accumulator: [avg marks] is the double it
    returns for the marks of a group. *)
Variable avg : list Number -> Number.

Definition newestFirst {A : Type} (created : A -> Date) (l : list A) : list A :=
  sortDesc (fun a b => (created b <=? created a)%Z) l.

(** [GET /api/students/:id] *)
Definition getStudent (user : AuthUser) (i : ObjectId) (st : Store)
  : Reply Student.t :=
  match findById Student._id i (students st) with
  | None => Refused 404 "Student not found"
  | Some student => Json 200 student
  end.

Definition studentFilter (class status : option string) (s : Student.t) : bool :=
  matchesParam class (Student.class s) && matchesParam status (Student.status s).

(** [GET /api/students] *)
Definition listStudents (user : AuthUser) (class status search : option string)
  (st : Store) : Reply (list Student.t) :=
  match given search with
  | None =>
      Json 200
        (newestFirst Student.created_at
           (findMany (studentFilter class status) (students st)))
  | Some pattern =>
      match regexI pattern with
      | None => Caught (IllegalArguments "Regular expression is invalid")
      | Some found =>
          Json 200
            (newestFirst Student.created_at
               (findMany
                  (fun s => studentFilter class status s
                            && (found (Student.name s)
                                || found (Student.rollNumber s)
                                || found (Student.email s)))
                  (students st)))
      end
  end.

(** [GET /api/grades/all] *)
Definition allGrades (user : AuthUser) (st : Store)
  : Reply (list (Grade.t * option StudentRef)) :=
  Json 200
    (newestFirst (fun gp => Grade.created_at (fst gp))
       (map (fun g => (g, Full.populate st (Grade.student_id g))) (grades st))).

Definition inRangeOf (lo hi : Date) (a : Attendance.t) : bool :=
  (lo <=? Attendance.date a)%Z && (Attendance.date a <=? hi)%Z.

(** The [$match] stage of [GET /api/attendance/stats]. *)
Definition statsFilter (now : Date) (startDate endDate : option Date)
  (a : Attendance.t) : bool :=
  match startDate, endDate with
  | Some s, Some e => inRangeOf s e a
  | _, _ =>
      let firstDay := newDate (getFullYear now) (getMonth now) 1 in
      let lastDay := newDate (getFullYear now) (getMonth now + 1) 0 in
      inRangeOf firstDay lastDay a
  end.

Definition emptyStats : list (string * nat) :=
  [("present", 0); ("absent", 0); ("late", 0); ("excused", 0)].

(** [GET /api/attendance/stats] *)
Definition attendanceStats (now : Date) (user : AuthUser)
  (startDate endDate : option Date) (st : Store) : Reply (list (string * nat)) :=
  let stats :=
    groupCount
      (map Attendance.status
         (filter (statsFilter now startDate endDate) (attendances st))) in
  Json 200
    (fold_left (fun formattedStats stat => setKey (fst stat) (snd stat) formattedStats)
       stats emptyStats).

Definition populateContact (st : Store) (i : ObjectId) : option StudentContact :=
  option_map
    (fun s => Build_StudentContact (Student._id s) (Student.name s)
                (Student.rollNumber s) (Student.class s) (Student.email s))
    (findById Student._id i (students st)).

Definition feeFilter (status term academic_year : option string) (f : Fee.t)
  : bool :=
  matchesParam status (Fee.status f) && matchesParam term (Fee.term f)
  && matchesParam academic_year (Fee.academic_year f).

(** [fee.student_id?.name || 'N/A'] *)
Definition studentNameOf (c : option StudentContact) : string :=
  match c with
  | Some s => if (contact_name s =? EmptyString)%string then "N/A"
              else contact_name s
  | None => "N/A"
  end.

(** [GET /api/fees] *)
Definition listFees (user : AuthUser) (status term academic_year : option string)
  (st : Store) : Reply (list FeeRow) :=
  Json 200
    (map (fun f =>
            let c := populateContact st (Fee.student_id f) in
            Build_FeeRow f c (studentNameOf c))
       (sortDesc
          (fun a b => Full.optDateGeb (Fee.payment_date a) (Fee.payment_date b))
          (findMany (feeFilter status term academic_year) (fees st)))).

(** [GET /api/reports/class-distribution]: [$sort: { _id: 1 }] compares
    the class names byte by byte. *)
Definition classDistribution (user : AuthUser) (st : Store)
  : Reply (list (string * nat)) :=
  Json 200
    (sortDesc (fun a b => String.leb (fst a) (fst b))
       (groupCount
          (map Student.class
             (filter (fun s => (Student.status s =? "active")%string)
                (students st))))).



Definition studentActivity (now : Date) (s : Student.t) : Activity :=
  Build_Activity "student" "New student enrolled"
    (Student.name s ++ " joined the school")
    (formatTimeAgo now (Student.created_at s)) (Student.created_at s).

Definition feeActivity (now : Date) (f : Fee.t) (payer : StudentRef) : Activity :=
  Build_Activity "fee" "Fee payment received"
    (Full.naira ++ toLocaleString (Fee.amount f) ++ " from " ++ ref_name payer)
    (formatTimeAgo now (Fee.created_at f)) (Fee.created_at f).

Definition latestActivities (activities : list Activity) : list Activity :=
  firstn 5 (newestFirst activity_created_at activities).

(** [GET /api/activities/recent].  The latest attendance record is read
    through [attendance.records], which no attendance document has, and the
    latest grade through [grade.subject_id.name], a path the grade schema
    does not have: either read throws; so does [fee.student_id.name] when
    the fee's student is gone.  The catch block answers a fixed message. *)
Definition recentActivities (now : Date) (user : AuthUser) (st : Store)
  : Reply (list Activity) :=
  let activities :=
    map (studentActivity now)
      (firstn 2 (newestFirst Student.created_at (students st))) in
  match firstn 1
          (sortDesc (fun a b => (Attendance.date b <=? Attendance.date a)%Z)
             (attendances st)) with
  | _ :: _ => Refused 500 "Failed to load recent activities"
  | [] =>
      match firstn 1 (newestFirst Grade.created_at (grades st)) with
      | _ :: _ => Refused 500 "Failed to load recent activities"
      | [] =>
          match firstn 1
                  (newestFirst Fee.created_at
                     (findMany (fun f => (Fee.status f =? "paid")%string)
                        (fees st))) with
          | [] => Json 200 (latestActivities activities)
          | fee :: _ =>
              match Full.populate st (Fee.student_id fee) with
              | None => Refused 500 "Failed to load recent activities"
              | Some payer =>
                  Json 200
                    (latestActivities (activities ++ [feeActivity now fee payer]))
              end
          end
      end
  end.

End Handlers.

End Queries.

(** ** The account routes, which only the simplified server has *)

Module Account.

Record Profile : Type := {
  profile_id : ObjectId;
  profile_full_name : string;
  profile_email : string;
  profile_role : string;
  profile_created_at : Date
}.

Section Handlers.
Context {E : Externals}.

Definition profileOf (u : User.t) : Profile :=
  Build_Profile (User._id u) (User.full_name u) (User.email u) (User.role u)
    (User.created_at u).

(** [{ email, _id: { $ne: req.user.id } }] *)
Definition emailOfAnother (user : AuthUser) (email : option string) (u : User.t)
  : bool :=
  byEmail email u && negb (Nat.eqb (User._id u) (id user)).

(** The update [{ full_name, email }]: an [undefined] field is dropped
    from it. *)
Definition applyProfile (full_name email : option string) (u : User.t) : User.t :=
  User.mk (User._id u)
    (Full.withDefault full_name (User.full_name u))
    (Full.withDefault email (User.email u))
    (User.password u) (User.role u) (User.created_at u).

(** [PUT /api/users/profile] *)
Definition updateProfile (user : AuthUser) (full_name email : option string)
  (st : Store) : Reply (string * Profile) * Store :=
  match findOne (emailOfAnother user email) (users st) with
  | Some _ => (Refused 400 "Email already in use", st)
  | None =>
      match (_ <- Full.updatedString "User" "full_name" full_name ;;
             Full.updatedString "User" "email" email) with
      | inl e => (Caught e, st)
      | inr _ =>
          match findOneAndUpdate (fun u => Nat.eqb (User._id u) (id user))
                  (applyProfile full_name email) (users st) with
          | (None, _) => (Refused 404 "User not found", st)
          | (Some updated, all) =>
              (Json 200 ("Profile updated successfully", profileOf updated),
               setUsers st all (nextId st))
          end
      end
  end.

Definition withPassword (hashed : string) (u : User.t) : User.t :=
  User.mk (User._id u) (User.full_name u) (User.email u) hashed (User.role u)
    (User.created_at u).

(** [PUT /api/users/change-password] *)
Definition changePassword (salt : string) (user : AuthUser)
  (currentPassword newPassword : option string) (st : Store)
  : Reply string * Store :=
  match findById User._id (id user) (users st) with
  | None => (Refused 404 "User not found", st)
  | Some u =>
      match currentPassword with
      | None => (Caught (IllegalArguments "data and hash arguments required"), st)
      | Some current =>
          if bcryptCompare current (User.password u)
          then match newPassword with
               | None =>
                   (Caught (IllegalArguments "data and salt arguments required"),
                    st)
               | Some fresh =>
                   match requiredString "User" "password"
                           (Some (bcryptHash fresh salt)) with
                   | inl e => (Caught e, st)
                   | inr hashedPassword =>
                       (Json 200 "Password changed successfully",
                        setUsers st
                          (saveExisting User._id (withPassword hashedPassword u)
                             (users st))
                          (nextId st))
                   end
               end
          else (Refused 400 "Current password is incorrect", st)
      end
  end.

(** [POST /login] as the simplified server answers it: the user object
    carries [created_at] too. *)
Definition login (cfg : Config) (now : Date) (email password : option string)
  (st : Store) : Reply (string * string * Profile) :=
  match findOne (byEmail email) (users st) with
  | None => Refused 400 "Invalid credentials"
  | Some user =>
      match password with
      | None => Caught (IllegalArguments "data and hash arguments required")
      | Some pw =>
          if bcryptCompare pw (User.password user)
          then Json 200 ("Login successful", tokenFor cfg user now, profileOf user)
          else Refused 400 "Invalid credentials"
      end
  end.

End Handlers.

End Account.

(** ** Runs of write requests on the full server

    Every route of the full server that writes to the store, the bulk
    import apart; the caller is the user the middleware decoded. *)

Module Run.

Inductive Request : Type :=
| Register (now : Date) (salt : string)
    (full_name email password role : option string)
| CreateStudent (now : Date) (user : AuthUser)
    (name rollNumber class : option string) (age : option Number)
    (gender email phone address guardianName guardianPhone : option string)
| UpdateStudent (user : AuthUser) (i : ObjectId) (updates : Full.StudentUpdates)
| DeleteStudent (user : AuthUser) (i : ObjectId)
| CreateGrade (now : Date) (user : AuthUser) (student_id : option ObjectId)
    (subject : option string) (marks : option Number)
    (term academic_year remarks : option string)
| MarkAttendance (now : Date) (user : AuthUser) (student_id : option ObjectId)
    (date : option Date) (status remarks : option string)
| CreateFee (now : Date) (user : AuthUser) (student_id : option ObjectId)
    (amount : option Number)
    (payment_method term academic_year receipt_number status : option string)
| MarkNotificationRead (user : AuthUser) (i : ObjectId)
| MarkAllRead (user : AuthUser)
| DeleteNotification (user : AuthUser) (i : ObjectId)
| CreateNotification (now : Date) (user : AuthUser)
    (title message type category : option string) (recipient : option ObjectId).

Section Runs.
Context {E : Externals}.
Variable cfg : Config.

Definition handle (req : Request) : Handler :=
  match req with
  | Register now salt full_name email password role =>
      register cfg now salt full_name email password role
  | CreateStudent now user name rollNumber class age gender email phone address
      guardianName guardianPhone =>
      Full.createStudent now user name rollNumber class age gender email phone
        address guardianName guardianPhone
  | UpdateStudent user i updates => Full.updateStudent user i updates
  | DeleteStudent user i => Full.deleteStudent user i
  | CreateGrade now user student_id subject marks term academic_year remarks =>
      Full.createGrade now user student_id subject marks term academic_year
        remarks
  | MarkAttendance now user student_id date status remarks =>
      Full.markAttendance cfg now user student_id date status remarks
  | CreateFee now user student_id amount payment_method term academic_year
      receipt_number status =>
      Full.createFee now user student_id amount payment_method term
        academic_year receipt_number status
  | MarkNotificationRead user i => Full.markNotificationRead user i
  | MarkAllRead user => Full.markAllRead user
  | DeleteNotification user i => Full.deleteNotification user i
  | CreateNotification now user title message type category recipient =>
      Full.createNotification now user title message type category recipient
  end.

Definition step (st : Store) (req : Request) : Store := snd (handle req st).

Definition run (reqs : list Request) (st : Store) : Store :=
  fold_left step reqs st.

End Runs.

End Run.

(** ** A concrete instance of the external libraries

    Used to run the handlers on concrete requests: the hash prefixes a
    marker; a token is the user id in unary, a ["0"], the sign of the issue
    time, its magnitude in unary, a ["0"], then the role, and it verifies
    for seven days from its issue time. *)

Fixpoint ones (n : nat) : string :=
  match n with
  | O => EmptyString
  | S k => String "1" (ones k)
  end.

Fixpoint parseUnary (s : string) : option (nat * string) :=
  match s with
  | EmptyString => None
  | String c s' =>
      if Ascii.eqb c "1"
      then option_map (fun nr => (S (fst nr), snd nr)) (parseUnary s')
      else if Ascii.eqb c "0" then Some (0, s') else None
  end.

Definition sampleSign (payload : AuthUser) (iat : Z) : string :=
  (ones (id payload)
   ++ String "0" (String (if (iat <? 0)%Z then "-" else "+")%char
                    (ones (Z.abs_nat iat) ++ String "0" (role payload))))%string.

Definition sampleVerify (token : string) (t : Z) : option AuthUser :=
  match parseUnary token with
  | Some (i, String sign rest) =>
      match parseUnary rest with
      | Some (n, r) =>
          let iat := if Ascii.eqb sign "-" then (- Z.of_nat n)%Z else Z.of_nat n in
          if (t <? iat + sevenDays)%Z then Some (mkAuthUser i r) else None
      | None => None
      end
  | _ => None
  end.

Definition sampleExternals : Externals := {|
  bcryptHash := fun password salt => String "$" password;
  bcryptCompare := fun password hash => (hash =? String "$" password)%string;
  jwtSign := fun payload secret iat => sampleSign payload iat;
  jwtVerify := fun token secret t => sampleVerify token t;
  toLocaleString := fun n => "1,000"
|}.

Definition utc : Config := {| JWT_SECRET := "secret"; tzOffset := 0 |}.

Definition teacher7 : AuthUser := mkAuthUser 7 "teacher".

Definition sampleStudent (i : ObjectId) (roll : string) : Student.t :=
  Student.mk i "Ada" roll "JSS1" 12 "Female" "ada@school.com" None None None
    None 0 "active" 0.

(** A student with a grade, an attendance record and a fee, next to a
    second student with a grade. *)
Definition sampleStore : Store :=
  mkStore []
    [sampleStudent 1 "R1"; sampleStudent 2 "R2"]
    [Grade.mk 3 1 "Maths" 85 (Some "A") "T1" "2024" None 0;
     Grade.mk 4 2 "Maths" 40 (Some "F") "T1" "2024" None 0]
    [Attendance.mk 5 1 0 "present" None 0]
    [Fee.mk 6 1 5000 (Some 0%Z) None "T1" "2024" "paid" None 0]
    [] 7.

Definition adaUser : User.t :=
  User.mk 0 "Ada" "ada@school.com" "$pw" "teacher" 0.

Definition storeWithAda : Store := mkStore [adaUser] [] [] [] [] [] 1.

Definition genderUpdate (g : string) : Full.StudentUpdates :=
  Full.Build_StudentUpdates None None None None None (Some g) None None None
    None None None None None.

Definition noteFor (i recipient : ObjectId) : Notification.t :=
  Notification.mk i "Grade Added" "Grade for Maths has been recorded" "info"
    "grade" recipient false 0.

Definition storeWithNotes : Store :=
  mkStore [] [] [] [] [] [noteFor 0 7; noteFor 1 8] 2.

(** ** Notions the statements below are written with *)

(** The attendance records of a student whose date falls on the day of [t]. *)
Definition recordsOfDay (tz : Z) (sid : ObjectId) (t : Date)
  (c : list Attendance.t) : list Attendance.t :=
  filter (fun a => Nat.eqb (Attendance.student_id a) sid
                   && (startOfDay tz (Attendance.date a) =? startOfDay tz t)%Z) c.

Definition simplifiedRecordsOfDay (tz : Z) (sid : ObjectId) (t : Date)
  (c : list Simplified.Attendance.t) : list Simplified.Attendance.t :=
  filter (fun a => Nat.eqb (Simplified.Attendance.student_id a) sid
                   && (startOfDay tz (Simplified.Attendance.date a)
                       =? startOfDay tz t)%Z) c.

(** The letter the data model assigns to a mark. *)
Definition letterSpec (m : Number) (letter : string) : Prop :=
  (90 <= m -> letter = "A+")%Q /\
  (80 <= m -> m < 90 -> letter = "A")%Q /\
  (70 <= m -> m < 80 -> letter = "B")%Q /\
  (60 <= m -> m < 70 -> letter = "C")%Q /\
  (50 <= m -> m < 60 -> letter = "D")%Q /\
  (m < 50 -> letter = "F")%Q.

(** The routes the servers register without the middleware. *)
Definition isOpenRoute (r : Route) : bool :=
  isRoute GET "/" r || isRoute POST "/register" r || isRoute POST "/login" r.

(** Payloads that break a validation rule of the schema they are saved
    under: a required path missing (or, for a string, empty), a value
    outside its enum, marks outside [0, 100]. *)
Definition blank (v : option string) : Prop := v = None \/ v = Some EmptyString.

Definition outside (allowed : list string) (v : option string) : Prop :=
  exists s, v = Some s /\ memString s allowed = false.

Definition invalidGrade (student_id : option ObjectId)
  (subject : option string) (marks : option Number)
  (term academic_year : option string) : Prop :=
  student_id = None \/ blank subject \/ marks = None
  \/ (exists m, marks = Some m /\ (m < 0 \/ 100 < m)%Q)
  \/ blank term \/ blank academic_year.

Definition invalidStudentUpdates (u : Full.StudentUpdates) : Prop :=
  Full.u_name u = Some EmptyString \/ Full.u_rollNumber u = Some EmptyString
  \/ Full.u_class u = Some EmptyString \/ Full.u_email u = Some EmptyString
  \/ outside Full.genders (Full.u_gender u)
  \/ outside Full.studentStatuses (Full.u_status u).

Definition invalidAttendance (student_id : option ObjectId)
  (date : option Date) (status : option string) : Prop :=
  student_id = None \/ date = None \/ blank status
  \/ outside Full.attendanceStatuses status.

Definition invalidFee (student_id : option ObjectId) (amount : option Number)
  (payment_method term academic_year status : option string) : Prop :=
  student_id = None \/ amount = None
  \/ outside Full.paymentMethods payment_method
  \/ blank term \/ blank academic_year
  \/ (status <> Some EmptyString /\ outside Full.feeStatuses status).

Definition invalidUser (full_name email password role : option string) : Prop :=
  blank full_name \/ blank email \/ password = None
  \/ (role <> Some EmptyString /\ outside userRoles role).

Definition invalidStudent (name rollNumber class : option string)
  (age : option Number) (gender email : option string) : Prop :=
  blank name \/ blank rollNumber \/ blank class \/ age = None
  \/ blank gender \/ outside Full.genders gender \/ blank email.

Definition invalidNotification (title message type category : option string)
  : Prop :=
  blank (option_map trim title) \/ blank (option_map trim message)
  \/ (type <> Some EmptyString /\ outside Full.notificationTypes type)
  \/ outside Full.notificationCategories category.

(** A fee of the simplified server carries a payment date only when paid. *)
Definition paidWhenDated (f : Simplified.Fee.t) : Prop :=
  Simplified.Fee.payment_date f <> None -> Simplified.Fee.status f = "paid".

Definition noFees : Simplified.Store := Simplified.mkStore [] [] [] 0.

(** 2024-01-15 at 10:30 and at 15:00 UTC. *)
Definition jan15_1030 : Date := 1705314600000.
Definition jan15_1500 : Date := 1705330800000.

(** ** Notions of the further properties *)

(** A path of an updated document: the value the update names, else the
    value it had. *)
Definition named {A : Type} (update : option A) (old new : A) : Prop :=
  match update with
  | Some v => new = v
  | None => new = old
  end.

Definition namedOpt {A : Type} (update : option A) (old new : option A) : Prop :=
  match update with
  | Some v => new = Some v
  | None => new = old
  end.

(** The update that names only [name]. *)
Definition renameUpdate (n : string) : Full.StudentUpdates :=
  Full.Build_StudentUpdates None (Some n) None None None None None None None
    None None None None None.

(** The ids of a collection are distinct and below the counter. *)
Definition freshIds {A : Type} (idOf : A -> ObjectId) (next : ObjectId)
  (c : list A) : Prop :=
  NoDup (map idOf c) /\ Forall (fun i => i < next) (map idOf c).

(** Within each collection the ids are distinct and below the counter. *)
Definition idsOk (st : Store) : Prop :=
  freshIds User._id (nextId st) (users st)
  /\ freshIds Student._id (nextId st) (students st)
  /\ freshIds Grade._id (nextId st) (grades st)
  /\ freshIds Attendance._id (nextId st) (attendances st)
  /\ freshIds Fee._id (nextId st) (fees st)
  /\ freshIds Notification._id (nextId st) (notifications st).

(** The elementary changes the write routes make to the store, each with
    what the route has checked before making it. *)
Inductive Change : Store -> Store -> Prop :=
| AddUser (st : Store) (u : User.t) :
    User._id u = nextId st ->
    (forall u', In u' (users st) -> User.email u' <> User.email u) ->
    memString (User.role u) userRoles = true ->
    Change st (setUsers st (users st ++ [u]) (S (nextId st)))
| AddStudent (st : Store) (s : Student.t) :
    Student._id s = nextId st ->
    (forall s', In s' (students st) -> Student.rollNumber s' <> Student.rollNumber s) ->
    memString (Student.gender s) Full.genders = true ->
    Student.status s = "active" ->
    Change st (setStudents st (students st ++ [s]) (S (nextId st)))
| ReplaceStudent (st : Store) (i : ObjectId) (updates : Full.StudentUpdates) :
    Full.validateStudentUpdates updates = inr tt ->
    Full.rollNumberTaken i updates (students st) = false ->
    Change st
      (setStudents st
         (updateFirst (fun d => Nat.eqb (Student._id d) i)
            (Full.applyStudentUpdates updates) (students st))
         (nextId st))
| RemoveStudent (st : Store) (i : ObjectId) :
    Change st
      (mkStore (users st)
         (removeFirst (fun d => Nat.eqb (Student._id d) i) (students st))
         (deleteMany (fun g => Nat.eqb (Grade.student_id g) i) (grades st))
         (deleteMany (fun a => Nat.eqb (Attendance.student_id a) i)
            (attendances st))
         (deleteMany (fun f => Nat.eqb (Fee.student_id f) i) (fees st))
         (notifications st) (nextId st))
| AddGrade (st : Store) (g : Grade.t) :
    Grade._id g = nextId st ->
    (0 <= Grade.marks g /\ Grade.marks g <= 100)%Q ->
    Grade.grade g = Some (Full.letterGrade (Some (Grade.marks g))) ->
    Change st (setGrades st (grades st ++ [g]) (S (nextId st)))
| AddAttendance (st : Store) (a : Attendance.t) :
    Attendance._id a = nextId st ->
    memString (Attendance.status a) Full.attendanceStatuses = true ->
    Change st (setAttendances st (attendances st ++ [a]) (S (nextId st)))
| ReplaceAttendance (st : Store) (existing : Attendance.t) (status : string)
    (remarks : option string) :
    In existing (attendances st) ->
    memString status Full.attendanceStatuses = true ->
    Change st
      (setAttendances st
         (saveExisting Attendance._id
            (Attendance.mk (Attendance._id existing)
               (Attendance.student_id existing) (Attendance.date existing)
               status remarks (Attendance.created_at existing))
            (attendances st))
         (nextId st))
| AddFee (st : Store) (f : Fee.t) :
    Fee._id f = nextId st ->
    memString (Fee.status f) Full.feeStatuses = true ->
    ~ outside Full.paymentMethods (Fee.payment_method f) ->
    Fee.payment_date f <> None ->
    Change st (setFees st (fees st ++ [f]) (S (nextId st)))
| AddNotification (st : Store) (n : Notification.t) :
    Notification._id n = nextId st ->
    memString (Notification.type n) Full.notificationTypes = true ->
    memString (Notification.category n) Full.notificationCategories = true ->
    Notification.read n = false ->
    Change st (setNotifications st (notifications st ++ [n]) (S (nextId st)))
| ReadOne (st : Store) (p : Notification.t -> bool) :
    Change st
      (setNotifications st (updateFirst p Full.markRead (notifications st))
         (nextId st))
| ReadMany (st : Store) (p : Notification.t -> bool) :
    Change st
      (setNotifications st (updateMany p Full.markRead (notifications st))
         (nextId st))
| RemoveNotification (st : Store) (p : Notification.t -> bool) :
    Change st
      (setNotifications st (removeFirst p (notifications st)) (nextId st)).

(** A sequence of elementary changes. *)
Inductive Changes : Store -> Store -> Prop :=
| NoChange (st : Store) : Changes st st
| ThenChange (st st' st'' : Store) :
    Changes st st' -> Change st' st'' -> Changes st st''.

(** The enum and range rules of each schema. *)
Definition userOk (u : User.t) : Prop :=
  memString (User.role u) userRoles = true.

Definition studentOk (s : Student.t) : Prop :=
  memString (Student.gender s) Full.genders = true
  /\ memString (Student.status s) Full.studentStatuses = true.

Definition gradeOk (g : Grade.t) : Prop :=
  (0 <= Grade.marks g /\ Grade.marks g <= 100)%Q
  /\ exists letter, Grade.grade g = Some letter /\ letterSpec (Grade.marks g) letter.

Definition attendanceOk (a : Attendance.t) : Prop :=
  memString (Attendance.status a) Full.attendanceStatuses = true.

Definition feeOk (f : Fee.t) : Prop :=
  memString (Fee.status f) Full.feeStatuses = true
  /\ ~ outside Full.paymentMethods (Fee.payment_method f)
  /\ Fee.payment_date f <> None.

Definition notificationOk (n : Notification.t) : Prop :=
  memString (Notification.type n) Full.notificationTypes = true
  /\ memString (Notification.category n) Full.notificationCategories = true.

(** Every stored document satisfies the enum and range rules of its
    schema, every grade carries the letter of its marks, every fee a
    payment date. *)
Definition schemaOk (st : Store) : Prop :=
  Forall userOk (users st) /\ Forall studentOk (students st)
  /\ Forall gradeOk (grades st) /\ Forall attendanceOk (attendances st)
  /\ Forall feeOk (fees st) /\ Forall notificationOk (notifications st).

(** The two [unique] paths: the email of a user, the roll number of a
    student. *)
Definition keysUnique (st : Store) : Prop :=
  NoDup (map User.email (users st))
  /\ NoDup (map Student.rollNumber (students st)).

(** The three invariants together. *)
Definition storeOk (st : Store) : Prop :=
  idsOk st /\ keysUnique st /\ schemaOk st.

(** A run through every kind of write request, the second student
    repeating the roll number of the first. *)
Definition sampleRequests : list Run.Request :=
  [Run.Register 1 "salt" (Some "Ada") (Some "ada@school.com") (Some "pw")
     (Some "admin");
   Run.CreateStudent 2 teacher7 (Some "Bob") (Some "R1") (Some "JSS1")
     (Some 12%Q) (Some "Male") (Some "bob@school.com") None None None None;
   Run.CreateStudent 3 teacher7 (Some "Cy") (Some "R1") (Some "JSS1")
     (Some 12%Q) (Some "Male") (Some "cy@school.com") None None None None;
   Run.CreateGrade 4 teacher7 (Some 1) (Some "Maths") (Some 85%Q)
     (Some "First") (Some "2024") None;
   Run.MarkAttendance 5 teacher7 (Some 1) (Some jan15_1030) (Some "present") None;
   Run.CreateFee 6 teacher7 (Some 1) (Some 5000%Q) (Some "cash")
     (Some "First") (Some "2024") None (Some "pending");
   Run.UpdateStudent teacher7 1 (genderUpdate "Other");
   Run.MarkAllRead teacher7;
   Run.DeleteStudent teacher7 1].

(** The count an object of counts holds under a key, zero when absent. *)
Definition countOf (k : string) (obj : list (string * nat)) : nat :=
  match getKey k obj with
  | Some n => n
  | None => 0
  end.


(** The grades of a student, in stored order. *)
Definition gradesOf (k : ObjectId) (c : list Grade.t) : list Grade.t :=
  filter (fun g => Nat.eqb (Grade.student_id g) k) c.



(** The only user whose notifications a request can change. *)
Definition audience (req : Run.Request) : option ObjectId :=
  match req with
  | Run.Register _ _ _ _ _ _ => None
  | Run.CreateStudent _ user _ _ _ _ _ _ _ _ _ _ => Some (id user)
  | Run.UpdateStudent user _ _ => Some (id user)
  | Run.DeleteStudent user _ => Some (id user)
  | Run.CreateGrade _ user _ _ _ _ _ _ => Some (id user)
  | Run.MarkAttendance _ user _ _ _ _ => Some (id user)
  | Run.CreateFee _ user _ _ _ _ _ _ _ => Some (id user)
  | Run.MarkNotificationRead user _ => Some (id user)
  | Run.MarkAllRead user => Some (id user)
  | Run.DeleteNotification user _ => Some (id user)
  | Run.CreateNotification _ user _ _ _ _ recipient =>
      Some (Full.withDefault recipient (id user))
  end.

(** A second user. *)
Definition teacher8 : AuthUser := mkAuthUser 8 "teacher".

(** * Properties *)

(** ** Collections *)

Section CollectionLemmas.
Context {A : Type}.

Lemma find_app_last (p : A -> bool) (c : list A) (x : A) :
  find p c = None -> find p (c ++ [x]) = if p x then Some x else None.
Proof.
  induction c as [|d c IH]; simpl; intros H.
  - reflexivity.
  - destruct (p d); [discriminate | auto].
Qed.

Lemma in_removeFirst_unique (idOf : A -> ObjectId) (i : ObjectId)
  (c : list A) (x : A) :
  NoDup (map idOf c) ->
  In x (removeFirst (fun d => Nat.eqb (idOf d) i) c) <-> In x c /\ idOf x <> i.
Proof.
  induction c as [|d c IH]; simpl; intros ND.
  - tauto.
  - inversion ND as [|? ? Hnotin ND']; subst.
    destruct (Nat.eqb (idOf d) i) eqn:Hd.
    + apply Nat.eqb_eq in Hd. split.
      * intros Hin. split; [now right|].
        intros Hx. apply Hnotin. rewrite Hd, <- Hx. now apply in_map.
      * intros [[Heq | Hin] Hx]; [subst; contradiction | assumption].
    + apply Nat.eqb_neq in Hd. simpl. rewrite (IH ND'). split.
      * intros [Heq | [Hin Hx]]; [subst; auto | auto].
      * intros [[Heq | Hin] Hx]; auto.
Qed.

Lemma findById_removeFirst (idOf : A -> ObjectId) (i : ObjectId) (c : list A) :
  NoDup (map idOf c) ->
  findById idOf i (removeFirst (fun d => Nat.eqb (idOf d) i) c) = None.
Proof.
  intros ND. unfold findById, findOne.
  destruct (find _ _) as [x|] eqn:F; [|reflexivity].
  apply find_some in F. destruct F as [Hin Hx].
  apply (in_removeFirst_unique idOf i c x ND) in Hin.
  apply Nat.eqb_eq in Hx. tauto.
Qed.

Lemma findMany_deleteMany (p q : A -> bool) (c : list A) :
  (forall d, q d = true -> p d = true) ->
  findMany q (deleteMany p c) = [].
Proof.
  intros Hqp. unfold findMany, deleteMany.
  induction c as [|d c IH]; simpl; [reflexivity|].
  destruct (p d) eqn:Hp; simpl; [assumption|].
  destruct (q d) eqn:Hq; [|assumption].
  apply Hqp in Hq. congruence.
Qed.

Lemma in_deleteMany (p : A -> bool) (c : list A) (x : A) :
  In x (deleteMany p c) <-> In x c /\ p x = false.
Proof.
  unfold deleteMany. rewrite filter_In.
  destruct (p x); simpl; intuition congruence.
Qed.

Lemma in_deleteMany_by_key (key : A -> ObjectId) (i : ObjectId) (c : list A)
  (x : A) :
  In x (deleteMany (fun d => Nat.eqb (key d) i) c) <-> In x c /\ key x <> i.
Proof.
  rewrite in_deleteMany, Nat.eqb_neq. tauto.
Qed.

Lemma in_insertDesc (geb : A -> A -> bool) (x y : A) (l : list A) :
  In y (insertDesc geb x l) <-> y = x \/ In y l.
Proof.
  induction l as [|z l IH]; simpl.
  - intuition.
  - destruct (geb x z); simpl; [intuition|].
    rewrite IH. intuition.
Qed.

Lemma in_sortDesc (geb : A -> A -> bool) (y : A) (l : list A) :
  In y (sortDesc geb l) <-> In y l.
Proof.
  induction l as [|x l IH]; simpl; [tauto|].
  rewrite in_insertDesc, IH. intuition.
Qed.

Lemma in_limit (n : Z) (y : A) (l : list A) : In y (limit n l) -> In y l.
Proof.
  unfold limit. destruct (n =? 0)%Z; [auto|].
  intros H. rewrite <- (firstn_skipn (Z.abs_nat n) l).
  apply in_or_app. now left.
Qed.

End CollectionLemmas.

(** ** Strings and validators *)

Lemma requiredString_present (model path s : string) :
  s <> EmptyString -> requiredString model path (Some s) = inr s.
Proof.
  intros H. simpl. destruct (String.eqb_spec s EmptyString); [contradiction | reflexivity].
Qed.

Lemma whiteByte_of (c : ascii) :
  In (nat_of_ascii c) whiteBytes -> whiteByte c = true.
Proof.
  intros H. unfold whiteByte. apply existsb_exists.
  exists (nat_of_ascii c). split; [exact H | apply Nat.eqb_refl].
Qed.

Ltac white_bytes H :=
  unfold isSpace, isSpace2, isSpace3 in H; cbv zeta in H;
  repeat rewrite ?orb_true_iff, ?andb_true_iff, ?Nat.eqb_eq, ?Nat.leb_le in H;
  repeat split; apply whiteByte_of; unfold whiteBytes; simpl; lia.

Lemma isSpace_bytes (c : ascii) : isSpace c = true -> whiteByte c = true.
Proof. intros H. white_bytes H. Qed.

Lemma isSpace2_bytes (c1 c2 : ascii) :
  isSpace2 c1 c2 = true -> whiteByte c1 = true /\ whiteByte c2 = true.
Proof. intros H. white_bytes H. Qed.

Lemma isSpace3_bytes (c1 c2 c3 : ascii) :
  isSpace3 c1 c2 c3 = true ->
  whiteByte c1 = true /\ whiteByte c2 = true /\ whiteByte c3 = true.
Proof. intros H. white_bytes H. Qed.

(** What [trimStart] strips entirely is made of white bytes. *)
Lemma trimStart_white (s : string) :
  trimStart s = EmptyString ->
  Forall (fun c => whiteByte c = true) (list_ascii_of_string s).
Proof.
  assert (H : forall n s, String.length s <= n -> trimStart s = EmptyString ->
                Forall (fun c => whiteByte c = true) (list_ascii_of_string s)).
  { clear s. induction n as [|n IH]; intros s Hlen Hs.
    - destruct s; [constructor | simpl in Hlen; lia].
    - destruct s as [|c1 s1]; [constructor|]. cbn [trimStart] in Hs.
      simpl in Hlen.
      destruct (isSpace c1) eqn:H1.
      { constructor; [now apply isSpace_bytes | apply IH; [lia | exact Hs]]. }
      destruct s1 as [|c2 s2]; [discriminate|]. simpl in Hlen.
      destruct (isSpace2 c1 c2) eqn:H2.
      { destruct (isSpace2_bytes _ _ H2) as [W1 W2].
        constructor; [exact W1|]. constructor; [exact W2|].
        apply IH; [lia | exact Hs]. }
      destruct s2 as [|c3 s3]; [discriminate|]. simpl in Hlen.
      destruct (isSpace3 c1 c2 c3) eqn:H3; [|discriminate].
      destruct (isSpace3_bytes _ _ _ H3) as [W1 [W2 W3]].
      constructor; [exact W1|]. constructor; [exact W2|].
      constructor; [exact W3|]. apply IH; [lia | exact Hs]. }
  apply (H (String.length s)). constructor.
Qed.

Lemma trimStart_idempotent (s : string) : trimStart (trimStart s) = trimStart s.
Proof.
  assert (H : forall n s, String.length s <= n ->
                trimStart (trimStart s) = trimStart s).
  { clear s. induction n as [|n IH]; intros s Hlen.
    - destruct s; [reflexivity | simpl in Hlen; lia].
    - destruct s as [|c1 s1]; [reflexivity|]. simpl in Hlen.
      cbn [trimStart]. destruct (isSpace c1) eqn:H1; [apply IH; lia|].
      destruct s1 as [|c2 s2].
      { cbn [trimStart]. now rewrite H1. }
      simpl in Hlen.
      destruct (isSpace2 c1 c2) eqn:H2; [apply IH; lia|].
      destruct s2 as [|c3 s3].
      { cbn [trimStart]. now rewrite H1, H2. }
      simpl in Hlen.
      destruct (isSpace3 c1 c2 c3) eqn:H3; [apply IH; lia|].
      cbn [trimStart]. now rewrite H1, H2, H3. }
  apply (H (String.length s)). constructor.
Qed.

Lemma trimEnd_nonempty (s : string) :
  trimStart s <> EmptyString -> trimEnd s <> EmptyString.
Proof.
  intros H. destruct s as [|c s]; [now simpl in H|].
  cbn [trimEnd]. unfold allWhite.
  destruct (String.eqb_spec (trimStart (String c s)) EmptyString);
    [contradiction | discriminate].
Qed.

Lemma trim_nonempty (s : string) :
  trimStart s <> EmptyString -> trim s <> EmptyString.
Proof.
  intros H. unfold trim. apply trimEnd_nonempty.
  now rewrite trimStart_idempotent.
Qed.

Lemma in_bytes_of_append (a b : string) (c : ascii) :
  In c (list_ascii_of_string (a ++ String c b)).
Proof.
  induction a as [|x a IH]; simpl; [now left | now right].
Qed.

(** A string with a byte that no stripped character has is not emptied. *)
Lemma trim_visible (a b : string) (c : ascii) :
  whiteByte c = false -> trim (a ++ String c b) <> EmptyString.
Proof.
  intros Hc. apply trim_nonempty. intros H. apply trimStart_white in H.
  rewrite Forall_forall in H.
  rewrite (H c (in_bytes_of_append a b c)) in Hc. discriminate.
Qed.

Lemma trim_starts_nonspace (c : ascii) (s : string) :
  whiteByte c = false -> trim (String c s) <> EmptyString.
Proof.
  intros H. exact (trim_visible EmptyString s c H).
Qed.


(** ** Attendance *)

(** C1 (the code departs from the claim).  Marking student 1 present at
    10:30 and then absent at 15:00 of the same day, on an empty store of
    either server, answers 201 both times and leaves two records for that
    student and day: the lookup compares the start of the request's day with
    the stored date, and the stored date is the request's date as sent. *)
Theorem markAttendance_same_day_inserts_twice :
  let first :=
    Full.markAttendance utc jan15_1030 teacher7 (Some 1) (Some jan15_1030)
      (Some "present") None emptyStore in
  let second :=
    Full.markAttendance utc jan15_1500 teacher7 (Some 1) (Some jan15_1500)
      (Some "absent") None (snd first) in
  let first' :=
    Simplified.markAttendance utc jan15_1030 teacher7 (Some 1)
      (Some jan15_1030) (Some "present") (Simplified.mkStore [] [] [] 0) in
  let second' :=
    Simplified.markAttendance utc jan15_1500 teacher7 (Some 1)
      (Some jan15_1500) (Some "absent") (snd first') in
  startOfDay 0 jan15_1030 = startOfDay 0 jan15_1500 /\
  code (fst first) = 201 /\ code (fst second) = 201 /\
  map Attendance.status
    (recordsOfDay 0 1 jan15_1030 (attendances (snd second)))
  = ["present"; "absent"] /\
  Simplified.code (fst second') = 201 /\
  map Simplified.Attendance.status
    (simplifiedRecordsOfDay 0 1 jan15_1030 (Simplified.attendances (snd second')))
  = ["present"; "absent"].
Proof.
  vm_compute. repeat split.
Qed.

Lemma memString_nonempty (s : string) (l : list string) :
  memString s l = true -> memString EmptyString l = false -> s <> EmptyString.
Proof.
  intros Hs He ->. congruence.
Qed.

Lemma validateAttendance_accepts (sid : ObjectId) (d : Date)
  (status : string) (remarks : option string) (i : ObjectId) (now : Date) :
  memString status Full.attendanceStatuses = true ->
  Full.validateAttendance (Some sid) (Some d) (Some status) remarks i now
  = inr (Attendance.mk i sid d status remarks now).
Proof.
  intros Hs. unfold Full.validateAttendance. cbn [required bindResult].
  rewrite requiredString_present
    by (apply (memString_nonempty _ _ Hs); reflexivity).
  cbn [bindResult]. unfold enumOf. now rewrite Hs.
Qed.

Lemma updateFirst_last {A : Type} (p : A -> bool) (f : A -> A) (c : list A)
  (x : A) :
  (forall y, In y c -> p y = false) -> p x = true ->
  updateFirst p f (c ++ [x]) = c ++ [f x].
Proof.
  induction c as [|d c IH]; simpl; intros Hc Hx.
  - now rewrite Hx.
  - rewrite (Hc d) by now left. f_equal. apply IH; auto.
Qed.

Lemma no_record_of_day (tz : Z) (sid : ObjectId) (d : Date)
  (c : list Attendance.t) :
  recordsOfDay tz sid d c = [] ->
  findOne (Full.sameStudentAndDay (Some sid) (startOfDay tz d)) c = None.
Proof.
  intros Hnone. unfold findOne.
  destruct (find _ c) as [a|] eqn:F; [exfalso | reflexivity].
  apply find_some in F. destruct F as [Hin Hp].
  unfold Full.sameStudentAndDay, Full.optIdEqb in Hp.
  apply andb_true_iff in Hp. destruct Hp as [Hs Hd].
  apply Z.eqb_eq in Hd.
  assert (Hrec : In a (recordsOfDay tz sid d c)).
  { unfold recordsOfDay. apply filter_In. split; [assumption|].
    rewrite Hs, Hd. cbn [andb]. apply Z.eqb_eq.
    unfold startOfDay at 1 2.
    replace (d - (d + tz) mod msPerDay + tz)%Z
      with ((d + tz) - (d + tz) mod msPerDay)%Z by ring.
    rewrite Zminus_mod_idemp_r, Z.sub_diag, Z.mod_0_l by discriminate.
    unfold startOfDay. ring. }
  rewrite Hnone in Hrec. contradiction.
Qed.

Lemma markAttendance_inserts (cfg : Config) (now : Date) (user : AuthUser)
  (sid : ObjectId) (d : Date) (status : string) (remarks : option string)
  (st : Store) :
  findOne (Full.sameStudentAndDay (Some sid) (startOfDay (tzOffset cfg) d))
    (attendances st) = None ->
  memString status Full.attendanceStatuses = true ->
  Full.markAttendance cfg now user (Some sid) (Some d) (Some status) remarks st
  = (mkResponse 201
       (AttendanceBody "Attendance marked successfully"
          (Attendance.mk (nextId st) sid d status remarks now)),
     setAttendances st
       (attendances st ++ [Attendance.mk (nextId st) sid d status remarks now])
       (S (nextId st))).
Proof.
  intros Hfind Hs. unfold Full.markAttendance. rewrite Hfind.
  now rewrite (validateAttendance_accepts _ _ _ _ _ _ Hs).
Qed.

Lemma markAttendance_updates (cfg : Config) (now : Date) (user : AuthUser)
  (sid : ObjectId) (d : Date) (status : string) (remarks : option string)
  (st : Store) (existing : Attendance.t) :
  findOne (Full.sameStudentAndDay (Some sid) (startOfDay (tzOffset cfg) d))
    (attendances st) = Some existing ->
  memString status Full.attendanceStatuses = true ->
  let updated :=
    Attendance.mk (Attendance._id existing) (Attendance.student_id existing)
      (Attendance.date existing) status remarks
      (Attendance.created_at existing) in
  Full.markAttendance cfg now user (Some sid) (Some d) (Some status) remarks st
  = (mkResponse 200 (AttendanceBody "Attendance updated successfully" updated),
     setAttendances st (saveExisting Attendance._id updated (attendances st))
       (nextId st)).
Proof.
  intros Hfind Hs. cbv zeta. unfold Full.markAttendance. rewrite Hfind.
  now rewrite (validateAttendance_accepts _ _ _ _ _ _ Hs).
Qed.

(** What does hold of the upsert: when the first of two marks of a day is
    dated exactly at the start of that day, and the store held no record of
    that student and day, the second mark updates the record of the first
    in place, whatever its time of day. *)
Lemma markAttendance_updates_start_of_day_record (cfg : Config)
  (now1 now2 : Date) (user : AuthUser) (sid : ObjectId) (d1 d2 : Date)
  (status1 status2 : string) (remarks1 remarks2 : option string) (st : Store) :
  recordsOfDay (tzOffset cfg) sid d1 (attendances st) = [] ->
  (forall a, In a (attendances st) -> Attendance._id a <> nextId st) ->
  startOfDay (tzOffset cfg) d1 = d1 ->
  startOfDay (tzOffset cfg) d2 = d1 ->
  memString status1 Full.attendanceStatuses = true ->
  memString status2 Full.attendanceStatuses = true ->
  let st1 :=
    snd (Full.markAttendance cfg now1 user (Some sid) (Some d1) (Some status1)
           remarks1 st) in
  let second :=
    Full.markAttendance cfg now2 user (Some sid) (Some d2) (Some status2)
      remarks2 st1 in
  code (fst second) = 200
  /\ recordsOfDay (tzOffset cfg) sid d1 (attendances (snd second))
     = [Attendance.mk (nextId st) sid d1 status2 remarks2 now1].
Proof.
  intros Hnone Hfresh Hd1 Hd2 Hs1 Hs2. cbv zeta.
  pose proof (no_record_of_day _ _ _ _ Hnone) as Hfind.
  rewrite (markAttendance_inserts cfg now1 user sid d1 status1 remarks1 st
             Hfind Hs1).
  cbn [snd]. rewrite Hd1 in Hfind.
  set (first := Attendance.mk (nextId st) sid d1 status1 remarks1 now1).
  assert (Hfound :
            findOne (Full.sameStudentAndDay (Some sid)
                       (startOfDay (tzOffset cfg) d2))
              (attendances
                 (setAttendances st (attendances st ++ [first])
                    (S (nextId st))))
            = Some first).
  { cbn [attendances setAttendances]. rewrite Hd2. unfold findOne in *.
    rewrite (find_app_last _ _ _ Hfind).
    unfold Full.sameStudentAndDay, Full.optIdEqb, first.
    cbn [Attendance.student_id Attendance.date].
    now rewrite Nat.eqb_refl, Z.eqb_refl. }
  rewrite (markAttendance_updates cfg now2 user sid d2 status2 remarks2 _
             first Hfound Hs2).
  cbn [fst snd code attendances setAttendances first Attendance._id
       Attendance.student_id Attendance.date Attendance.created_at].
  split; [reflexivity|].
  unfold saveExisting. cbn [Attendance._id].
  rewrite updateFirst_last.
  - unfold recordsOfDay in *. rewrite filter_app, Hnone.
    cbn [filter Attendance.student_id Attendance.date app].
    now rewrite Nat.eqb_refl, Z.eqb_refl.
  - intros y Hy. apply Nat.eqb_neq. now apply Hfresh.
  - apply Nat.eqb_refl.
Qed.

(** ** Students *)

(** C2.  Deleting an existing student answers 200, removes that student
    and exactly the grades, attendance records and fees that name it, so
    that the three per-student lookups return the empty list; deleting an id
    that no student has answers 404 and leaves the whole store as it was. *)
Theorem deleteStudent_cascades (user : AuthUser) (i : ObjectId) (st : Store) :
  NoDup (map Student._id (students st)) ->
  (forall s, findById Student._id i (students st) = Some s ->
     exists st',
       Full.deleteStudent user i st
       = (mkResponse 200
            (MessageBody "Student and related records deleted successfully"),
          st')
       /\ ~ In s (students st')
       /\ findById Student._id i (students st') = None
       /\ (forall s', In s' (students st')
                      <-> In s' (students st) /\ Student._id s' <> i)
       /\ (forall g, In g (grades st')
                     <-> In g (grades st) /\ Grade.student_id g <> i)
       /\ (forall a, In a (attendances st')
                     <-> In a (attendances st) /\ Attendance.student_id a <> i)
       /\ (forall f, In f (fees st')
                     <-> In f (fees st) /\ Fee.student_id f <> i)
       /\ users st' = users st /\ notifications st' = notifications st
       /\ Full.gradesOfStudent user i st'
          = (mkResponse 200 (GradesBody []), st')
       /\ (forall startDate endDate,
             Full.attendanceOfStudent user i startDate endDate st'
             = (mkResponse 200 (AttendancesBody []), st'))
       /\ Full.feesOfStudent user i st' = (mkResponse 200 (FeesBody []), st'))
  /\ (findById Student._id i (students st) = None ->
      Full.deleteStudent user i st
      = (mkResponse 404 (ErrorBody "Student not found"), st)).
Proof.
  intros ND. split.
  - intros s Hs. unfold Full.deleteStudent, findByIdAndDelete, findOneAndDelete.
    unfold findById in Hs. rewrite Hs.
    eexists. split; [reflexivity|]. cbn [students grades attendances fees
                                         users notifications].
    assert (Hkeep : forall s', In s' (removeFirst
                       (fun d => Nat.eqb (Student._id d) i) (students st))
                     <-> In s' (students st) /\ Student._id s' <> i)
      by (intros s'; now apply in_removeFirst_unique).
    assert (Hid : Student._id s = i)
      by (apply find_some in Hs; now apply Nat.eqb_eq).
    repeat match goal with |- _ /\ _ => split end.
    + intros Hin. apply Hkeep in Hin. tauto.
    + now apply findById_removeFirst.
    + apply Hkeep.
    + intros g. apply in_deleteMany_by_key.
    + intros a. apply in_deleteMany_by_key.
    + intros f. apply in_deleteMany_by_key.
    + reflexivity.
    + reflexivity.
    + unfold Full.gradesOfStudent. cbn [grades].
      rewrite findMany_deleteMany; auto.
    + intros startDate endDate. unfold Full.attendanceOfStudent.
      cbn [attendances]. rewrite findMany_deleteMany; [reflexivity|].
      intros d Hd. apply andb_true_iff in Hd. tauto.
    + unfold Full.feesOfStudent. cbn [fees].
      rewrite findMany_deleteMany; auto.
  - intros Hnone. unfold Full.deleteStudent, findByIdAndDelete, findOneAndDelete.
    unfold findById in Hnone. rewrite Hnone. reflexivity.
Qed.

Lemma deleteStudent_cascades_witness :
  (exists st',
     Full.deleteStudent teacher7 1 sampleStore
     = (mkResponse 200
          (MessageBody "Student and related records deleted successfully"),
        st')
     /\ findById Student._id 1 (students st') = None
     /\ Full.gradesOfStudent teacher7 1 st'
        = (mkResponse 200 (GradesBody []), st')
     /\ Full.feesOfStudent teacher7 1 st' = (mkResponse 200 (FeesBody []), st'))
  /\ Full.deleteStudent teacher7 9 sampleStore
     = (mkResponse 404 (ErrorBody "Student not found"), sampleStore).
Proof.
  assert (ND : NoDup (map Student._id (students sampleStore))).
  { simpl. repeat constructor; simpl; intuition discriminate. }
  destruct (deleteStudent_cascades teacher7 1 sampleStore ND) as [Hdel _].
  destruct (deleteStudent_cascades teacher7 9 sampleStore ND) as [_ Hnone].
  split.
  - destruct (Hdel (sampleStudent 1 "R1") eq_refl) as [st' H].
    exists st'. tauto.
  - apply Hnone. reflexivity.
Defined.

(** ** Grades *)

Lemma Qle_bool_false (x y : Q) : Qle_bool x y = false -> (y < x)%Q.
Proof.
  intros H. apply Qnot_le_lt. intros C. apply Qle_bool_iff in C. congruence.
Qed.

Lemma letterGrade_meets_spec (m : Number) : letterSpec m (Full.letterGrade (Some m)).
Proof.
  unfold letterSpec, Full.letterGrade.
  destruct (Qle_bool 90 m) eqn:H90;
    [apply Qle_bool_iff in H90 | apply Qle_bool_false in H90;
     destruct (Qle_bool 80 m) eqn:H80;
     [apply Qle_bool_iff in H80 | apply Qle_bool_false in H80;
      destruct (Qle_bool 70 m) eqn:H70;
      [apply Qle_bool_iff in H70 | apply Qle_bool_false in H70;
       destruct (Qle_bool 60 m) eqn:H60;
       [apply Qle_bool_iff in H60 | apply Qle_bool_false in H60;
        destruct (Qle_bool 50 m) eqn:H50;
        [apply Qle_bool_iff in H50 | apply Qle_bool_false in H50]]]]];
    repeat split; intros; first [reflexivity | exfalso; lra].
Qed.




(** ** Registration and login *)

Lemma parseUnary_ones (n : nat) (r : string) :
  parseUnary (ones n ++ String "0" r) = Some (n, r).
Proof.
  induction n as [|n IH]; simpl; [reflexivity|].
  now rewrite IH.
Qed.

Lemma sampleVerify_sign (payload : AuthUser) (iat t : Z) :
  sampleVerify (sampleSign payload iat) t
  = if (t <? iat + sevenDays)%Z then Some payload else None.
Proof.
  destruct payload as [i r]. unfold sampleVerify, sampleSign. cbn [id role].
  rewrite parseUnary_ones, parseUnary_ones.
  destruct (iat <? 0)%Z eqn:Hneg; cbn [Ascii.eqb Bool.eqb].
  - apply Z.ltb_lt in Hneg.
    replace (- Z.of_nat (Z.abs_nat iat))%Z with iat by lia. reflexivity.
  - apply Z.ltb_ge in Hneg.
    replace (Z.of_nat (Z.abs_nat iat)) with iat by lia. reflexivity.
Qed.

Lemma sampleExternals_laws : ExternalsLaws sampleExternals.
Proof.
  constructor; simpl.
  - intros password salt. apply String.eqb_refl.
  - intros password salt H. apply (f_equal String.length) in H.
    simpl in H. lia.
  - intros [i r] secret iat. unfold sampleSign. cbn [id].
    destruct i; discriminate.
  - intros payload secret iat t Ht. rewrite sampleVerify_sign.
    apply Z.ltb_lt in Ht. now rewrite Ht.
  - intros payload secret iat t Ht. rewrite sampleVerify_sign.
    apply Z.ltb_ge in Ht. now rewrite Ht.
Qed.

Lemma validateUser_inr (full_name email : option string) (password role : string)
  (i : ObjectId) (now : Date) (u : User.t) :
  validateUser full_name email password role i now = inr u ->
  exists fn em,
    full_name = Some fn /\ fn <> EmptyString /\ email = Some em /\ em <> EmptyString
    /\ memString role userRoles = true
    /\ u = User.mk i fn em password role now.
Proof.
  unfold validateUser, requiredString, enumOf.
  destruct full_name as [fn|]; [|discriminate].
  destruct (String.eqb_spec fn EmptyString); [discriminate|]. cbn [bindResult].
  destruct email as [em|]; [|discriminate].
  destruct (String.eqb_spec em EmptyString); [discriminate|]. cbn [bindResult].
  destruct (String.eqb_spec password EmptyString); [discriminate|]. cbn [bindResult].
  destruct (memString role _) eqn:Hrole; [|discriminate]. cbn [bindResult].
  intros H. injection H as <-. exists fn, em. repeat split; auto.
Qed.

Section AuthProperties.
Context {E : Externals}.
Variable cfg : Config.

(** What a registration that answered 201 did. *)
Lemma register_created (now : Date) (salt : string)
  (full_name email password role : option string) (st st' : Store)
  (r : Response) :
  register cfg now salt full_name email password role st = (r, st') ->
  code r = 201 ->
  exists user pw em,
    password = Some pw /\ email = Some em
    /\ findOne (byEmail email) (users st) = None
    /\ User._id user = nextId st
    /\ User.email user = em
    /\ User.password user = bcryptHash pw salt
    /\ User.role user = orDefault role "teacher"
    /\ st' = setUsers st (users st ++ [user]) (S (nextId st))
    /\ r = mkResponse 201
             (AuthBody "User registered successfully" (tokenFor cfg user now)
                (userInfo user)).
Proof.
  unfold register. intros H Hcode.
  destruct (findOne (byEmail email) (users st)) eqn:Hfind.
  { injection H as <- _. discriminate. }
  destruct password as [pw|]; [|injection H as <- _; discriminate].
  destruct (validateUser _ _ _ _ _ _) as [e|user] eqn:Hv;
    [injection H as <- _; discriminate|].
  injection H as <- <-.
  apply validateUser_inr in Hv.
  destruct Hv as [fn [em [-> [Hfn [-> [Hem [Hrole ->]]]]]]].
  eexists. exists pw, em. cbn. repeat split; reflexivity.
Qed.

End AuthProperties.

(** C4.  After a registration that answered 201, a login with the same
    email and password, at any later moment, answers 200 for the user that
    was created, and its token verifies (until it expires) to the id and the
    role the registration assigned and reported. *)
Theorem register_then_login (E : Externals) (cfg : Config) (now : Date)
  (salt : string) (full_name email password role : option string)
  (st st' : Store) (r : Response) :
  ExternalsLaws E ->
  register cfg now salt full_name email password role st = (r, st') ->
  code r = 201 ->
  exists user token0,
    body r = AuthBody "User registered successfully" token0 (userInfo user)
    /\ In user (users st')
    /\ forall now',
         exists token,
           login cfg now' email password st'
           = (mkResponse 200 (AuthBody "Login successful" token (userInfo user)),
              st')
           /\ forall t, (t < seconds now' + sevenDays)%Z ->
                jwtVerify token (JWT_SECRET cfg) t
                = Some (mkAuthUser (info_id (userInfo user))
                          (info_role (userInfo user))).
Proof.
  intros laws Hreg Hcode.
  destruct (register_created cfg now salt full_name email password role
              st st' r Hreg Hcode)
    as [user [pw [em [-> [-> [Hfree [Hid [Hem [Hpw [Hrole [-> ->]]]]]]]]]]].
  exists user, (tokenFor cfg user now). split; [reflexivity|].
  split; [cbn; apply in_or_app; right; now left|].
  intros now'. exists (tokenFor cfg user now'). split.
  - unfold login. cbn [users setUsers]. unfold findOne in *.
    rewrite (find_app_last _ _ _ Hfree).
    unfold byEmail at 1. rewrite Hem. cbn [optStringEqb].
    rewrite String.eqb_refl, Hpw, (compare_hash E laws). reflexivity.
  - intros t Ht. unfold tokenFor. now apply (verify_sign E laws).
Qed.

Lemma register_then_login_witness :
  exists user token0,
    body (fst (register (E := sampleExternals) utc 0 "salt" (Some "Ada")
                 (Some "ada@school.com") (Some "pw") None emptyStore))
    = AuthBody "User registered successfully" token0 (userInfo user)
    /\ info_role (userInfo user) = "teacher"
    /\ exists token,
         fst (login (E := sampleExternals) utc 1000 (Some "ada@school.com")
                (Some "pw")
                (snd (register (E := sampleExternals) utc 0 "salt" (Some "Ada")
                        (Some "ada@school.com") (Some "pw") None emptyStore)))
         = mkResponse 200 (AuthBody "Login successful" token (userInfo user))
         /\ @jwtVerify sampleExternals token (JWT_SECRET utc) 5
            = Some (mkAuthUser (info_id (userInfo user)) "teacher").
Proof.
  destruct (register_then_login sampleExternals utc 0%Z "salt" (Some "Ada")
              (Some "ada@school.com") (Some "pw") None emptyStore
              _ _ sampleExternals_laws eq_refl eq_refl)
    as [user [token0 [Hbody [_ Hlogin]]]].
  exists user, token0. split; [exact Hbody|].
  assert (Hrole : info_role (userInfo user) = "teacher").
  { pose proof (f_equal (fun b => match b with
                                  | AuthBody _ _ u => info_role u
                                  | _ => EmptyString
                                  end) Hbody) as H.
    vm_compute in H. symmetry. exact H. }
  split; [exact Hrole|].
  destruct (Hlogin 1000%Z) as [token [Heq Hverify]].
  exists token. split.
  - exact (f_equal fst Heq).
  - rewrite <- Hrole. apply Hverify. reflexivity.
Defined.

(** C5.  Registering with an email a stored user already has answers 400
    "User already exists" and leaves the store, hence every user record,
    as it was; and whenever a registration stores a user, the password it
    stores is the salted hash of the one sent, not the plaintext. *)
Theorem register_rejects_known_email (E : Externals) (cfg : Config)
  (now : Date) (salt : string) (full_name password role : option string)
  (e : string) (st : Store) :
  ExternalsLaws E ->
  ((exists u, In u (users st) /\ User.email u = e) ->
   register cfg now salt full_name (Some e) password role st
   = (mkResponse 400 (ErrorBody "User already exists"), st))
  /\ (forall r st',
        register cfg now salt full_name (Some e) password role st = (r, st') ->
        code r = 201 ->
        exists user pw,
          password = Some pw
          /\ users st' = users st ++ [user]
          /\ User.password user = bcryptHash pw salt
          /\ User.password user <> pw).
Proof.
  intros laws. split.
  - intros [u [Hin Hu]]. unfold register.
    destruct (findOne (byEmail (Some e)) (users st)) eqn:Hfind; [reflexivity|].
    unfold findOne in Hfind.
    pose proof (find_none _ _ Hfind u Hin) as Hno.
    unfold byEmail in Hno. cbn [optStringEqb] in Hno.
    rewrite Hu, String.eqb_refl in Hno. discriminate.
  - intros r st' Hreg Hcode.
    destruct (register_created cfg now salt full_name (Some e) password role
                st st' r Hreg Hcode)
      as [user [pw [em [-> [_ [_ [_ [_ [Hpw [_ [-> _]]]]]]]]]]].
    exists user, pw. repeat split; try assumption.
    rewrite Hpw. apply (hash_not_plaintext E laws).
Qed.

Lemma register_rejects_known_email_witness :
  register (E := sampleExternals) utc 5 "salt" (Some "Eve")
    (Some "ada@school.com") (Some "other") (Some "admin") storeWithAda
  = (mkResponse 400 (ErrorBody "User already exists"), storeWithAda).
Proof.
  apply (register_rejects_known_email sampleExternals utc 5%Z "salt"
           (Some "Eve") (Some "other") (Some "admin") "ada@school.com"
           storeWithAda sampleExternals_laws).
  exists adaUser. split; [now left | reflexivity].
Defined.

(** ** The [authenticate] middleware *)

Lemma guarded_routes (r : Route) :
  In r fullRoutes \/ In r simplifiedRoutes ->
  isOpenRoute r = false -> usesAuthenticate r = true.
Proof.
  intros [Hin | Hin] Hopen; simpl in Hin;
    repeat (destruct Hin as [<- | Hin]; [first [reflexivity | discriminate]|]);
    contradiction.
Qed.

Lemma bearerToken_of_bearer_header (token : string) :
  bearerToken (Some ("Bearer " ++ token)%string) = Some token.
Proof. destruct token; reflexivity. Qed.





(** ** Validation failures *)

Lemma bindResult_inr {A B : Type} (r : Result A) (k : A -> Result B) (b : B) :
  bindResult r k = inr b -> exists a, r = inr a /\ k a = inr b.
Proof.
  destruct r as [e|a]; simpl; [discriminate|]. intros H. now exists a.
Qed.

Lemma required_inr {A : Type} (model path : string) (v : option A) (a : A) :
  required model path v = inr a -> v = Some a.
Proof.
  destruct v; simpl; [|discriminate]. now intros [= ->].
Qed.

Lemma requiredString_inr (model path : string) (v : option string) (s : string) :
  requiredString model path v = inr s -> v = Some s /\ s <> EmptyString.
Proof.
  destruct v as [x|]; simpl; [|discriminate].
  destruct (String.eqb_spec x EmptyString); [discriminate|]. now intros [= <-].
Qed.

Lemma enumOf_inr (model path : string) (allowed : list string) (s s' : string) :
  enumOf model path allowed s = inr s' -> memString s allowed = true.
Proof.
  unfold enumOf. destruct (memString s allowed); [reflexivity | discriminate].
Qed.

Lemma optionalEnum_inr (model path : string) (allowed : list string)
  (v v' : option string) :
  optionalEnum model path allowed v = inr v' -> ~ outside allowed v.
Proof.
  unfold optionalEnum, outside. intros H [s [-> Hs]].
  rewrite Hs in H. discriminate.
Qed.

Lemma inRange_inr (model path : string) (lo hi n n' : Q) :
  inRange model path lo hi n = inr n' -> (lo <= n /\ n <= hi)%Q.
Proof.
  unfold inRange. destruct (Qle_bool lo n) eqn:Hlo; [|discriminate].
  destruct (Qle_bool n hi) eqn:Hhi; [|discriminate].
  intros _. split; now apply Qle_bool_iff.
Qed.

Lemma updatedString_inr (model path : string) (v : option string) (u : unit) :
  Full.updatedString model path v = inr u -> v <> Some EmptyString.
Proof.
  unfold Full.updatedString. intros H ->. discriminate.
Qed.

Lemma not_blank (s : string) : s <> EmptyString -> ~ blank (Some s).
Proof.
  intros Hs [H | H]; [discriminate | injection H as ->; contradiction].
Qed.

Ltac invert_binds H :=
  repeat (apply bindResult_inr in H;
          let a := fresh "v" in
          let Ha := fresh "Hv" in
          destruct H as [a [Ha H]]).

Lemma validateGrade_rejects (student_id : option ObjectId)
  (subject : option string) (marks : option Number) (grade : string)
  (term academic_year remarks : option string) (i : ObjectId) (now : Date) :
  invalidGrade student_id subject marks term academic_year ->
  exists e,
    Full.validateGrade student_id subject marks grade term academic_year
      remarks i now = inl e.
Proof.
  intros Hinv.
  destruct (Full.validateGrade _ _ _ _ _ _ _ _ _) as [e|g] eqn:H;
    [now exists e|exfalso].
  unfold Full.validateGrade in H. invert_binds H.
  apply required_inr in Hv. apply requiredString_inr in Hv0.
  apply required_inr in Hv1. apply inRange_inr in Hv2.
  apply requiredString_inr in Hv3. apply requiredString_inr in Hv4.
  destruct Hv0 as [-> Hs], Hv3 as [-> Ht], Hv4 as [-> Hy]. subst.
  destruct Hinv as [C | [C | [C | [[m [Hm C]] | [C | C]]]]];
    try discriminate; try (now apply not_blank in C).
  injection Hm as <-. lra.
Qed.

Lemma validateStudentUpdates_rejects (u : Full.StudentUpdates) :
  invalidStudentUpdates u -> exists e, Full.validateStudentUpdates u = inl e.
Proof.
  intros Hinv.
  destruct (Full.validateStudentUpdates u) as [e|g] eqn:H;
    [now exists e|exfalso].
  unfold Full.validateStudentUpdates in H. invert_binds H.
  apply updatedString_inr in Hv, Hv0, Hv1, Hv2, Hv4.
  apply optionalEnum_inr in Hv3, Hv5.
  unfold invalidStudentUpdates in Hinv. tauto.
Qed.

Lemma validateAttendance_rejects (student_id : option ObjectId)
  (date : option Date) (status remarks : option string) (i : ObjectId)
  (now : Date) :
  invalidAttendance student_id date status ->
  exists e, Full.validateAttendance student_id date status remarks i now = inl e.
Proof.
  intros Hinv.
  destruct (Full.validateAttendance _ _ _ _ _ _) as [e|g] eqn:H;
    [now exists e|exfalso].
  unfold Full.validateAttendance in H. invert_binds H.
  apply required_inr in Hv, Hv0. apply requiredString_inr in Hv1.
  apply enumOf_inr in Hv2. destruct Hv1 as [-> Hs]. subst.
  destruct Hinv as [C | [C | [C | [s [Hs' C]]]]];
    try discriminate; try (now apply not_blank in C).
  injection Hs' as <-. congruence.
Qed.

Lemma validateFee_rejects (student_id : option ObjectId)
  (amount : option Number)
  (payment_method term academic_year receipt_number status : option string)
  (i : ObjectId) (now : Date) :
  invalidFee student_id amount payment_method term academic_year status ->
  exists e,
    Full.validateFee student_id amount payment_method term academic_year
      receipt_number (orDefault status "paid") i now = inl e.
Proof.
  intros Hinv.
  destruct (Full.validateFee _ _ _ _ _ _ _ _ _) as [e|g] eqn:H;
    [now exists e|exfalso].
  unfold Full.validateFee in H. invert_binds H.
  apply required_inr in Hv, Hv0. apply optionalEnum_inr in Hv1.
  apply requiredString_inr in Hv2, Hv3. apply enumOf_inr in Hv4.
  destruct Hv2 as [-> Ht], Hv3 as [-> Hy]. subst.
  destruct Hinv as [C | [C | [C | [C | [C | [Hne [s [-> C]]]]]]]];
    try discriminate; try contradiction; try (now apply not_blank in C).
  unfold orDefault in Hv4.
  destruct (String.eqb_spec s EmptyString); [subst; contradiction | congruence].
Qed.

Lemma validateUser_rejects (full_name email role : option string)
  (password : string) (i : ObjectId) (now : Date) :
  blank full_name \/ blank email
  \/ (role <> Some EmptyString /\ outside userRoles role) ->
  exists e,
    validateUser full_name email password (orDefault role "teacher") i now
    = inl e.
Proof.
  intros Hinv.
  destruct (validateUser _ _ _ _ _ _) as [e|u] eqn:H; [now exists e|exfalso].
  apply validateUser_inr in H.
  destruct H as [fn [em [-> [Hfn [-> [Hem [Hrole _]]]]]]].
  destruct Hinv as [C | [C | [Hne [s [-> C]]]]];
    try (now apply not_blank in C).
  unfold orDefault in Hrole.
  destruct (String.eqb_spec s EmptyString); [subst; contradiction | congruence].
Qed.

Lemma validateStudent_rejects (name rollNumber class : option string)
  (age : option Number)
  (gender email phone address guardianName guardianPhone : option string)
  (i : ObjectId) (now : Date) :
  invalidStudent name rollNumber class age gender email ->
  exists e,
    Full.validateStudent name rollNumber class age gender email phone address
      guardianName guardianPhone i now = inl e.
Proof.
  intros Hinv.
  destruct (Full.validateStudent _ _ _ _ _ _ _ _ _ _ _ _) as [e|g] eqn:H;
    [now exists e|exfalso].
  unfold Full.validateStudent in H. invert_binds H.
  apply requiredString_inr in Hv, Hv0, Hv1, Hv3, Hv5.
  apply required_inr in Hv2. apply enumOf_inr in Hv4.
  destruct Hv as [-> Hn], Hv0 as [-> Hr], Hv1 as [-> Hc], Hv3 as [-> Hg],
           Hv5 as [-> He].
  subst.
  destruct Hinv as [C | [C | [C | [C | [C | [[s [Hs C]] | C]]]]]];
    try discriminate; try (now apply not_blank in C).
  injection Hs as <-. congruence.
Qed.

Lemma newNotification_rejects (title message type category : option string)
  (recipient : option ObjectId) (i : ObjectId) (now : Date) :
  invalidNotification title message type category ->
  exists e,
    Full.newNotification title message (Some (orDefault type "info")) category
      recipient i now = inl e.
Proof.
  intros Hinv.
  destruct (Full.newNotification _ _ _ _ _ _ _) as [e|g] eqn:H;
    [now exists e|exfalso].
  unfold Full.newNotification in H. invert_binds H.
  apply requiredString_inr in Hv, Hv0. apply enumOf_inr in Hv1, Hv2.
  destruct Hv as [Ht Hnt], Hv0 as [Hm Hnm].
  destruct Hinv as [C | [C | [[Hne [s [-> C]]] | [s [-> C]]]]].
  - rewrite Ht in C. now apply not_blank in C.
  - rewrite Hm in C. now apply not_blank in C.
  - unfold Full.withDefault, orDefault in Hv1.
    destruct (String.eqb_spec s EmptyString); [subst; contradiction | congruence].
  - unfold Full.withDefault in Hv2. congruence.
Qed.

(** C7 as stated fails: [POST /api/grades] with marks 150 is answered with
    status 500, not 400; the request is otherwise complete. *)
Lemma createGrade_marks_150_not_400 :
  Full.createGrade 0 teacher7 (Some 1) (Some "Maths") (Some 150%Q)
    (Some "First") (Some "2024") None sampleStore
  = (mkResponse 500 (ErrMessageBody (ValidationError "Grade" "marks")),
     sampleStore)
  /\ code (fst (Full.createGrade 0 teacher7 (Some 1) (Some "Maths")
                  (Some 150%Q) (Some "First") (Some "2024") None sampleStore))
     <> 400.
Proof.
  split; [reflexivity | discriminate].
Qed.

(** The simplified server's fee update runs no validator: a status outside
    the enum is stored and answered with 200. *)
Lemma simplified_updateFee_stores_any_status :
  let st :=
    Simplified.mkStore [] []
      [Simplified.Fee.mk 0 1 5000 "pending" None 0] 1 in
  Simplified.updateFee 9 teacher7 0 (Some "refunded") st
  = (Simplified.mkResponse 200
       (Simplified.FeeBody "Fee updated successfully"
          (Simplified.Fee.mk 0 1 5000 "refunded" None 0)),
     Simplified.mkStore [] []
       [Simplified.Fee.mk 0 1 5000 "refunded" None 0] 1).
Proof. reflexivity. Qed.

(** C7, amended.  On every single-document create or update route of the
    full server, a payload that breaks a validation rule of its schema is
    answered with status 500, through the handler's catch-all, and the
    store is left as it was: [POST /api/grades], [PUT /api/students/:id],
    [POST /api/attendance] (whether or not a record of that day is found),
    [POST /api/fees], [POST /api/notifications], and, when the email or
    roll number is not stored yet, [POST /register] and
    [POST /api/students]. *)
Theorem invalid_payload_answers_500 :
  (forall now user student_id subject marks term academic_year remarks st,
     invalidGrade student_id subject marks term academic_year ->
     exists e,
       Full.createGrade now user student_id subject marks term academic_year
         remarks st
       = (mkResponse 500 (ErrMessageBody e), st))
  /\ (forall user i updates st,
        invalidStudentUpdates updates ->
        exists e,
          Full.updateStudent user i updates st
          = (mkResponse 500 (ErrMessageBody e), st))
  /\ (forall cfg now user student_id date status remarks st,
        invalidAttendance student_id date status ->
        exists e,
          Full.markAttendance cfg now user student_id date status remarks st
          = (mkResponse 500 (ErrMessageBody e), st))
  /\ (forall (E : Externals) now user student_id amount payment_method term
             academic_year receipt_number status st,
        invalidFee student_id amount payment_method term academic_year status ->
        exists e,
          Full.createFee now user student_id amount payment_method term
            academic_year receipt_number status st
          = (mkResponse 500 (ErrMessageBody e), st))
  /\ (forall now user title message type category recipient st,
        invalidNotification title message type category ->
        exists e,
          Full.createNotification now user title message type category
            recipient st
          = (mkResponse 500 (ErrMessageBody e), st))
  /\ (forall (E : Externals) cfg now salt full_name email password role st,
        invalidUser full_name email password role ->
        findOne (byEmail email) (users st) = None ->
        exists e,
          register cfg now salt full_name email password role st
          = (mkResponse 500 (ErrMessageBody e), st))
  /\ (forall now user name rollNumber class age gender email phone address
             guardianName guardianPhone st,
        invalidStudent name rollNumber class age gender email ->
        findOne (fun s => optStringEqb (Some (Student.rollNumber s)) rollNumber)
          (students st) = None ->
        exists e,
          Full.createStudent now user name rollNumber class age gender email
            phone address guardianName guardianPhone st
          = (mkResponse 500 (ErrMessageBody e), st)).
Proof.
  repeat match goal with |- _ /\ _ => split end.
  - intros now user student_id subject marks term academic_year remarks st Hinv.
    unfold Full.createGrade.
    destruct (validateGrade_rejects student_id subject marks
                (Full.letterGrade marks) term academic_year remarks
                (nextId st) now Hinv) as [e ->].
    now exists e.
  - intros user i updates st Hinv. unfold Full.updateStudent.
    destruct (validateStudentUpdates_rejects updates Hinv) as [e ->].
    now exists e.
  - intros cfg now user student_id date status remarks st Hinv.
    unfold Full.markAttendance.
    destruct date as [d|]; [|eexists; reflexivity].
    destruct (findOne _ _) as [existing|] eqn:Hfind.
    + assert (Hinv' : invalidAttendance
                        (Some (Attendance.student_id existing))
                        (Some (Attendance.date existing)) status).
      { destruct Hinv as [C | [C | C]]; [| discriminate | right; right; exact C].
        subst. unfold findOne in Hfind. apply find_some in Hfind.
        destruct Hfind as [_ Hfind]. discriminate. }
      destruct (validateAttendance_rejects _ _ _ remarks
                  (Attendance._id existing) (Attendance.created_at existing)
                  Hinv') as [e ->].
      now exists e.
    + destruct (validateAttendance_rejects student_id (Some d) status remarks
                  (nextId st) now Hinv) as [e ->].
      now exists e.
  - intros E now user student_id amount payment_method term academic_year
           receipt_number status st Hinv.
    unfold Full.createFee.
    destruct (validateFee_rejects student_id amount payment_method term
                academic_year receipt_number status (nextId st) now Hinv)
      as [e ->].
    now exists e.
  - intros now user title message type category recipient st Hinv.
    unfold Full.createNotification.
    destruct (newNotification_rejects title message type category
                (Some (Full.withDefault recipient (id user))) (nextId st) now
                Hinv) as [e ->].
    now exists e.
  - intros E cfg now salt full_name email password role st Hinv Hfree.
    unfold register. rewrite Hfree.
    destruct password as [pw|]; [|eexists; reflexivity].
    destruct (validateUser_rejects full_name email role (bcryptHash pw salt)
                (nextId st) now) as [e ->]; [|now exists e].
    destruct Hinv as [C | [C | [C | C]]]; auto. discriminate.
  - intros now user name rollNumber class age gender email phone address
           guardianName guardianPhone st Hinv Hfree.
    unfold Full.createStudent. rewrite Hfree.
    destruct (validateStudent_rejects name rollNumber class age gender email
                phone address guardianName guardianPhone (nextId st) now Hinv)
      as [e ->].
    now exists e.
Qed.

Lemma invalid_payload_answers_500_witness :
  (exists e,
     Full.createGrade 0 teacher7 (Some 1) (Some "Maths") (Some 150%Q)
       (Some "First") (Some "2024") None sampleStore
     = (mkResponse 500 (ErrMessageBody e), sampleStore))
  /\ (exists e,
        Full.updateStudent teacher7 1 (genderUpdate "unknown") sampleStore
        = (mkResponse 500 (ErrMessageBody e), sampleStore))
  /\ (exists e,
        Full.markAttendance utc 0 teacher7 (Some 1) (Some 0%Z) (Some "sick")
          None sampleStore
        = (mkResponse 500 (ErrMessageBody e), sampleStore))
  /\ (exists e,
        Full.createFee (E := sampleExternals) 0 teacher7 (Some 1) None None
          (Some "First") (Some "2024") None (Some "pending") sampleStore
        = (mkResponse 500 (ErrMessageBody e), sampleStore))
  /\ (exists e,
        Full.createNotification 0 teacher7 (Some "   ") (Some "hello") None
          None None sampleStore
        = (mkResponse 500 (ErrMessageBody e), sampleStore))
  /\ (exists e,
        register (E := sampleExternals) utc 0 "salt" (Some "Eve")
          (Some "eve@school.com") (Some "pw") (Some "principal") storeWithAda
        = (mkResponse 500 (ErrMessageBody e), storeWithAda))
  /\ (exists e,
        Full.createStudent 0 teacher7 (Some "Bob") (Some "R3") (Some "JSS1")
          None (Some "Male") (Some "bob@school.com") None None None None
          sampleStore
        = (mkResponse 500 (ErrMessageBody e), sampleStore)).
Proof.
  destruct invalid_payload_answers_500
    as [Hg [Hs [Ha [Hf [Hn [Hu Hc]]]]]].
  repeat match goal with |- _ /\ _ => split end.
  - apply Hg. right. right. right. left. exists 150%Q.
    split; [reflexivity | right; reflexivity].
  - apply Hs. right. right. right. right. left. exists "unknown".
    split; reflexivity.
  - apply Ha. right. right. right. exists "sick". split; reflexivity.
  - apply Hf. right. left. reflexivity.
  - apply Hn. left. right. reflexivity.
  - apply Hu; [|reflexivity]. right. right. right.
    split; [discriminate|]. exists "principal". split; reflexivity.
  - apply Hc; [|reflexivity]. right. right. right. left. reflexivity.
Defined.

(** ** Fees *)

(** C8 as stated fails on the full server: a fee created with status
    pending is stored with a payment date, the schema default [Date.now]. *)
Lemma full_createFee_pending_is_dated :
  exists fee st',
    Full.createFee (E := sampleExternals) 42 teacher7 (Some 1) (Some 5000%Q)
      None (Some "First") (Some "2024") None (Some "pending") emptyStore
    = (mkResponse 201 (FeeBody "Fee payment recorded successfully" fee), st')
    /\ fees st' = [fee]
    /\ Fee.status fee = "pending"
    /\ Fee.payment_date fee = Some 42%Z
    /\ Fee.payment_date fee <> None.
Proof.
  eexists. eexists. split; [reflexivity|].
  repeat split. discriminate.
Qed.

Lemma in_updateFirst {A : Type} (p : A -> bool) (f : A -> A) (c : list A) (y : A) :
  In y (updateFirst p f c) -> In y c \/ exists x, In x c /\ p x = true /\ y = f x.
Proof.
  induction c as [|d c IH]; simpl; [tauto|].
  destruct (p d) eqn:Hp; simpl.
  - intros [<- | Hin]; [right; exists d; auto | auto].
  - intros [<- | Hin]; [auto|].
    destruct (IH Hin) as [H | [x [Hx H]]]; [auto|].
    right. exists x. auto.
Qed.

Lemma paymentDateFor_paid (status : option string) (now : Date) :
  Simplified.paymentDateFor status now <> None -> status = Some "paid".
Proof.
  unfold Simplified.paymentDateFor. destruct status as [s|]; [|congruence].
  destruct (String.eqb_spec s "paid"); [subst; reflexivity | congruence].
Qed.

Lemma applyFeeUpdate_paidWhenDated (status : option string) (now : Date)
  (f : Simplified.Fee.t) :
  paidWhenDated (Simplified.applyFeeUpdate status now f).
Proof.
  unfold paidWhenDated, Simplified.applyFeeUpdate. cbn.
  intros H. apply paymentDateFor_paid in H. now subst.
Qed.

Lemma simplified_createFee_cases (now : Date) (user : AuthUser)
  (student_id : option ObjectId) (amount : option Number)
  (status : option string) (st : Simplified.Store) :
  Simplified.fees (snd (Simplified.createFee now user student_id amount status st))
  = Simplified.fees st
  \/ exists fee,
       Simplified.fees
         (snd (Simplified.createFee now user student_id amount status st))
       = Simplified.fees st ++ [fee]
       /\ Simplified.Fee.status fee = orDefault status "pending"
       /\ Simplified.Fee.payment_date fee = Simplified.paymentDateFor status now.
Proof.
  unfold Simplified.createFee.
  destruct (Simplified.validateFee _ _ _ _ _ _) as [e|fee] eqn:H;
    [now left|right].
  exists fee. unfold Simplified.validateFee in H. invert_binds H.
  injection H as <-. cbn. unfold enumOf in Hv1.
  destruct (memString _ _); [|discriminate]. injection Hv1 as <-. auto.
Qed.

Lemma runFeeOp_paidWhenDated (op : Simplified.FeeOp) (st : Simplified.Store) :
  Forall paidWhenDated (Simplified.fees st) ->
  Forall paidWhenDated (Simplified.fees (Simplified.runFeeOp op st)).
Proof.
  intros Hinv. destruct op as [now user sid amount status | now user i status];
    unfold Simplified.runFeeOp.
  - destruct (simplified_createFee_cases now user sid amount status st)
      as [-> | [fee [-> [Hs Hd]]]]; [assumption|].
    apply Forall_app. split; [assumption|]. constructor; [|constructor].
    intros H. rewrite Hd in H. apply paymentDateFor_paid in H.
    rewrite Hs, H. reflexivity.
  - unfold Simplified.updateFee, findOneAndUpdate.
    destruct (findOne _ _); [|assumption]. cbn.
    apply Forall_forall. intros y Hy. apply in_updateFirst in Hy.
    destruct Hy as [Hy | [x [_ [_ ->]]]].
    + revert y Hy. now apply Forall_forall.
    + apply applyFeeUpdate_paidWhenDated.
Qed.

Lemma full_createFee_dates_fee (E : Externals) (now : Date) (user : AuthUser)
  (student_id : option ObjectId) (amount : option Number)
  (payment_method term academic_year receipt_number status : option string)
  (st : Store) (fee : Fee.t) :
  In fee (fees (snd (Full.createFee now user student_id amount payment_method
                       term academic_year receipt_number status st))) ->
  In fee (fees st) \/ Fee.payment_date fee = Some now.
Proof.
  unfold Full.createFee, Full.notify.
  destruct (Full.validateFee _ _ _ _ _ _ _ _ _) as [e|f] eqn:H; [now left|].
  unfold Full.validateFee in H. invert_binds H. injection H as <-.
  intros Hin.
  assert (Hin' : In fee (fees st ++ [Fee.mk (nextId st) v v0 (Some now) v1 v2
                                       v3 v4 receipt_number now])).
  { destruct (Full.newNotification _ _ _ _ _ _ _); exact Hin. }
  apply in_app_or in Hin'. destruct Hin' as [Hin' | [<- | []]]; auto.
Qed.

(** C8, amended.  On the simplified server every run of fee creations
    and fee updates keeps the property that a fee with a payment date has
    status paid, in particular every run from the empty collection; a
    creation or an update with status pending only adds or leaves records
    that are pending with no payment date.  The full server has no fee
    update route, and every fee it creates is dated with the moment of its
    creation, whatever its status. *)
Theorem simplified_fee_dated_only_when_paid :
  (forall ops st,
     Forall paidWhenDated (Simplified.fees st) ->
     Forall paidWhenDated (Simplified.fees (Simplified.runFeeOps ops st)))
  /\ (forall ops,
        Forall paidWhenDated (Simplified.fees (Simplified.runFeeOps ops noFees)))
  /\ (forall now user student_id amount st fee,
        In fee (Simplified.fees
                  (snd (Simplified.createFee now user student_id amount
                          (Some "pending") st))) ->
        In fee (Simplified.fees st)
        \/ (Simplified.Fee.status fee = "pending"
            /\ Simplified.Fee.payment_date fee = None))
  /\ (forall now user i st fee,
        In fee (Simplified.fees
                  (snd (Simplified.updateFee now user i (Some "pending") st))) ->
        In fee (Simplified.fees st)
        \/ (Simplified.Fee._id fee = i
            /\ Simplified.Fee.status fee = "pending"
            /\ Simplified.Fee.payment_date fee = None))
  /\ (forall (E : Externals) now user student_id amount payment_method term
             academic_year receipt_number status st fee,
        In fee (fees (snd (Full.createFee now user student_id amount
                             payment_method term academic_year receipt_number
                             status st))) ->
        In fee (fees st) \/ Fee.payment_date fee = Some now).
Proof.
  assert (Hrun : forall ops st,
             Forall paidWhenDated (Simplified.fees st) ->
             Forall paidWhenDated
               (Simplified.fees (Simplified.runFeeOps ops st))).
  { unfold Simplified.runFeeOps.
    induction ops as [|op ops IH]; simpl; intros st Hinv; [assumption|].
    apply IH. now apply runFeeOp_paidWhenDated. }
  repeat match goal with |- _ /\ _ => split end.
  - exact Hrun.
  - intros ops. apply Hrun. constructor.
  - intros now user sid amount st fee Hin.
    destruct (simplified_createFee_cases now user sid amount (Some "pending") st)
      as [Heq | [fee' [Heq [Hs Hd]]]]; rewrite Heq in Hin; [now left|].
    apply in_app_or in Hin. destruct Hin as [Hin | [<- | []]]; [now left|].
    right. split; assumption.
  - intros now user i st fee Hin.
    unfold Simplified.updateFee, findOneAndUpdate in Hin.
    destruct (findOne _ _); [|now left]. cbn in Hin.
    apply in_updateFirst in Hin.
    destruct Hin as [Hin | [x [_ [Hx ->]]]]; [now left|].
    right. apply Nat.eqb_eq in Hx. cbn. auto.
  - apply full_createFee_dates_fee.
Qed.

Lemma simplified_fee_dated_only_when_paid_witness :
  Forall paidWhenDated
    (Simplified.fees
       (Simplified.runFeeOps
          [Simplified.CreateFee 10 teacher7 (Some 1) (Some 5000%Q) (Some "paid");
           Simplified.UpdateFee 20 teacher7 0 (Some "pending");
           Simplified.CreateFee 30 teacher7 (Some 1) (Some 100%Q) None]
          noFees)).
Proof.
  destruct simplified_fee_dated_only_when_paid as [H _].
  apply H. constructor.
Defined.

(** ** Dashboard *)

(** What [GET /api/stats/dashboard] counts, on any store: all students,
    the active ones, the distinct class values, the attendance records
    dated exactly at the start of today with status present, the pending
    fees; the store is only read. *)
Lemma dashboard_counts (cfg : Config) (now : Date) (user : AuthUser) (st : Store) :
  exists d classes,
    Full.dashboard cfg now user st = (mkResponse 200 (DashboardBody d), st)
    /\ total_students d = length (students st)
    /\ active_students d
       = length (filter (fun s => (Student.status s =? "active")%string)
                   (students st))
    /\ total_classes d = length classes
    /\ NoDup classes
    /\ (forall c, In c classes
                  <-> exists s, In s (students st) /\ Student.class s = c)
    /\ present_today d
       = length (filter
                   (fun a => (Attendance.date a =? startOfDay (tzOffset cfg) now)%Z
                             && (Attendance.status a =? "present")%string)
                   (attendances st))
    /\ pending_fees d
       = length (filter (fun f => (Fee.status f =? "pending")%string) (fees st)).
Proof.
  eexists. exists (distinct string_dec Student.class (students st)).
  split; [reflexivity|]. cbn. unfold countDocuments.
  repeat match goal with |- _ /\ _ => split end; try reflexivity.
  - f_equal. induction (students st) as [|s l IH]; simpl; congruence.
  - apply NoDup_nodup.
  - intros c. unfold distinct. rewrite nodup_In, in_map_iff.
    split; intros [s [H1 H2]]; exists s; tauto.
Qed.

(** C9 (the code departs from the claim, by the defect of C1).  After one
    [POST /api/attendance] marking student 1 present at 10:30 of a day, the
    dashboard asked at 15:00 of that day reports [present_today = 0], while
    the store holds one record of that day with status present, the one
    [GET /api/attendance?date=] returns for it. *)
Theorem dashboard_misses_present_record :
  let st :=
    snd (Full.markAttendance utc jan15_1030 teacher7 (Some 1) (Some jan15_1030)
           (Some "present") None emptyStore) in
  (exists d,
     Full.dashboard utc jan15_1500 teacher7 st
     = (mkResponse 200 (DashboardBody d), st)
     /\ present_today d = 0)
  /\ map Attendance.status (recordsOfDay 0 1 jan15_1500 (attendances st))
     = ["present"]
  /\ (exists a,
        Full.attendanceOfDay utc teacher7 (Some jan15_1500) st
        = (mkResponse 200 (AttendancesBody [(a, None)]), st)
        /\ Attendance.status a = "present").
Proof.
  cbv zeta. split; [|split].
  - eexists. split; reflexivity.
  - reflexivity.
  - eexists. split; reflexivity.
Qed.

(** ** Notifications *)

Lemma unique_by_id {A : Type} (idOf : A -> ObjectId) (c : list A) (x y : A) :
  NoDup (map idOf c) -> In x c -> In y c -> idOf x = idOf y -> x = y.
Proof.
  induction c as [|d c IH]; simpl; intros ND Hx Hy Heq; [contradiction|].
  inversion ND as [|? ? Hnotin ND']; subst.
  destruct Hx as [-> | Hx], Hy as [-> | Hy]; auto.
  - exfalso. apply Hnotin. rewrite Heq. now apply in_map.
  - exfalso. apply Hnotin. rewrite <- Heq. now apply in_map.
Qed.

Lemma in_updateFirst_other {A : Type} (p : A -> bool) (f : A -> A)
  (c : list A) (x : A) :
  In x c -> p x = false -> In x (updateFirst p f c).
Proof.
  induction c as [|d c IH]; simpl; [tauto|].
  intros [-> | Hin] Hp.
  - rewrite Hp. now left.
  - destruct (p d); simpl; auto.
Qed.

Lemma in_removeFirst_other {A : Type} (p : A -> bool) (c : list A) (x : A) :
  In x c -> p x = false -> In x (removeFirst p c).
Proof.
  induction c as [|d c IH]; simpl; [tauto|].
  intros [-> | Hin] Hp.
  - rewrite Hp. now left.
  - destruct (p d); simpl; auto.
Qed.

Lemma in_updateMany_other {A : Type} (p : A -> bool) (f : A -> A)
  (c : list A) (x : A) :
  In x c -> p x = false -> In x (updateMany p f c).
Proof.
  intros Hin Hp. unfold updateMany. apply in_map_iff.
  exists x. rewrite Hp. auto.
Qed.

Lemma filter_snoc_out {A : Type} (q : A -> bool) (l : list A) (x : A) :
  q x = false -> filter q (l ++ [x]) = filter q l.
Proof.
  intros H. rewrite filter_app. simpl. rewrite H. apply app_nil_r.
Qed.

Lemma filter_updateFirst_out {A : Type} (q p : A -> bool) (f : A -> A)
  (l : list A) :
  (forall x, p x = true -> q x = false /\ q (f x) = false) ->
  filter q (updateFirst p f l) = filter q l.
Proof.
  intros H. induction l as [|x l IH]; simpl; [reflexivity|].
  destruct (p x) eqn:Hp; simpl.
  - destruct (H x Hp) as [-> ->]. reflexivity.
  - now rewrite IH.
Qed.

Lemma filter_updateMany_out {A : Type} (q p : A -> bool) (f : A -> A)
  (l : list A) :
  (forall x, p x = true -> q x = false /\ q (f x) = false) ->
  filter q (updateMany p f l) = filter q l.
Proof.
  intros H. unfold updateMany. induction l as [|x l IH]; simpl; [reflexivity|].
  destruct (p x) eqn:Hp.
  - destruct (H x Hp) as [-> ->]. exact IH.
  - now rewrite IH.
Qed.

Lemma filter_removeFirst_out {A : Type} (q p : A -> bool) (l : list A) :
  (forall x, p x = true -> q x = false) ->
  filter q (removeFirst p l) = filter q l.
Proof.
  intros H. induction l as [|x l IH]; simpl; [reflexivity|].
  destruct (p x) eqn:Hp; simpl.
  - now rewrite (H x Hp).
  - now rewrite IH.
Qed.

(** C10 as stated fails in its closing sentence: a notification that
    user 7 creates with recipient 8 is a new record, and its recipient is
    not the caller. *)
Lemma createNotification_addresses_another_user :
  ~ (forall (now : Date) (user : AuthUser)
            (title message type category : option string)
            (recipient : option ObjectId) (st : Store) (m : Notification.t),
       In m (notifications
               (snd (Full.createNotification now user title message type
                       category recipient st))) ->
       ~ In m (notifications st) ->
       Notification.recipient m = id user).
Proof.
  intros H.
  specialize (H 9%Z teacher7 (Some "Exam") (Some "Friday") None None (Some 8)
                emptyStore
                (Notification.mk 0 "Exam" "Friday" "info" "system" 8 false 9)).
  assert (Heq : 8 = 7); [|discriminate Heq].
  apply H.
  - vm_compute. now left.
  - simpl. tauto.
Qed.

(** C10, amended.  Let [n] be a stored notification whose recipient is not
    the caller.  The caller's list never contains [n] (it holds only the
    caller's own); marking [n]'s id read and deleting [n]'s id both answer
    404 "Notification not found" with the store untouched.  Whatever id the
    caller passes, mark-read, mark-all-read and delete keep every
    notification addressed to someone else as it is and where it is, [n]
    among them.  Create is the exception: it changes no stored notification
    either, but the one it adds is addressed to the recipient named in the
    body, to the caller only when none is named. *)
Theorem notifications_scoped_to_caller (user : AuthUser) (n : Notification.t)
  (st : Store) :
  NoDup (map Notification._id (notifications st)) ->
  In n (notifications st) ->
  Notification.recipient n <> id user ->
  let others (c : list Notification.t) :=
    filter (fun m => negb (Nat.eqb (Notification.recipient m) (id user))) c in
  (forall limitParam,
     exists l,
       Full.listNotifications user limitParam st
       = (mkResponse 200 (NotificationsBody l), st)
       /\ ~ In n l
       /\ forall m, In m l -> Notification.recipient m = id user)
  /\ Full.markNotificationRead user (Notification._id n) st
     = (mkResponse 404 (ErrorBody "Notification not found"), st)
  /\ Full.deleteNotification user (Notification._id n) st
     = (mkResponse 404 (ErrorBody "Notification not found"), st)
  /\ (forall i,
        In n (notifications (snd (Full.markNotificationRead user i st)))
        /\ In n (notifications (snd (Full.deleteNotification user i st))))
  /\ In n (notifications (snd (Full.markAllRead user st)))
  /\ (forall now title message type category recipient,
        In n (notifications
                (snd (Full.createNotification now user title message type
                        category recipient st))))
  /\ (forall i,
        others (notifications (snd (Full.markNotificationRead user i st)))
        = others (notifications st)
        /\ others (notifications (snd (Full.deleteNotification user i st)))
           = others (notifications st))
  /\ others (notifications (snd (Full.markAllRead user st)))
     = others (notifications st)
  /\ (forall now title message type category recipient,
        let after :=
          notifications
            (snd (Full.createNotification now user title message type category
                    recipient st)) in
        after = notifications st
        \/ exists m,
             after = notifications st ++ [m]
             /\ Notification._id m = nextId st
             /\ Notification.recipient m
                = match recipient with
                  | Some r => r
                  | None => id user
                  end).
Proof.
  intros ND Hin Hother. cbv zeta.
  assert (Hown : Full.ownedBy user n = false)
    by (unfold Full.ownedBy; now apply Nat.eqb_neq).
  assert (Hmine : forall i, Full.ownedWithId user i n = false)
    by (intros i; unfold Full.ownedWithId; rewrite Hown; apply andb_false_r).
  assert (Hnone : findOne (Full.ownedWithId user (Notification._id n))
                    (notifications st) = None).
  { unfold findOne. destruct (find _ _) as [x|] eqn:F; [|reflexivity].
    apply find_some in F. destruct F as [Hx Hp].
    unfold Full.ownedWithId in Hp. apply andb_true_iff in Hp.
    destruct Hp as [Hid Hp]. apply Nat.eqb_eq in Hid.
    rewrite (unique_by_id Notification._id _ x n ND Hx Hin Hid) in Hp.
    congruence. }
  assert (Hout : forall x, Full.ownedBy user x = true ->
              negb (Nat.eqb (Notification.recipient x) (id user)) = false
              /\ negb (Nat.eqb (Notification.recipient (Full.markRead x))
                         (id user)) = false).
  { intros x Hx. unfold Full.ownedBy in Hx.
    cbn [Full.markRead Notification.recipient]. now rewrite Hx. }
  repeat match goal with |- _ /\ _ => split end.
  - intros limitParam. eexists. split; [reflexivity|].
    assert (Hl : forall m,
               In m (limit (Full.withDefault limitParam 0%Z)
                       (sortDesc
                          (fun a b => (Notification.created_at b
                                       <=? Notification.created_at a)%Z)
                          (findMany (Full.ownedBy user) (notifications st)))) ->
               Full.ownedBy user m = true).
    { intros m Hm. apply in_limit in Hm. apply in_sortDesc in Hm.
      unfold findMany in Hm. apply filter_In in Hm. tauto. }
    split.
    + intros Hn. apply Hl in Hn. congruence.
    + intros m Hm. apply Hl in Hm. now apply Nat.eqb_eq.
  - unfold Full.markNotificationRead, findOneAndUpdate. now rewrite Hnone.
  - unfold Full.deleteNotification, findOneAndDelete. now rewrite Hnone.
  - intros i. split.
    + unfold Full.markNotificationRead, findOneAndUpdate.
      destruct (findOne (Full.ownedWithId user i) (notifications st)); cbn;
        [|assumption].
      now apply in_updateFirst_other.
    + unfold Full.deleteNotification, findOneAndDelete.
      destruct (findOne (Full.ownedWithId user i) (notifications st)); cbn;
        [|assumption].
      now apply in_removeFirst_other.
  - cbn. apply in_updateMany_other; [assumption|]. now rewrite Hown.
  - intros now title message type category recipient.
    unfold Full.createNotification.
    destruct (Full.newNotification _ _ _ _ _ _ _); cbn; [assumption|].
    apply in_or_app. now left.
  - intros i. split.
    + unfold Full.markNotificationRead, findOneAndUpdate.
      destruct (findOne (Full.ownedWithId user i) (notifications st));
        [|reflexivity].
      cbn [snd notifications setNotifications].
      apply filter_updateFirst_out. intros x Hx.
      unfold Full.ownedWithId in Hx. apply andb_true_iff in Hx.
      now apply Hout.
    + unfold Full.deleteNotification, findOneAndDelete.
      destruct (findOne (Full.ownedWithId user i) (notifications st));
        [|reflexivity].
      cbn [snd notifications setNotifications].
      apply filter_removeFirst_out. intros x Hx.
      unfold Full.ownedWithId in Hx. apply andb_true_iff in Hx.
      now apply Hout.
  - unfold Full.markAllRead. cbn [snd notifications setNotifications].
    apply filter_updateMany_out. intros x Hx.
    apply andb_true_iff in Hx. now apply Hout.
  - intros now title message type category recipient.
    unfold Full.createNotification.
    destruct (Full.newNotification _ _ _ _ _ _ _) as [e|m] eqn:Hm;
      [now left|].
    right. exists m. cbn [snd notifications setNotifications].
    split; [reflexivity|].
    unfold Full.newNotification in Hm.
    destruct (requiredString _ _ (option_map trim title)) as [|tt];
      [discriminate|].
    destruct (requiredString _ _ (option_map trim message)) as [|msg];
      [discriminate|].
    cbn [bindResult] in Hm.
    destruct (enumOf _ _ Full.notificationTypes _) as [|ty]; [discriminate|].
    cbn [bindResult] in Hm.
    destruct (enumOf _ _ Full.notificationCategories _) as [|cat];
      [discriminate|].
    cbn [bindResult required Full.withDefault] in Hm.
    injection Hm as <-. cbn [Notification._id Notification.recipient].
    split; [reflexivity|]. now destruct recipient.
Qed.

Lemma notifications_scoped_to_caller_witness :
  Full.markNotificationRead teacher7 1 storeWithNotes
  = (mkResponse 404 (ErrorBody "Notification not found"), storeWithNotes)
  /\ Full.deleteNotification teacher7 1 storeWithNotes
     = (mkResponse 404 (ErrorBody "Notification not found"), storeWithNotes)
  /\ In (noteFor 1 8) (notifications (snd (Full.markAllRead teacher7 storeWithNotes))).
Proof.
  assert (ND : NoDup (map Notification._id (notifications storeWithNotes))).
  { simpl. repeat constructor; simpl; intuition discriminate. }
  assert (Hin : In (noteFor 1 8) (notifications storeWithNotes))
    by (simpl; tauto).
  assert (Hother : Notification.recipient (noteFor 1 8) <> id teacher7)
    by (simpl; discriminate).
  destruct (notifications_scoped_to_caller teacher7 (noteFor 1 8) storeWithNotes
              ND Hin Hother) as [_ [Hread [Hdel [_ [Hall _]]]]].
  repeat split; assumption.
Defined.

(** * Further properties of the routes *)

(** ** Sorting and grouping *)

Section SortLemmas.
Context {A : Type}.
Variable geb : A -> A -> bool.

Lemma insertDesc_perm (x : A) (l : list A) :
  Permutation (insertDesc geb x l) (x :: l).
Proof.
  induction l as [|y l IH]; simpl; [reflexivity|].
  destruct (geb x y); [reflexivity|].
  rewrite IH. apply perm_swap.
Qed.

Lemma sortDesc_perm (l : list A) : Permutation (sortDesc geb l) l.
Proof.
  induction l as [|x l IH]; simpl; [reflexivity|].
  rewrite insertDesc_perm. now constructor.
Qed.

Lemma sortDesc_length (l : list A) : length (sortDesc geb l) = length l.
Proof. apply Permutation_length, sortDesc_perm. Qed.

Hypothesis geb_total : forall a b, geb a b = true \/ geb b a = true.
Hypothesis geb_trans :
  forall a b c, geb a b = true -> geb b c = true -> geb a c = true.

Lemma insertDesc_sorted (x : A) (l : list A) :
  StronglySorted (fun a b => geb a b = true) l ->
  StronglySorted (fun a b => geb a b = true) (insertDesc geb x l).
Proof.
  induction l as [|y l IH]; simpl; intros Hs.
  - constructor; constructor.
  - inversion Hs as [|? ? Hl Hy]; subst.
    destruct (geb x y) eqn:Hxy.
    + constructor; [assumption|]. constructor; [assumption|].
      apply Forall_forall. intros z Hz.
      apply (geb_trans x y z Hxy).
      revert z Hz. now apply Forall_forall.
    + constructor; [now apply IH|].
      apply Forall_forall. intros z Hz. apply in_insertDesc in Hz.
      destruct Hz as [-> | Hz].
      * destruct (geb_total x y); congruence.
      * revert z Hz. now apply Forall_forall.
Qed.

Lemma sortDesc_sorted (l : list A) :
  StronglySorted (fun a b => geb a b = true) (sortDesc geb l).
Proof.
  induction l as [|x l IH]; simpl; [constructor|].
  now apply insertDesc_sorted.
Qed.

End SortLemmas.

Lemma newestFirst_sorted {A : Type} (created : A -> Date) (l : list A) :
  StronglySorted (fun a b => (created b <= created a)%Z)
    (Queries.newestFirst created l).
Proof.
  unfold Queries.newestFirst.
  pose proof (sortDesc_sorted (fun a b => (created b <=? created a)%Z)) as H.
  eapply StronglySorted_ind with
    (P := fun l' => StronglySorted (fun a b => (created b <= created a)%Z) l');
    [constructor | | apply H].
  - intros a l' _ IH Hall. constructor; [assumption|].
    eapply Forall_impl; [|exact Hall]. intros b Hb. now apply Z.leb_le.
  - intros a b. destruct (Z.leb_spec (created b) (created a)); [now left|].
    right. apply Z.leb_le. lia.
  - intros a b c Hab Hbc. apply Z.leb_le in Hab, Hbc. apply Z.leb_le. lia.
Qed.

Lemma firstn_sorted {A : Type} (R : A -> A -> Prop) (n : nat) (l : list A) :
  StronglySorted R l -> StronglySorted R (firstn n l).
Proof.
  revert n. induction l as [|x l IH]; intros [|n] Hs; simpl;
    try constructor.
  - inversion Hs; subst. now apply IH.
  - inversion Hs as [|? ? _ Hall]; subst.
    apply Forall_forall. intros y Hy. rewrite Forall_forall in Hall.
    apply Hall. rewrite <- (firstn_skipn n l). apply in_or_app. now left.
Qed.

(** ** Strings *)

(** The notification a write adds, in full. *)
Lemma notify_adds (title message type category : string) (user : AuthUser)
  (now : Date) (ok : Response) (st : Store) :
  trim title <> EmptyString -> trim message <> EmptyString ->
  memString type Full.notificationTypes = true ->
  memString category Full.notificationCategories = true ->
  Full.notify title message type category user now ok st
  = (ok,
     setNotifications st
       (notifications st
        ++ [Notification.mk (nextId st) (trim title) (trim message) type
              category (id user) false now])
       (S (nextId st))).
Proof.
  intros Ht Hm Hty Hcat.
  unfold Full.notify, Full.newNotification. simpl option_map.
  rewrite (requiredString_present _ _ _ Ht), (requiredString_present _ _ _ Hm).
  unfold enumOf, Full.withDefault. cbn [bindResult].
  rewrite Hty. cbn [bindResult]. rewrite Hcat. reflexivity.
Qed.

(** ** Students: create, read, update, delete *)

Lemma find_all_false {A : Type} (p : A -> bool) (l : list A) :
  (forall x, In x l -> p x = false) -> find p l = None.
Proof.
  induction l as [|x l IH]; simpl; intros H; [reflexivity|].
  rewrite (H x) by now left. apply IH. intros y Hy. apply H. now right.
Qed.

Lemma find_exists {A : Type} (p : A -> bool) (l : list A) (x : A) :
  In x l -> p x = true -> exists y, find p l = Some y.
Proof.
  intros Hin Hp. destruct (find p l) as [y|] eqn:F; [now exists y|].
  pose proof (find_none _ _ F x Hin). congruence.
Qed.

Lemma findById_app_fresh {A : Type} (idOf : A -> ObjectId) (c : list A) (x : A) :
  (forall y, In y c -> idOf y <> idOf x) ->
  findById idOf (idOf x) (c ++ [x]) = Some x.
Proof.
  intros Hfresh. unfold findById, findOne.
  rewrite find_app_last.
  - now rewrite Nat.eqb_refl.
  - apply find_all_false. intros y Hy. apply Nat.eqb_neq. now apply Hfresh.
Qed.

(** X1.  A complete student payload whose roll number is not in use is
    answered with 201; the store gains exactly that student, with status
    active and the admission date of the request, and one unread
    notification addressed to the caller; reading the new id back returns
    the student. *)
Theorem createStudent_stores_and_notifies (now : Date) (user : AuthUser)
  (name rollNumber class gender email : string) (age : Number)
  (phone address guardianName guardianPhone : option string) (st : Store) :
  name <> EmptyString -> rollNumber <> EmptyString -> class <> EmptyString ->
  email <> EmptyString ->
  memString gender Full.genders = true ->
  (forall s, In s (students st) -> Student.rollNumber s <> rollNumber) ->
  (forall s, In s (students st) -> Student._id s <> nextId st) ->
  let student :=
    Student.mk (nextId st) name rollNumber class age gender email phone
      address guardianName guardianPhone now "active" now in
  let result :=
    Full.createStudent now user (Some name) (Some rollNumber) (Some class)
      (Some age) (Some gender) (Some email) phone address guardianName
      guardianPhone st in
  fst result
  = mkResponse 201 (StudentBody "Student created successfully" student)
  /\ students (snd result) = students st ++ [student]
  /\ notifications (snd result)
     = notifications st
       ++ [Notification.mk (S (nextId st)) "New Student Added"
             (trim (name ++ " has been added to class " ++ class))
             "success" "student" (id user) false now]
  /\ users (snd result) = users st /\ grades (snd result) = grades st
  /\ attendances (snd result) = attendances st /\ fees (snd result) = fees st
  /\ Queries.getStudent user (nextId st) (snd result) = Json 200 student.
Proof.
  intros Hname Hroll Hclass Hemail Hgender Hfree Hfresh. cbv zeta.
  unfold Full.createStudent.
  replace (findOne _ (students st)) with (@None Student.t).
  2:{ symmetry. apply find_all_false. intros s Hs. cbn [optStringEqb].
      apply String.eqb_neq. now apply Hfree. }
  unfold Full.validateStudent. cbn [required bindResult].
  rewrite !requiredString_present by assumption. cbn [bindResult].
  rewrite requiredString_present
    by (apply (memString_nonempty _ _ Hgender); reflexivity).
  cbn [bindResult]. unfold enumOf. rewrite Hgender. cbn [bindResult].
  rewrite !requiredString_present by assumption. cbn [bindResult].
  rewrite notify_adds; try reflexivity; try discriminate.
  - unfold setNotifications, setStudents.
    cbn [fst snd students notifications users grades attendances fees nextId].
    repeat split.
    unfold Queries.getStudent. cbn [students].
    pose proof (findById_app_fresh Student._id (students st)
                  (Student.mk (nextId st) name rollNumber class age gender
                     email phone address guardianName guardianPhone now
                     "active" now)) as H.
    cbn [Student._id] in H. now rewrite H by exact Hfresh.
  - cbn [Student.name Student.class].
    change (name ++ " has been added to class " ++ class)%string
      with (name ++ String " " (String "h"
              ("as been added to class " ++ class)))%string.
    replace (name ++ String " " (String "h"
               ("as been added to class " ++ class)))%string
      with ((name ++ " ") ++ String "h"
              ("as been added to class " ++ class))%string.
    + now apply trim_visible.
    + clear. induction name as [|c n IH]; simpl; [reflexivity|].
      now f_equal.
Qed.

Lemma createStudent_stores_and_notifies_witness :
  Queries.getStudent teacher7 7
    (snd (Full.createStudent 50 teacher7 (Some " Bob") (Some "R9") (Some "JSS2")
            (Some 13%Q) (Some "Male") (Some "bob@school.com") None None None
            None sampleStore))
  = Json 200
      (Student.mk 7 " Bob" "R9" "JSS2" 13 "Male" "bob@school.com" None None
         None None 50 "active" 50).
Proof.
  apply (createStudent_stores_and_notifies 50%Z teacher7 " Bob" "R9" "JSS2"
           "Male" "bob@school.com" 13%Q None None None None sampleStore);
    try discriminate; try reflexivity;
    simpl; intros s [<- | [<- | []]]; discriminate.
Defined.

(** X2.  A student payload whose roll number a stored student already has
    is answered with 400 "Roll number already exists", whatever else it
    holds, and nothing is stored: no student, no notification. *)
Theorem createStudent_rejects_known_rollNumber (now : Date) (user : AuthUser)
  (name class : option string) (rollNumber : string) (age : option Number)
  (gender email phone address guardianName guardianPhone : option string)
  (st : Store) :
  (exists s, In s (students st) /\ Student.rollNumber s = rollNumber) ->
  Full.createStudent now user name (Some rollNumber) class age gender email
    phone address guardianName guardianPhone st
  = (mkResponse 400 (ErrorBody "Roll number already exists"), st).
Proof.
  intros [s [Hin Hs]]. unfold Full.createStudent.
  destruct (find_exists
              (fun s => optStringEqb (Some (Student.rollNumber s))
                          (Some rollNumber))
              (students st) s Hin) as [y Hy].
  - cbn [optStringEqb]. rewrite Hs. apply String.eqb_refl.
  - unfold findOne. now rewrite Hy.
Qed.

Lemma createStudent_rejects_known_rollNumber_witness :
  Full.createStudent 50 teacher7 (Some "Bob") (Some "R2") None None None None
    None None None None sampleStore
  = (mkResponse 400 (ErrorBody "Roll number already exists"), sampleStore).
Proof.
  apply createStudent_rejects_known_rollNumber.
  exists (sampleStudent 2 "R2"). split; [simpl; tauto | reflexivity].
Defined.

Lemma in_updateFirst_unique {A : Type} (idOf : A -> ObjectId) (i : ObjectId)
  (f : A -> A) (c : list A) (s y : A) :
  NoDup (map idOf c) -> In s c -> idOf s = i ->
  In y (updateFirst (fun d => Nat.eqb (idOf d) i) f c)
  <-> y = f s \/ (In y c /\ idOf y <> i).
Proof.
  induction c as [|d c IH]; simpl; intros ND Hs Hi; [contradiction|].
  inversion ND as [|? ? Hnotin ND']; subst.
  destruct (Nat.eqb (idOf d) (idOf s)) eqn:Hd.
  - apply Nat.eqb_eq in Hd.
    assert (s = d).
    { destruct Hs as [-> | Hs]; [reflexivity|].
      exfalso. apply Hnotin. rewrite Hd. now apply in_map. }
    subst d. simpl. split.
    + intros [<- | Hy]; [now left|]. right. split; [now right|].
      intros Heq. apply Hnotin. rewrite <- Heq. now apply in_map.
    + intros [-> | [[<- | Hy] Hne]]; [now left | congruence | now right].
  - apply Nat.eqb_neq in Hd.
    destruct Hs as [-> | Hs]; [congruence|].
    simpl. rewrite (IH ND' Hs eq_refl). split.
    + intros [<- | [-> | [Hy Hne]]]; auto.
    + intros [-> | [[<- | Hy] Hne]]; auto.
Qed.

Lemma findById_updateFirst {A : Type} (idOf : A -> ObjectId) (i : ObjectId)
  (f : A -> A) (c : list A) (s : A) :
  findById idOf i c = Some s -> idOf (f s) = i ->
  findById idOf i (updateFirst (fun d => Nat.eqb (idOf d) i) f c) = Some (f s).
Proof.
  unfold findById, findOne. intros Hfind Hid.
  induction c as [|d c IH]; simpl in *; [discriminate|].
  destruct (Nat.eqb (idOf d) i) eqn:Hd.
  - injection Hfind as ->. simpl. now rewrite Hid, Nat.eqb_refl.
  - simpl. rewrite Hd. now apply IH.
Qed.

Lemma updateFirst_length {A : Type} (p : A -> bool) (f : A -> A) (c : list A) :
  length (updateFirst p f c) = length c.
Proof.
  induction c as [|d c IH]; simpl; [reflexivity|].
  destruct (p d); simpl; congruence.
Qed.

Lemma validateStudentUpdates_accepts (u : Full.StudentUpdates) :
  ~ invalidStudentUpdates u -> Full.validateStudentUpdates u = inr tt.
Proof.
  intros Hvalid. unfold invalidStudentUpdates, outside in Hvalid.
  unfold Full.validateStudentUpdates, Full.updatedString, optionalEnum.
  destruct (Full.u_name u) as [x|];
    [destruct (String.eqb_spec x EmptyString); [subst; tauto|]|];
    cbn [bindResult];
    (destruct (Full.u_rollNumber u) as [x1|];
     [destruct (String.eqb_spec x1 EmptyString); [subst; tauto|]|]);
    cbn [bindResult];
    (destruct (Full.u_class u) as [x2|];
     [destruct (String.eqb_spec x2 EmptyString); [subst; tauto|]|]);
    cbn [bindResult];
    (destruct (Full.u_gender u) as [x3|];
     [destruct (String.eqb_spec x3 EmptyString);
      [subst; exfalso; apply Hvalid; do 4 right; left; eexists; split;
       reflexivity|];
      destruct (memString x3 Full.genders) eqn:Hg;
      [|exfalso; apply Hvalid; do 4 right; left; eexists; split; eauto]|]);
    cbn [bindResult];
    (destruct (Full.u_email u) as [x4|];
     [destruct (String.eqb_spec x4 EmptyString); [subst; tauto|]|]);
    cbn [bindResult];
    (destruct (Full.u_status u) as [x5|];
     [destruct (memString x5 Full.studentStatuses) eqn:Hs;
      [|exfalso; apply Hvalid; do 5 right; eexists; split; eauto]|]);
    reflexivity.
Qed.

(** X3.  An update whose payload passes the validators and whose roll
    number no other student holds.  On an unknown id it is answered with 404
    and changes nothing.  On a known id, a payload that names another [_id]
    is answered with 500 and changes nothing; any other payload is answered
    with 200 and replaces that one student: each path the payload names,
    [admissionDate], [status] and [created_at] included, takes the value
    sent, every other path keeps its value, and so does the [_id]; every
    other student and collection is kept, and reading the id back returns
    the new record. *)
Theorem updateStudent_replaces_one (user : AuthUser) (i : ObjectId)
  (updates : Full.StudentUpdates) (st : Store) :
  NoDup (map Student._id (students st)) ->
  ~ invalidStudentUpdates updates ->
  (forall s' r, In s' (students st) -> Student._id s' <> i ->
                Full.u_rollNumber updates = Some r -> Student.rollNumber s' <> r) ->
  (findById Student._id i (students st) = None ->
   Full.updateStudent user i updates st
   = (mkResponse 404 (ErrorBody "Student not found"), st))
  /\ (forall s j, findById Student._id i (students st) = Some s ->
        Full.u_id updates = Some j -> j <> i ->
        Full.updateStudent user i updates st
        = (serverError (ImmutableField "_id"), st))
  /\ (forall s, findById Student._id i (students st) = Some s ->
        (forall j, Full.u_id updates = Some j -> j = i) ->
        let result := Full.updateStudent user i updates st in
        exists s',
          fst result
          = mkResponse 200 (StudentBody "Student updated successfully" s')
          /\ Student._id s' = i
          /\ named (Full.u_name updates) (Student.name s) (Student.name s')
          /\ named (Full.u_rollNumber updates) (Student.rollNumber s)
               (Student.rollNumber s')
          /\ named (Full.u_class updates) (Student.class s) (Student.class s')
          /\ named (Full.u_age updates) (Student.age s) (Student.age s')
          /\ named (Full.u_gender updates) (Student.gender s)
               (Student.gender s')
          /\ named (Full.u_email updates) (Student.email s) (Student.email s')
          /\ namedOpt (Full.u_phone updates) (Student.phone s)
               (Student.phone s')
          /\ namedOpt (Full.u_address updates) (Student.address s)
               (Student.address s')
          /\ namedOpt (Full.u_guardianName updates) (Student.guardianName s)
               (Student.guardianName s')
          /\ namedOpt (Full.u_guardianPhone updates) (Student.guardianPhone s)
               (Student.guardianPhone s')
          /\ named (Full.u_admissionDate updates) (Student.admissionDate s)
               (Student.admissionDate s')
          /\ named (Full.u_status updates) (Student.status s)
               (Student.status s')
          /\ named (Full.u_created_at updates) (Student.created_at s)
               (Student.created_at s')
          /\ (forall x, In x (students (snd result))
                        <-> x = s'
                            \/ (In x (students st) /\ Student._id x <> i))
          /\ length (students (snd result)) = length (students st)
          /\ Queries.getStudent user i (snd result) = Json 200 s'
          /\ users (snd result) = users st /\ grades (snd result) = grades st
          /\ attendances (snd result) = attendances st
          /\ fees (snd result) = fees st
          /\ notifications (snd result) = notifications st
          /\ nextId (snd result) = nextId st).
Proof.
  intros ND Hvalid Hroll.
  assert (Hfree : Full.rollNumberTaken i updates (students st) = false).
  { unfold Full.rollNumberTaken. destruct (Full.u_rollNumber updates) as [r|];
      [|reflexivity].
    destruct (existsb _ _) eqn:Hex; [exfalso | reflexivity].
    apply existsb_exists in Hex. destruct Hex as [s' [Hin Hp]].
    apply andb_true_iff in Hp. destruct Hp as [Hne Heq].
    apply negb_true_iff, Nat.eqb_neq in Hne. apply String.eqb_eq in Heq.
    now apply (Hroll s' r Hin Hne eq_refl). }
  unfold Full.updateStudent.
  rewrite (validateStudentUpdates_accepts updates Hvalid).
  split; [|split].
  - intros ->. reflexivity.
  - intros s j -> Hj Hne. unfold Full.changesId. rewrite Hj.
    apply Nat.eqb_neq in Hne. now rewrite Hne.
  - intros s Hs Hsame. cbv zeta. rewrite Hs, Hfree.
    assert (Hkeep : Full.changesId i updates = false).
    { unfold Full.changesId. destruct (Full.u_id updates) as [j|];
        [|reflexivity].
      rewrite (Hsame j eq_refl), Nat.eqb_refl. reflexivity. }
    rewrite Hkeep.
    assert (Hin : In s (students st) /\ Student._id s = i).
    { unfold findById, findOne in Hs. apply find_some in Hs.
      split; [tauto | now apply Nat.eqb_eq]. }
    destruct Hin as [Hin Hid].
    exists (Full.applyStudentUpdates updates s).
    unfold setStudents. cbn [fst snd students users grades attendances fees
                             notifications nextId].
    repeat match goal with |- _ /\ _ => split end; try reflexivity;
      try assumption;
      try (unfold named, namedOpt, Full.applyStudentUpdates, Full.withDefault;
           cbn;
           match goal with
           | |- match ?u with _ => _ end => destruct u; reflexivity
           end).
    + intros s'. now apply in_updateFirst_unique.
    + apply updateFirst_length.
    + unfold Queries.getStudent. cbn [students].
      now rewrite (findById_updateFirst Student._id i
                     (Full.applyStudentUpdates updates) _ s Hs Hid).
Qed.

Lemma updateStudent_replaces_one_witness :
  Full.updateStudent teacher7 9 (renameUpdate "Eve") sampleStore
  = (mkResponse 404 (ErrorBody "Student not found"), sampleStore)
  /\ exists s',
       Queries.getStudent teacher7 2
         (snd (Full.updateStudent teacher7 2 (renameUpdate "Eve") sampleStore))
       = Json 200 s'
       /\ Student.name s' = "Eve"
       /\ Student.rollNumber s' = "R2".
Proof.
  assert (ND : NoDup (map Student._id (students sampleStore))).
  { simpl. repeat constructor; simpl; intuition discriminate. }
  assert (Hvalid : ~ invalidStudentUpdates (renameUpdate "Eve")).
  { unfold invalidStudentUpdates, outside. simpl.
    intros [H | [H | [H | [H | [[s [H _]] | [s [H _]]]]]]]; discriminate. }
  assert (Hroll : forall s' r, In s' (students sampleStore) ->
                    Student._id s' <> 9 ->
                    Full.u_rollNumber (renameUpdate "Eve") = Some r ->
                    Student.rollNumber s' <> r)
    by (intros s' r _ _ H; discriminate).
  assert (Hroll2 : forall s' r, In s' (students sampleStore) ->
                     Student._id s' <> 2 ->
                     Full.u_rollNumber (renameUpdate "Eve") = Some r ->
                     Student.rollNumber s' <> r)
    by (intros s' r _ _ H; discriminate).
  split.
  - apply (updateStudent_replaces_one teacher7 9 (renameUpdate "Eve")
             sampleStore ND Hvalid Hroll). reflexivity.
  - destruct (updateStudent_replaces_one teacher7 2 (renameUpdate "Eve")
                sampleStore ND Hvalid Hroll2) as [_ [_ H]].
    destruct (H (sampleStudent 2 "R2") eq_refl) as [s' Hs'].
    { intros j Hj. discriminate. }
    exists s'.
    destruct Hs' as [_ [_ [Hname [Hr [_ [_ [_ [_ [_ [_ [_ [_ [_ [_ [_ [_ [_
                    [Hget _]]]]]]]]]]]]]]]]]].
    split; [exact Hget|]. split; [exact Hname | exact Hr].
Defined.

(** ** What each write leaves in the store *)

Section FreshIds.
Context {A : Type}.
Variable idOf : A -> ObjectId.

Lemma freshIds_weaken (n m : ObjectId) (c : list A) :
  freshIds idOf n c -> n <= m -> freshIds idOf m c.
Proof.
  intros [ND Hlt] Hle. split; [assumption|].
  eapply Forall_impl; [|exact Hlt]. intros i Hi. simpl in Hi. lia.
Qed.

Lemma freshIds_snoc (n : ObjectId) (c : list A) (x : A) :
  freshIds idOf n c -> idOf x = n -> freshIds idOf (S n) (c ++ [x]).
Proof.
  intros [ND Hlt] Hx. unfold freshIds. rewrite map_app. simpl. split.
  - apply NoDup_app; [assumption | repeat constructor; simpl; tauto |].
    intros i Hi [<- | []]. rewrite Forall_forall in Hlt.
    specialize (Hlt _ Hi). simpl in Hlt. rewrite Hx in Hlt.
    now apply Nat.lt_irrefl in Hlt.
  - apply Forall_app. split.
    + eapply Forall_impl; [|exact Hlt]. intros i Hi. simpl in Hi. lia.
    + constructor; [|constructor]. rewrite Hx. apply Nat.lt_succ_diag_r.
Qed.

Lemma freshIds_filter (n : ObjectId) (p : A -> bool) (c : list A) :
  freshIds idOf n c -> freshIds idOf n (filter p c).
Proof.
  intros [ND Hlt]. induction c as [|d c IH]; simpl; [split; constructor|].
  simpl in ND, Hlt. inversion ND as [|? ? Hnotin ND']; subst.
  inversion Hlt as [|? ? Hd Hlt']; subst.
  destruct (IH ND' Hlt') as [IH1 IH2].
  destruct (p d); [|split; assumption]. simpl. split.
  - constructor; [|assumption]. intros Hin. apply Hnotin.
    apply in_map_iff in Hin. destruct Hin as [y [Hy Hin]].
    apply filter_In in Hin. rewrite <- Hy. apply in_map. tauto.
  - now constructor.
Qed.

Lemma freshIds_removeFirst (n : ObjectId) (p : A -> bool) (c : list A) :
  freshIds idOf n c -> freshIds idOf n (removeFirst p c).
Proof.
  intros [ND Hlt]. induction c as [|d c IH]; simpl; [split; constructor|].
  simpl in ND, Hlt. inversion ND as [|? ? Hnotin ND']; subst.
  inversion Hlt as [|? ? Hd Hlt']; subst.
  destruct (p d); [split; assumption|].
  destruct (IH ND' Hlt') as [IH1 IH2]. simpl. split.
  - constructor; [|assumption]. intros Hin. apply Hnotin.
    apply in_map_iff in Hin. destruct Hin as [y [Hy Hin]].
    rewrite <- Hy. apply in_map.
    clear - Hin. induction c as [|e c IHc]; simpl in *; [assumption|].
    destruct (p e); [now right|]. destruct Hin; auto.
  - now constructor.
Qed.

Lemma map_updateFirst (p : A -> bool) (f : A -> A) (c : list A) :
  (forall d, idOf (f d) = idOf d) ->
  map idOf (updateFirst p f c) = map idOf c.
Proof.
  intros Hf. induction c as [|d c IH]; simpl; [reflexivity|].
  destruct (p d); simpl; [now rewrite Hf | now rewrite IH].
Qed.

Lemma map_updateFirst_same (p : A -> bool) (x : A) (c : list A) :
  (forall d, p d = true -> idOf d = idOf x) ->
  map idOf (updateFirst p (fun _ => x) c) = map idOf c.
Proof.
  intros Hp. induction c as [|d c IH]; simpl; [reflexivity|].
  destruct (p d) eqn:Hd; simpl; [now rewrite (Hp d Hd) | now rewrite IH].
Qed.

Lemma map_updateMany (p : A -> bool) (f : A -> A) (c : list A) :
  (forall d, idOf (f d) = idOf d) ->
  map idOf (updateMany p f c) = map idOf c.
Proof.
  intros Hf. unfold updateMany. rewrite map_map. apply map_ext.
  intros d. destruct (p d); [apply Hf | reflexivity].
Qed.

End FreshIds.

Lemma idsOk_weaken (st : Store) :
  idsOk st ->
  idsOk (mkStore (users st) (students st) (grades st) (attendances st)
           (fees st) (notifications st) (S (nextId st))).
Proof.
  unfold idsOk. cbn. intros H. decompose [and] H.
  repeat split; try (eapply freshIds_weaken; [eassumption | lia]);
    first [apply H0 | apply H1 | apply H2 | apply H3 | apply H4 | apply H6
          | idtac].
Qed.

Lemma validateStudent_inr (name rollNumber class : option string)
  (age : option Number)
  (gender email phone address guardianName guardianPhone : option string)
  (i : ObjectId) (now : Date) (s : Student.t) :
  Full.validateStudent name rollNumber class age gender email phone address
    guardianName guardianPhone i now = inr s ->
  exists nm rn cl ag gd em,
    name = Some nm /\ rollNumber = Some rn /\ class = Some cl /\ age = Some ag
    /\ gender = Some gd /\ email = Some em
    /\ nm <> EmptyString /\ rn <> EmptyString /\ cl <> EmptyString
    /\ em <> EmptyString /\ memString gd Full.genders = true
    /\ s = Student.mk i nm rn cl ag gd em phone address guardianName
             guardianPhone now "active" now.
Proof.
  intros H. unfold Full.validateStudent in H. invert_binds H.
  apply requiredString_inr in Hv, Hv0, Hv1, Hv3, Hv5.
  apply required_inr in Hv2.
  pose proof (enumOf_inr _ _ _ _ _ Hv4) as Hg.
  unfold enumOf in Hv4. rewrite Hg in Hv4. injection Hv4 as <-.
  injection H as <-.
  exists v, v0, v1, v2, v3, v5. intuition.
Qed.

Lemma validateGrade_inr (student_id : option ObjectId) (subject : option string)
  (marks : option Number) (grade : string)
  (term academic_year remarks : option string) (i : ObjectId) (now : Date)
  (g : Grade.t) :
  Full.validateGrade student_id subject marks grade term academic_year remarks
    i now = inr g ->
  exists sid sb m tm ay,
    student_id = Some sid /\ subject = Some sb /\ marks = Some m
    /\ term = Some tm /\ academic_year = Some ay
    /\ (0 <= m /\ m <= 100)%Q
    /\ g = Grade.mk i sid sb m (Some grade) tm ay remarks now.
Proof.
  intros H. unfold Full.validateGrade in H. invert_binds H.
  apply required_inr in Hv, Hv1. apply requiredString_inr in Hv0, Hv3, Hv4.
  pose proof (inRange_inr _ _ _ _ _ _ Hv2) as Hr.
  unfold inRange in Hv2. destruct (_ && _) in Hv2; [|discriminate].
  injection Hv2 as <-. injection H as <-.
  exists v, v0, v1, v3, v4. intuition.
Qed.

Lemma validateAttendance_inr (student_id : option ObjectId)
  (date : option Date) (status remarks : option string) (i : ObjectId)
  (now : Date) (a : Attendance.t) :
  Full.validateAttendance student_id date status remarks i now = inr a ->
  exists sid d s,
    student_id = Some sid /\ date = Some d /\ status = Some s
    /\ memString s Full.attendanceStatuses = true
    /\ a = Attendance.mk i sid d s remarks now.
Proof.
  intros H. unfold Full.validateAttendance in H. invert_binds H.
  apply required_inr in Hv, Hv0. apply requiredString_inr in Hv1.
  pose proof (enumOf_inr _ _ _ _ _ Hv2) as Hs.
  unfold enumOf in Hv2. rewrite Hs in Hv2. injection Hv2 as <-.
  injection H as <-. exists v, v0, v1. intuition.
Qed.

Lemma validateFee_inr (student_id : option ObjectId) (amount : option Number)
  (payment_method term academic_year receipt_number : option string)
  (status : string) (i : ObjectId) (now : Date) (f : Fee.t) :
  Full.validateFee student_id amount payment_method term academic_year
    receipt_number status i now = inr f ->
  exists sid am tm ay,
    student_id = Some sid /\ amount = Some am /\ term = Some tm
    /\ academic_year = Some ay
    /\ ~ outside Full.paymentMethods payment_method
    /\ memString status Full.feeStatuses = true
    /\ f = Fee.mk i sid am (Some now) payment_method tm ay status
             receipt_number now.
Proof.
  intros H. unfold Full.validateFee in H. invert_binds H.
  apply required_inr in Hv, Hv0. apply requiredString_inr in Hv2, Hv3.
  pose proof (optionalEnum_inr _ _ _ _ _ Hv1) as Hp.
  pose proof (enumOf_inr _ _ _ _ _ Hv4) as Hs.
  unfold enumOf in Hv4. rewrite Hs in Hv4. injection Hv4 as <-.
  assert (v1 = payment_method).
  { unfold optionalEnum in Hv1. destruct payment_method as [p|];
      [destruct (memString p _)|]; congruence. }
  subst v1. injection H as <-. exists v, v0, v2, v3. intuition.
Qed.

Lemma newNotification_inr (title message type category : option string)
  (recipient : option ObjectId) (i : ObjectId) (now : Date)
  (n : Notification.t) :
  Full.newNotification title message type category recipient i now = inr n ->
  exists tt msg rc,
    recipient = Some rc
    /\ memString (Full.withDefault type "info") Full.notificationTypes = true
    /\ memString (Full.withDefault category "system")
         Full.notificationCategories = true
    /\ n = Notification.mk i tt msg (Full.withDefault type "info")
             (Full.withDefault category "system") rc false now.
Proof.
  intros H. unfold Full.newNotification in H. invert_binds H.
  apply required_inr in Hv3.
  pose proof (enumOf_inr _ _ _ _ _ Hv1) as Ht.
  pose proof (enumOf_inr _ _ _ _ _ Hv2) as Hc.
  unfold enumOf in Hv1, Hv2. rewrite Ht in Hv1. rewrite Hc in Hv2.
  injection Hv1 as <-. injection Hv2 as <-. injection H as <-.
  exists v, v0, v3. intuition.
Qed.

(** The shape of the store after the side notification of a write. *)
Lemma notify_effect (title message type category : string) (user : AuthUser)
  (now : Date) (ok : Response) (st : Store) :
  snd (Full.notify title message type category user now ok st) = st
  \/ exists tt msg,
       snd (Full.notify title message type category user now ok st)
       = setNotifications st
           (notifications st
            ++ [Notification.mk (nextId st) tt msg type category (id user)
                  false now])
           (S (nextId st))
       /\ memString type Full.notificationTypes = true
       /\ memString category Full.notificationCategories = true.
Proof.
  unfold Full.notify.
  destruct (Full.newNotification _ _ _ _ _ _ _) as [e|n] eqn:H; [now left|].
  right. apply newNotification_inr in H.
  destruct H as [tt [msg [rc [Hrc [Ht [Hc ->]]]]]].
  injection Hrc as <-. exists tt, msg. cbn [Full.withDefault] in *. auto.
Qed.

Lemma one_change (st st' : Store) : Change st st' -> Changes st st'.
Proof. intros H. eapply ThenChange; [apply NoChange | exact H]. Qed.

Lemma changes_trans (a b c : Store) : Changes a b -> Changes b c -> Changes a c.
Proof.
  intros Hab Hbc. revert Hab.
  induction Hbc as [|b c d Hbc IH Hcd]; intros Hab; [assumption|].
  eapply ThenChange; [apply IH; exact Hab | exact Hcd].
Qed.

Lemma notify_changes (title message type category : string) (user : AuthUser)
  (now : Date) (ok : Response) (st : Store) :
  Changes st (snd (Full.notify title message type category user now ok st)).
Proof.
  destruct (notify_effect title message type category user now ok st)
    as [-> | [tt [msg [-> [Ht Hc]]]]]; [apply NoChange|].
  apply one_change. now apply AddNotification.
Qed.

Section HandleChanges.
Context {E : Externals}.
Variable cfg : Config.

(** Every write request amounts to at most two elementary changes. *)
Lemma step_changes (req : Run.Request) (st : Store) :
  Changes st (Run.step cfg st req).
Proof.
  unfold Run.step.
  destruct req
    as [now salt full_name email password rl
       | now user name rollNumber class age gender email phone address
           guardianName guardianPhone
       | user i updates | user i
       | now user student_id subject marks term academic_year remarks
       | now user student_id date status remarks
       | now user student_id amount payment_method term academic_year
           receipt_number status
       | user i | user | user i
       | now user title message type category recipient];
    cbn [Run.handle].
  - (* register *)
    unfold register.
    destruct (findOne _ _) eqn:Hfind; [apply NoChange|].
    destruct password as [pw|]; [|apply NoChange].
    destruct (validateUser _ _ _ _ _ _) as [e|u] eqn:Hv; [apply NoChange|].
    apply validateUser_inr in Hv.
    destruct Hv as [fn [em [-> [_ [-> [_ [Hr ->]]]]]]].
    apply one_change. apply AddUser; [reflexivity | | exact Hr].
    intros u' Hin Heq. unfold findOne in Hfind.
    pose proof (find_none _ _ Hfind u' Hin) as Hno.
    unfold byEmail in Hno. cbn [optStringEqb User.email] in *.
    rewrite Heq, String.eqb_refl in Hno. discriminate.
  - (* createStudent *)
    unfold Full.createStudent.
    destruct (findOne _ _) eqn:Hfind; [apply NoChange|].
    destruct (Full.validateStudent _ _ _ _ _ _ _ _ _ _ _ _) as [e|s] eqn:Hv;
      [apply NoChange|].
    apply validateStudent_inr in Hv.
    destruct Hv as [nm [rn [cl [ag [gd [em [-> [-> [-> [-> [-> [-> [_ [_ [_ [_
                    [Hg ->]]]]]]]]]]]]]]]]].
    eapply changes_trans; [|apply notify_changes].
    apply one_change. apply AddStudent; try reflexivity; [|assumption].
    intros s' Hin Heq. unfold findOne in Hfind.
    pose proof (find_none _ _ Hfind s' Hin) as Hno.
    cbn [optStringEqb Student.rollNumber] in *.
    rewrite Heq, String.eqb_refl in Hno. discriminate.
  - (* updateStudent *)
    unfold Full.updateStudent.
    destruct (Full.validateStudentUpdates updates) as [e|[]] eqn:Hv;
      [apply NoChange|].
    destruct (findById _ _ _); [|apply NoChange].
    destruct (Full.changesId _ _); [apply NoChange|].
    destruct (Full.rollNumberTaken _ _ _) eqn:Ht; [apply NoChange|].
    apply one_change. now apply ReplaceStudent.
  - (* deleteStudent *)
    unfold Full.deleteStudent, findByIdAndDelete, findOneAndDelete.
    destruct (findOne _ _); [|apply NoChange].
    apply one_change. apply RemoveStudent.
  - (* createGrade *)
    unfold Full.createGrade.
    destruct (Full.validateGrade _ _ _ _ _ _ _ _ _) as [e|g] eqn:Hv;
      [apply NoChange|].
    apply validateGrade_inr in Hv.
    destruct Hv as [sid [sb [m [tm [ay [-> [-> [-> [-> [-> [Hr ->]]]]]]]]]]].
    eapply changes_trans; [|apply notify_changes].
    apply one_change. apply AddGrade; [reflexivity | exact Hr | reflexivity].
  - (* markAttendance *)
    unfold Full.markAttendance.
    destruct date as [d|]; [|apply NoChange].
    destruct (findOne _ _) as [existing|] eqn:Hfind.
    + destruct (Full.validateAttendance _ _ _ _ _ _) as [e|a] eqn:Hv;
        [apply NoChange|].
      apply validateAttendance_inr in Hv.
      destruct Hv as [sid [d' [s [Hsid [Hd [-> [Hs ->]]]]]]].
      injection Hsid as <-. injection Hd as <-.
      apply one_change. apply ReplaceAttendance; [|assumption].
      unfold findOne in Hfind. apply find_some in Hfind. tauto.
    + destruct (Full.validateAttendance _ _ _ _ _ _) as [e|a] eqn:Hv;
        [apply NoChange|].
      apply validateAttendance_inr in Hv.
      destruct Hv as [sid [d' [s [-> [_ [-> [Hs ->]]]]]]].
      apply one_change. now apply AddAttendance.
  - (* createFee *)
    unfold Full.createFee.
    destruct (Full.validateFee _ _ _ _ _ _ _ _ _) as [e|f] eqn:Hv;
      [apply NoChange|].
    apply validateFee_inr in Hv.
    destruct Hv as [sid [am [tm [ay [-> [-> [-> [-> [Hp [Hs ->]]]]]]]]]].
    eapply changes_trans; [|apply notify_changes].
    apply one_change. apply AddFee; try assumption; [reflexivity|discriminate].
  - (* markNotificationRead *)
    unfold Full.markNotificationRead, findOneAndUpdate.
    destruct (findOne _ _); [|apply NoChange].
    apply one_change. apply ReadOne.
  - (* markAllRead *)
    apply one_change. apply ReadMany.
  - (* deleteNotification *)
    unfold Full.deleteNotification, findOneAndDelete.
    destruct (findOne _ _); [|apply NoChange].
    apply one_change. apply RemoveNotification.
  - (* createNotification *)
    unfold Full.createNotification.
    destruct (Full.newNotification _ _ _ _ _ _ _) as [e|n] eqn:Hv;
      [apply NoChange|].
    apply newNotification_inr in Hv.
    destruct Hv as [tt [msg [rc [_ [Ht [Hc ->]]]]]].
    apply one_change. now apply AddNotification.
Qed.

Lemma run_changes (reqs : list Run.Request) (st : Store) :
  Changes st (Run.run cfg reqs st).
Proof.
  unfold Run.run. revert st.
  induction reqs as [|req reqs IH]; intros st; simpl; [apply NoChange|].
  eapply changes_trans; [apply step_changes | apply IH].
Qed.

End HandleChanges.

(** *** Invariants of the store *)

Lemma freshIds_succ {A : Type} (idOf : A -> ObjectId) (n : ObjectId)
  (c : list A) :
  freshIds idOf n c -> freshIds idOf (S n) c.
Proof.
  intros H. apply (freshIds_weaken idOf n (S n) c H). apply Nat.le_succ_diag_r.
Qed.

Lemma freshIds_updateFirst {A : Type} (idOf : A -> ObjectId) (n : ObjectId)
  (p : A -> bool) (f : A -> A) (c : list A) :
  (forall d, idOf (f d) = idOf d) ->
  freshIds idOf n c -> freshIds idOf n (updateFirst p f c).
Proof.
  intros Hf H. unfold freshIds. now rewrite (map_updateFirst idOf p f c Hf).
Qed.

Lemma freshIds_updateMany {A : Type} (idOf : A -> ObjectId) (n : ObjectId)
  (p : A -> bool) (f : A -> A) (c : list A) :
  (forall d, idOf (f d) = idOf d) ->
  freshIds idOf n c -> freshIds idOf n (updateMany p f c).
Proof.
  intros Hf H. unfold freshIds. now rewrite (map_updateMany idOf p f c Hf).
Qed.

Lemma freshIds_saveExisting {A : Type} (idOf : A -> ObjectId) (n : ObjectId)
  (x : A) (c : list A) :
  freshIds idOf n c -> freshIds idOf n (saveExisting idOf x c).
Proof.
  intros H. unfold freshIds, saveExisting.
  rewrite map_updateFirst_same; [assumption|].
  intros d Hd. now apply Nat.eqb_eq.
Qed.

Ltac fresh_ids :=
  first
    [ assumption
    | apply freshIds_snoc; assumption
    | apply freshIds_succ; assumption
    | apply freshIds_filter; assumption
    | apply freshIds_removeFirst; assumption
    | apply freshIds_updateFirst; [reflexivity | assumption]
    | apply freshIds_updateMany; [reflexivity | assumption]
    | apply freshIds_saveExisting; assumption ].

Lemma change_idsOk (st st' : Store) : Change st st' -> idsOk st -> idsOk st'.
Proof.
  intros Hc [Hu [Hs [Hg [Ha [Hf Hn]]]]].
  destruct Hc; unfold idsOk, setUsers, setStudents, setGrades, setAttendances,
    setFees, setNotifications, deleteMany;
    cbn [users students grades attendances fees notifications nextId];
    repeat match goal with |- _ /\ _ => split end; fresh_ids.
Qed.

Lemma NoDup_map_snoc {A B : Type} (f : A -> B) (c : list A) (x : A) :
  NoDup (map f c) -> (forall y, In y c -> f y <> f x) ->
  NoDup (map f (c ++ [x])).
Proof.
  intros ND Hfresh. rewrite map_app. simpl.
  apply NoDup_app; [assumption | repeat constructor; simpl; tauto |].
  intros b Hb [<- | []]. apply in_map_iff in Hb.
  destruct Hb as [y [Hy Hin]]. now apply (Hfresh y Hin).
Qed.

Lemma NoDup_map_removeFirst {A B : Type} (f : A -> B) (p : A -> bool)
  (c : list A) :
  NoDup (map f c) -> NoDup (map f (removeFirst p c)).
Proof.
  induction c as [|d c IH]; simpl; intros ND; [constructor|].
  inversion ND as [|? ? Hnotin ND']; subst.
  destruct (p d); [assumption|]. simpl. constructor; [|now apply IH].
  intros Hin. apply Hnotin. apply in_map_iff in Hin.
  destruct Hin as [y [Hy Hin]]. rewrite <- Hy. apply in_map.
  clear - Hin. induction c as [|e c IHc]; simpl in *; [assumption|].
  destruct (p e); [now right|]. destruct Hin; auto.
Qed.

(** Replacing the roll number of the student with id [i] by one no other
    student holds keeps the roll numbers distinct. *)
Lemma NoDup_rolls_update (i : ObjectId) (updates : Full.StudentUpdates)
  (c : list Student.t) :
  NoDup (map Student._id c) ->
  NoDup (map Student.rollNumber c) ->
  Full.rollNumberTaken i updates c = false ->
  NoDup (map Student.rollNumber
           (updateFirst (fun d => Nat.eqb (Student._id d) i)
              (Full.applyStudentUpdates updates) c)).
Proof.
  intros Hids Hrolls Htaken.
  destruct (Full.u_rollNumber updates) as [r|] eqn:Hr.
  2:{ replace (map Student.rollNumber (updateFirst _ _ c))
        with (map Student.rollNumber c); [assumption|].
      clear - Hr. induction c as [|d c IH]; simpl; [reflexivity|].
      destruct (Nat.eqb (Student._id d) i); simpl; [|now rewrite IH].
      unfold Full.applyStudentUpdates. cbn. now rewrite Hr. }
  unfold Full.rollNumberTaken in Htaken. rewrite Hr in Htaken.
  assert (Hother : forall s, In s c -> Student._id s <> i ->
                     Student.rollNumber s <> r).
  { intros s Hin Hne Heq.
    assert (existsb (fun s0 => negb (Nat.eqb (Student._id s0) i)
                               && (Student.rollNumber s0 =? r)%string) c = true);
      [|congruence].
    apply existsb_exists. exists s. split; [assumption|].
    apply andb_true_iff. split.
    - now apply negb_true_iff, Nat.eqb_neq.
    - now apply String.eqb_eq. }
  clear Htaken. induction c as [|d c IH]; simpl; [constructor|].
  simpl in Hids, Hrolls.
  inversion Hids as [|? ? Hidnot Hids']; subst.
  inversion Hrolls as [|? ? Hrollnot Hrolls']; subst.
  destruct (Nat.eqb (Student._id d) i) eqn:Hd.
  - apply Nat.eqb_eq in Hd. simpl. constructor; [|assumption].
    unfold Full.applyStudentUpdates. cbn. rewrite Hr. cbn.
    intros Hin. apply in_map_iff in Hin. destruct Hin as [s [Hs Hin]].
    apply (Hother s); [now right | | assumption].
    intros Heq. apply Hidnot. rewrite Hd, <- Heq. now apply in_map.
  - apply Nat.eqb_neq in Hd. simpl. constructor.
    + intros Hin. apply in_map_iff in Hin. destruct Hin as [s [Hs Hin]].
      apply in_updateFirst in Hin.
      destruct Hin as [Hin | [x [Hx [Hxi ->]]]].
      * apply Hrollnot. rewrite <- Hs. now apply in_map.
      * unfold Full.applyStudentUpdates in Hs. cbn in Hs. rewrite Hr in Hs.
        cbn in Hs. apply (Hother d); [now left | assumption | congruence].
    + apply IH; try assumption. intros s Hin. apply Hother. now right.
Qed.

Lemma change_keysUnique (st st' : Store) :
  Change st st' -> idsOk st -> keysUnique st -> keysUnique st'.
Proof.
  intros Hc Hids [He Hr].
  destruct Hc; unfold keysUnique, setUsers, setStudents, setGrades,
    setAttendances, setFees, setNotifications;
    cbn [users students]; split; try assumption.
  - now apply NoDup_map_snoc.
  - now apply NoDup_map_snoc.
  - apply NoDup_rolls_update; try assumption. apply Hids.
  - now apply NoDup_map_removeFirst.
Qed.

Lemma Forall_updateFirst {A : Type} (P : A -> Prop) (p : A -> bool)
  (f : A -> A) (c : list A) :
  (forall d, P d -> P (f d)) -> Forall P c -> Forall P (updateFirst p f c).
Proof.
  intros Hf H. induction H as [|d c Hd Hc IH]; simpl; [constructor|].
  destruct (p d); constructor; auto.
Qed.

Lemma Forall_updateMany {A : Type} (P : A -> Prop) (p : A -> bool)
  (f : A -> A) (c : list A) :
  (forall d, P d -> P (f d)) -> Forall P c -> Forall P (updateMany p f c).
Proof.
  intros Hf H. unfold updateMany. apply Forall_map.
  eapply Forall_impl; [|exact H]. intros d Hd. destruct (p d); auto.
Qed.

Lemma Forall_removeFirst {A : Type} (P : A -> Prop) (p : A -> bool)
  (c : list A) :
  Forall P c -> Forall P (removeFirst p c).
Proof.
  intros H. induction H as [|d c Hd Hc IH]; simpl; [constructor|].
  destruct (p d); [assumption | now constructor].
Qed.

Lemma Forall_deleteMany {A : Type} (P : A -> Prop) (p : A -> bool)
  (c : list A) :
  Forall P c -> Forall P (deleteMany p c).
Proof.
  intros H. unfold deleteMany. apply Forall_forall. intros d Hd.
  apply filter_In in Hd. rewrite Forall_forall in H. apply H. tauto.
Qed.

Lemma Forall_snoc {A : Type} (P : A -> Prop) (c : list A) (x : A) :
  Forall P c -> P x -> Forall P (c ++ [x]).
Proof.
  intros H Hx. apply Forall_app. split; [assumption | now constructor].
Qed.

Lemma applyStudentUpdates_ok (updates : Full.StudentUpdates) (s : Student.t) :
  Full.validateStudentUpdates updates = inr tt ->
  studentOk s -> studentOk (Full.applyStudentUpdates updates s).
Proof.
  intros H [Hg Hs]. unfold Full.validateStudentUpdates in H.
  invert_binds H.
  apply optionalEnum_inr in Hv3. apply optionalEnum_inr in Hv5.
  unfold outside in Hv3, Hv5.
  unfold studentOk, Full.applyStudentUpdates, Full.withDefault. cbn. split.
  - destruct (Full.u_gender updates) as [g|]; [|assumption].
    destruct (memString g Full.genders) eqn:Hm; [exact Hm|].
    exfalso. apply Hv3. eauto.
  - destruct (Full.u_status updates) as [x|]; [|assumption].
    destruct (memString x Full.studentStatuses) eqn:Hm; [exact Hm|].
    exfalso. apply Hv5. eauto.
Qed.

Lemma change_schemaOk (st st' : Store) :
  Change st st' -> schemaOk st -> schemaOk st'.
Proof.
  intros Hc [Hu [Hs [Hg [Ha [Hf Hn]]]]].
  destruct Hc; unfold schemaOk, setUsers, setStudents, setGrades,
    setAttendances, setFees, setNotifications;
    cbn [users students grades attendances fees notifications];
    repeat match goal with |- _ /\ _ => split end;
    try assumption;
    try (apply Forall_deleteMany; assumption);
    try (apply Forall_removeFirst; assumption).
  - now apply Forall_snoc.
  - apply Forall_snoc; [assumption|]. split; [assumption|].
    rewrite H2. reflexivity.
  - apply Forall_updateFirst; [|assumption].
    intros d. now apply applyStudentUpdates_ok.
  - apply Forall_snoc; [assumption|]. split; [assumption|].
    exists (Full.letterGrade (Some (Grade.marks g))).
    split; [assumption | apply letterGrade_meets_spec].
  - now apply Forall_snoc.
  - unfold saveExisting. apply Forall_updateFirst; [|assumption].
    intros d _. exact H0.
  - apply Forall_snoc; [assumption|]. repeat split; assumption.
  - apply Forall_snoc; [assumption|]. split; assumption.
  - apply Forall_updateFirst; [|assumption]. intros d Hd. exact Hd.
  - apply Forall_updateMany; [|assumption]. intros d Hd. exact Hd.
Qed.

Lemma changes_storeOk (st st' : Store) :
  Changes st st' -> storeOk st -> storeOk st'.
Proof.
  intros Hc. induction Hc as [|a b c Hab IH Hbc]; [tauto|].
  intros Hok. destruct (IH Hok) as [Hi [Hk Hs]].
  split; [|split].
  - now apply (change_idsOk b c).
  - now apply (change_keysUnique b c).
  - now apply (change_schemaOk b c).
Qed.

Lemma emptyStore_ok : storeOk emptyStore.
Proof.
  unfold storeOk, idsOk, keysUnique, schemaOk, freshIds. cbn.
  repeat split; constructor.
Qed.

(** X4.  Whatever write requests are served, in whatever order, each
    collection keeps its ids distinct and below the id counter; so an id
    names at most one document of a collection, in particular in every store
    reached from the empty one. *)
Theorem run_keeps_ids_distinct (E : Externals) (cfg : Config)
  (reqs : list Run.Request) (st : Store) :
  idsOk st ->
  idsOk (Run.run cfg reqs st)
  /\ NoDup (map Student._id (students (Run.run cfg reqs st)))
  /\ NoDup (map Notification._id (notifications (Run.run cfg reqs st))).
Proof.
  intros Hok.
  assert (H : idsOk (Run.run cfg reqs st)).
  { revert Hok. generalize (run_changes cfg reqs st).
    generalize (Run.run cfg reqs st). intros st' Hc.
    induction Hc as [|a b c Hab IH Hbc]; [tauto|].
    intros Hok. apply (change_idsOk b c Hbc). now apply IH. }
  split; [exact H|]. destruct H as [_ [[Hs _] [_ [_ [_ [Hn _]]]]]]. now split.
Qed.

Lemma run_keeps_ids_distinct_witness :
  NoDup (map Student._id
           (students (Run.run (E := sampleExternals) utc sampleRequests
                        emptyStore))).
Proof.
  apply (run_keeps_ids_distinct sampleExternals utc sampleRequests emptyStore).
  apply emptyStore_ok.
Defined.

Lemma changes_ids_keys (a b : Store) :
  Changes a b -> idsOk a /\ keysUnique a -> idsOk b /\ keysUnique b.
Proof.
  intros Hc. induction Hc as [|a b c Hab IH Hbc]; [tauto|].
  intros Hok. destruct (IH Hok) as [Hi Hk]. split.
  - now apply (change_idsOk b c).
  - now apply (change_keysUnique b c).
Qed.

(** X5.  Whatever write requests are served, no two users share an email
    and no two students share a roll number, provided that held before (and
    ids were distinct). *)
Theorem run_keeps_keys_unique (E : Externals) (cfg : Config)
  (reqs : list Run.Request) (st : Store) :
  idsOk st ->
  NoDup (map User.email (users st)) ->
  NoDup (map Student.rollNumber (students st)) ->
  NoDup (map User.email (users (Run.run cfg reqs st)))
  /\ NoDup (map Student.rollNumber (students (Run.run cfg reqs st))).
Proof.
  intros Hids He Hr.
  apply (changes_ids_keys st (Run.run cfg reqs st) (run_changes cfg reqs st)).
  split; [assumption | now split].
Qed.

Lemma run_keeps_keys_unique_witness :
  NoDup (map Student.rollNumber
           (students (Run.run (E := sampleExternals) utc sampleRequests
                        emptyStore))).
Proof.
  apply (run_keeps_keys_unique sampleExternals utc sampleRequests emptyStore
           (proj1 emptyStore_ok) (NoDup_nil _) (NoDup_nil _)).
Defined.

(** X6.  Whatever write requests are served, every stored document keeps
    satisfying its schema: roles, genders, statuses, payment methods,
    notification types and categories within their enums, marks within
    [0, 100] with the letter that belongs to them, and a payment date on
    every fee. *)
Theorem run_keeps_schema (E : Externals) (cfg : Config)
  (reqs : list Run.Request) (st : Store) :
  schemaOk st -> schemaOk (Run.run cfg reqs st).
Proof.
  generalize (run_changes cfg reqs st). generalize (Run.run cfg reqs st).
  intros st' Hc. induction Hc as [|a b c Hab IH Hbc]; [tauto|].
  intros Hok. apply (change_schemaOk b c Hbc). now apply IH.
Qed.

Lemma run_keeps_schema_witness :
  Forall gradeOk
    (grades (Run.run (E := sampleExternals) utc sampleRequests emptyStore)).
Proof.
  apply (run_keeps_schema sampleExternals utc sampleRequests emptyStore).
  apply emptyStore_ok.
Defined.

(** ** Attendance queries *)

Lemma startOfDay_idempotent (tz : Z) (t : Date) :
  startOfDay tz (startOfDay tz t) = startOfDay tz t.
Proof.
  unfold startOfDay.
  replace (t - (t + tz) mod msPerDay + tz)%Z
    with ((t + tz) - (t + tz) mod msPerDay)%Z by ring.
  rewrite Zminus_mod_idemp_r, Z.sub_diag, Z.mod_0_l by discriminate.
  apply Z.sub_0_r.
Qed.

(** A date lies between the start and the end of a day exactly when its
    own day starts at the same instant. *)
Lemma within_day (tz : Z) (d t : Date) :
  (startOfDay tz d <= t /\ t <= endOfDay tz (startOfDay tz d))%Z
  <-> startOfDay tz t = startOfDay tz d.
Proof.
  unfold endOfDay. rewrite startOfDay_idempotent. unfold startOfDay, msPerDay.
  pose proof (Z.mod_pos_bound (t + tz) 86400000 eq_refl) as Ht.
  pose proof (Z.mod_pos_bound (d + tz) 86400000 eq_refl) as Hd.
  pose proof (Z.div_mod (t + tz) 86400000) as Et.
  pose proof (Z.div_mod (d + tz) 86400000) as Ed.
  split; intros H; lia.
Qed.

Lemma day_query_filter (tz : Z) (d : Date) (c : list Attendance.t) :
  findMany
    (fun a => (startOfDay tz d <=? Attendance.date a)%Z
              && (Attendance.date a <=? endOfDay tz (startOfDay tz d))%Z) c
  = filter (fun a => (startOfDay tz (Attendance.date a) =? startOfDay tz d)%Z) c.
Proof.
  unfold findMany. apply filter_ext. intros a.
  apply Bool.eq_iff_eq_true. rewrite andb_true_iff, !Z.leb_le, Z.eqb_eq.
  apply within_day.
Qed.

(** X7.  The day listing of attendance returns, with the student each
    names, exactly the records whose date falls on the local day of the
    date asked for, whatever their time of day, in stored order; without a
    date it answers 400. *)
Theorem attendanceOfDay_lists_the_day (cfg : Config) (user : AuthUser)
  (st : Store) :
  (forall d,
     exists rows,
       Full.attendanceOfDay cfg user (Some d) st
       = (mkResponse 200 (AttendancesBody rows), st)
       /\ map fst rows
          = filter (fun a => (startOfDay (tzOffset cfg) (Attendance.date a)
                              =? startOfDay (tzOffset cfg) d)%Z)
              (attendances st)
       /\ forall a r, In (a, r) rows -> r = Full.populate st (Attendance.student_id a))
  /\ Full.attendanceOfDay cfg user None st
     = (mkResponse 400 (ErrorBody "Date parameter is required"), st).
Proof.
  split; [|reflexivity].
  intros d. eexists. split; [reflexivity|]. split.
  - rewrite map_map. cbn [fst]. rewrite map_id. apply day_query_filter.
  - intros a r Hin. apply in_map_iff in Hin.
    destruct Hin as [x [Hx _]]. now injection Hx as <- <-.
Qed.

Lemma in_updateFirst_const {A : Type} (p : A -> bool) (x y : A) (c : list A) :
  In y c -> p y = true -> In x (updateFirst p (fun _ => x) c).
Proof.
  induction c as [|d c IH]; simpl; [tauto|].
  intros [-> | Hin] Hp.
  - rewrite Hp. now left.
  - destruct (p d); [now left | right; auto].
Qed.

(** X8.  A mark with a valid status always leaves a record of that
    student with the status and remarks just sent, dated on the day of the
    date sent, whether it was inserted or found and updated; the day listing
    of any instant of that day then contains it. *)
Theorem markAttendance_then_listed (cfg : Config) (now : Date) (user : AuthUser)
  (sid : ObjectId) (d d' : Date) (status : string) (remarks : option string)
  (st : Store) :
  memString status Full.attendanceStatuses = true ->
  startOfDay (tzOffset cfg) d' = startOfDay (tzOffset cfg) d ->
  let st' :=
    snd (Full.markAttendance cfg now user (Some sid) (Some d) (Some status)
           remarks st) in
  exists a rows,
    In a (attendances st')
    /\ Attendance.student_id a = sid /\ Attendance.status a = status
    /\ Attendance.remarks a = remarks
    /\ Full.attendanceOfDay cfg user (Some d') st'
       = (mkResponse 200 (AttendancesBody rows), st')
    /\ In a (map fst rows).
Proof.
  intros Hs Hday. cbv zeta.
  set (st' := snd (Full.markAttendance cfg now user (Some sid) (Some d)
                     (Some status) remarks st)).
  assert (Ha : exists a,
             In a (attendances st')
             /\ Attendance.student_id a = sid /\ Attendance.status a = status
             /\ Attendance.remarks a = remarks
             /\ startOfDay (tzOffset cfg) (Attendance.date a)
                = startOfDay (tzOffset cfg) d).
  { subst st'.
    destruct (findOne (Full.sameStudentAndDay (Some sid)
                         (startOfDay (tzOffset cfg) d)) (attendances st))
      as [existing|] eqn:Hfind.
    - rewrite (markAttendance_updates cfg now user sid d status remarks st
                 existing Hfind Hs).
      cbn [snd attendances setAttendances].
      unfold findOne in Hfind. apply find_some in Hfind.
      destruct Hfind as [Hin Hp].
      unfold Full.sameStudentAndDay, Full.optIdEqb in Hp.
      apply andb_true_iff in Hp. destruct Hp as [Hsid Hd].
      apply Nat.eqb_eq in Hsid. apply Z.eqb_eq in Hd.
      exists (Attendance.mk (Attendance._id existing)
                (Attendance.student_id existing) (Attendance.date existing)
                status remarks (Attendance.created_at existing)).
      split; [|cbn; repeat split].
      + unfold saveExisting. eapply in_updateFirst_const; [exact Hin|].
        cbn. apply Nat.eqb_refl.
      + assumption.
      + rewrite Hd. apply startOfDay_idempotent.
    - rewrite (markAttendance_inserts cfg now user sid d status remarks st
                 Hfind Hs).
      cbn [snd attendances setAttendances].
      eexists. split; [apply in_or_app; right; now left|]. cbn. auto. }
  destruct Ha as [a [Hin [H1 [H2 [H3 Hd]]]]].
  eexists a, _. repeat split; try assumption.
  rewrite map_map. cbn [fst]. rewrite map_id, day_query_filter.
  apply filter_In. split; [assumption|].
  apply Z.eqb_eq. congruence.
Qed.

Lemma markAttendance_then_listed_witness :
  exists a rows,
    Attendance.status a = "late"
    /\ Full.attendanceOfDay utc teacher7 (Some jan15_1500)
         (snd (Full.markAttendance utc 9 teacher7 (Some 1) (Some jan15_1030)
                 (Some "late") None sampleStore))
       = (mkResponse 200 (AttendancesBody rows),
          snd (Full.markAttendance utc 9 teacher7 (Some 1) (Some jan15_1030)
                 (Some "late") None sampleStore))
    /\ In a (map fst rows).
Proof.
  destruct (markAttendance_then_listed utc 9%Z teacher7 1 jan15_1030 jan15_1500
              "late" None sampleStore eq_refl eq_refl)
    as [a [rows [_ [_ [Hs [_ [Heq Hin]]]]]]].
  exists a, rows. auto.
Defined.

(** X9.  The attendance history of a student holds exactly that student's
    records, latest date first; the date bounds apply only when both are
    given (a single bound is ignored), and then keep the records dated
    within them, bounds included. *)
Theorem attendanceOfStudent_history (user : AuthUser) (sid : ObjectId)
  (startDate endDate : option Date) (st : Store) :
  (exists rows,
     Full.attendanceOfStudent user sid startDate endDate st
     = (mkResponse 200 (AttendancesBody rows), st)
     /\ StronglySorted
          (fun a b => (Attendance.date b <= Attendance.date a)%Z)
          (map fst rows)
     /\ (forall a, In a (map fst rows)
                   <-> In a (attendances st) /\ Attendance.student_id a = sid
                       /\ (forall s e, startDate = Some s -> endDate = Some e ->
                             (s <= Attendance.date a <= e)%Z))
     /\ length rows <= length (attendances st))
  /\ (startDate = None \/ endDate = None ->
      Full.attendanceOfStudent user sid startDate endDate st
      = Full.attendanceOfStudent user sid None None st).
Proof.
  split.
  - eexists. split; [reflexivity|].
    rewrite map_map. cbn [fst]. rewrite map_id.
    split; [apply (newestFirst_sorted Attendance.date)|]. split.
    + intros a. rewrite in_sortDesc. unfold findMany. rewrite filter_In.
      rewrite andb_true_iff, Nat.eqb_eq.
      destruct startDate as [s|], endDate as [e|];
        try (split; intros [H1 [H2 _]]; repeat split; auto; intros;
             discriminate).
      rewrite andb_true_iff, !Z.leb_le. split.
      * intros [H1 [H2 H3]]. split; [assumption|]. split; [assumption|].
        intros s' e' [= <-] [= <-]. exact H3.
      * intros [H1 [H2 H3]]. specialize (H3 s e eq_refl eq_refl). tauto.
    + rewrite length_map, sortDesc_length. unfold findMany.
      apply filter_length_le.
  - intros [-> | ->]; [reflexivity|]. destruct startDate; reflexivity.
Qed.

Lemma attendanceOfDay_lists_the_day_witness :
  exists rows,
    Full.attendanceOfDay utc teacher7 (Some 3600000%Z) sampleStore
    = (mkResponse 200 (AttendancesBody rows), sampleStore)
    /\ map fst rows = [Attendance.mk 5 1 0 "present" None 0].
Proof.
  destruct (attendanceOfDay_lists_the_day utc teacher7 sampleStore) as [H _].
  destruct (H 3600000%Z) as [rows [Heq [Hrows _]]].
  exists rows. split; [exact Heq|]. rewrite Hrows. reflexivity.
Defined.

Lemma attendanceOfStudent_history_witness :
  Full.attendanceOfStudent teacher7 1 (Some 100%Z) None sampleStore
  = Full.attendanceOfStudent teacher7 1 None None sampleStore.
Proof.
  apply (attendanceOfStudent_history teacher7 1 (Some 100%Z) None sampleStore).
  now right.
Defined.

(** ** Grouped counts *)

Lemma getKey_countInto (k k' : string) (groups : list (string * nat)) :
  getKey k' (countInto k groups)
  = if (k =? k')%string then Some (S (countOf k groups)) else getKey k' groups.
Proof.
  unfold countOf. induction groups as [|[x n] groups IH]; simpl.
  - rewrite String.eqb_sym. reflexivity.
  - destruct (x =? k)%string eqn:Hxk; simpl.
    + apply String.eqb_eq in Hxk. subst x.
      destruct (k =? k')%string; reflexivity.
    + rewrite IH. destruct (k =? k')%string eqn:Hkk'; [|reflexivity].
      apply String.eqb_eq in Hkk'. subst k'. now rewrite Hxk.
Qed.

Lemma getKey_fold_countInto (keys : list string) (groups : list (string * nat))
  (k : string) :
  getKey k (fold_left (fun g x => countInto x g) keys groups)
  = match count_occ string_dec keys k with
    | 0 => getKey k groups
    | S n => Some (S n + countOf k groups)
    end.
Proof.
  revert groups. induction keys as [|x keys IH]; intros groups; simpl;
    [reflexivity|].
  rewrite IH. unfold countOf at 1. rewrite !getKey_countInto.
  destruct (string_dec x k) as [->|Hne].
  - rewrite String.eqb_refl.
    destruct (count_occ string_dec keys k); f_equal; lia.
  - destruct (String.eqb_spec x k); [contradiction|]. reflexivity.
Qed.

Lemma getKey_groupCount (keys : list string) (k : string) :
  getKey k (groupCount keys)
  = match count_occ string_dec keys k with
    | 0 => None
    | S n => Some (S n)
    end.
Proof.
  unfold groupCount. rewrite getKey_fold_countInto.
  destruct (count_occ string_dec keys k); [reflexivity|].
  unfold countOf. simpl. f_equal. lia.
Qed.

Lemma map_fst_countInto (k : string) (groups : list (string * nat)) :
  map fst (countInto k groups)
  = match getKey k groups with
    | Some _ => map fst groups
    | None => map fst groups ++ [k]
    end.
Proof.
  induction groups as [|[x n] groups IH]; simpl; [reflexivity|].
  destruct (String.eqb_spec x k); simpl; [reflexivity|].
  rewrite IH. now destruct (getKey k groups).
Qed.

Lemma getKey_in (k : string) (obj : list (string * nat)) :
  In k (map fst obj) <-> getKey k obj <> None.
Proof.
  induction obj as [|[x n] obj IH]; simpl; [tauto|].
  destruct (String.eqb_spec x k); [intuition discriminate|].
  rewrite <- IH. intuition.
Qed.

Lemma groupCount_keys_distinct (keys : list string) :
  NoDup (map fst (groupCount keys)).
Proof.
  unfold groupCount.
  assert (H : forall groups, NoDup (map fst groups) ->
              NoDup (map fst (fold_left (fun g x => countInto x g) keys groups))).
  { induction keys as [|x keys IH]; intros groups ND; simpl; [assumption|].
    apply IH. rewrite map_fst_countInto.
    destruct (getKey x groups) eqn:Hx; [assumption|].
    apply NoDup_app; [assumption | repeat constructor; simpl; tauto |].
    intros y Hy [<- | []]. apply getKey_in in Hy. congruence. }
  apply H. constructor.
Qed.

Lemma getKey_setKey (k k' : string) (v : nat) (obj : list (string * nat)) :
  getKey k' (setKey k v obj)
  = if (k =? k')%string then Some v else getKey k' obj.
Proof.
  induction obj as [|[x n] obj IH]; simpl.
  - rewrite String.eqb_sym. reflexivity.
  - destruct (x =? k)%string eqn:Hxk; simpl.
    + apply String.eqb_eq in Hxk. subst x.
      destruct (k =? k')%string; reflexivity.
    + rewrite IH. destruct (k =? k')%string eqn:Hkk'; [|reflexivity].
      apply String.eqb_eq in Hkk'. subst k'. now rewrite Hxk.
Qed.

Lemma getKey_fold_setKey (stats obj : list (string * nat)) (k : string) :
  NoDup (map fst stats) ->
  getKey k (fold_left (fun o stat => setKey (fst stat) (snd stat) o) stats obj)
  = match getKey k stats with
    | Some v => Some v
    | None => getKey k obj
    end.
Proof.
  revert obj. induction stats as [|[x n] stats IH]; intros obj ND; simpl;
    [reflexivity|].
  simpl in ND. inversion ND as [|? ? Hnotin ND']; subst.
  rewrite (IH _ ND'). rewrite getKey_setKey. cbn [fst snd].
  destruct (String.eqb_spec x k) as [->|Hne]; [|reflexivity].
  destruct (getKey k stats) eqn:Hk; [|reflexivity].
  exfalso. apply Hnotin. apply getKey_in. congruence.
Qed.

Lemma count_occ_map_filter {A : Type} (key : A -> string) (l : list A)
  (k : string) :
  count_occ string_dec (map key l) k
  = length (filter (fun a => (key a =? k)%string) l).
Proof.
  induction l as [|a l IH]; simpl; [reflexivity|].
  destruct (string_dec (key a) k) as [->|Hne].
  - rewrite String.eqb_refl. simpl. now rewrite IH.
  - destruct (String.eqb_spec (key a) k); [contradiction | assumption].
Qed.

Lemma filter_filter {A : Type} (f g : A -> bool) (l : list A) :
  filter g (filter f l) = filter (fun x => f x && g x) l.
Proof.
  induction l as [|a l IH]; [reflexivity|].
  cbn [filter]. destruct (f a); cbn [andb filter]; [|exact IH].
  destruct (g a); now rewrite IH.
Qed.

Lemma status_counts_sum (l : list Attendance.t) :
  Forall attendanceOk l ->
  length (filter (fun a => (Attendance.status a =? "present")%string) l)
  + length (filter (fun a => (Attendance.status a =? "absent")%string) l)
  + length (filter (fun a => (Attendance.status a =? "late")%string) l)
  + length (filter (fun a => (Attendance.status a =? "excused")%string) l)
  = length l.
Proof.
  intros Hok. induction Hok as [|a l Ha Hl IH]; [reflexivity|].
  unfold attendanceOk, Full.attendanceStatuses, memString in Ha.
  cbn [existsb] in Ha. cbn [filter].
  destruct (String.eqb_spec "present" (Attendance.status a)) as [E|];
    [rewrite <- E; cbn; lia|].
  destruct (String.eqb_spec "absent" (Attendance.status a)) as [E|];
    [rewrite <- E; cbn; lia|].
  destruct (String.eqb_spec "late" (Attendance.status a)) as [E|];
    [rewrite <- E; cbn; lia|].
  destruct (String.eqb_spec "excused" (Attendance.status a)) as [E|];
    [rewrite <- E; cbn; lia | discriminate].
Qed.

(** X10.  The attendance statistics report, for each of the four
    statuses, the number of records with that status dated within the
    period, bounds included (zero when there is none); a status outside the
    four appears only if some record of the period has it.  The period runs
    between the two dates asked for when both are given; when either is
    missing it runs between the two instants the handler builds as
    [new Date(year, month, 1)] and [new Date(year, month + 1, 0)], whatever
    the other bound sent.  When every record of the period has one of the
    four statuses, as the schema demands, the four counts add up to the
    number of records of the period. *)
Theorem attendanceStats_counts (getFullYear getMonth : Date -> Z)
  (newDate : Z -> Z -> Z -> Date)
  (now : Date) (user : AuthUser) (startDate endDate : option Date) (st : Store) :
  let dated (lo hi : Date) (a : Attendance.t) : bool :=
    (lo <=? Attendance.date a)%Z && (Attendance.date a <=? hi)%Z in
  let counted (lo hi : Date) (k : string) : nat :=
    length (filter (fun a => dated lo hi a && (Attendance.status a =? k)%string)
              (attendances st)) in
  exists stats lo hi,
    Queries.attendanceStats getFullYear getMonth newDate now user startDate
      endDate st = Json 200 stats
    /\ (forall s e, startDate = Some s -> endDate = Some e -> lo = s /\ hi = e)
    /\ (startDate = None \/ endDate = None ->
        lo = newDate (getFullYear now) (getMonth now) 1%Z
        /\ hi = newDate (getFullYear now) (getMonth now + 1)%Z 0%Z)
    /\ (forall k, In k Full.attendanceStatuses ->
          getKey k stats = Some (counted lo hi k))
    /\ (forall k, ~ In k Full.attendanceStatuses ->
          getKey k stats
          = if Nat.eqb (counted lo hi k) 0 then None
            else Some (counted lo hi k))
    /\ ((forall a, In a (attendances st) -> dated lo hi a = true ->
           attendanceOk a) ->
        counted lo hi "present" + counted lo hi "absent"
        + counted lo hi "late" + counted lo hi "excused"
        = length (filter (dated lo hi) (attendances st))).
Proof.
  cbv zeta.
  set (lo := match startDate, endDate with
             | Some s, Some _ => s
             | _, _ => newDate (getFullYear now) (getMonth now) 1%Z
             end).
  set (hi := match startDate, endDate with
             | Some _, Some e => e
             | _, _ => newDate (getFullYear now) (getMonth now + 1)%Z 0%Z
             end).
  set (dated := fun a : Attendance.t =>
                  (lo <=? Attendance.date a)%Z && (Attendance.date a <=? hi)%Z).
  assert (Hperiod : filter (Queries.statsFilter getFullYear getMonth newDate
                              now startDate endDate) (attendances st)
                    = filter dated (attendances st)).
  { apply filter_ext. intros a. unfold Queries.statsFilter, dated, lo, hi.
    destruct startDate, endDate; reflexivity. }
  assert (Hcount : forall k,
             length (filter (fun a => (Attendance.status a =? k)%string)
                       (filter dated (attendances st)))
             = length (filter (fun a => dated a
                                        && (Attendance.status a =? k)%string)
                         (attendances st)))
    by (intros k; now rewrite filter_filter).
  exists (fold_left (fun o stat => setKey (fst stat) (snd stat) o)
            (groupCount (map Attendance.status (filter dated (attendances st))))
            Queries.emptyStats), lo, hi.
  assert (Hget : forall k,
             getKey k
               (fold_left
                  (fun o stat => setKey (fst stat) (snd stat) o)
                  (groupCount (map Attendance.status
                                 (filter dated (attendances st))))
                  Queries.emptyStats)
             = match length (filter (fun a => dated a
                                        && (Attendance.status a =? k)%string)
                               (attendances st)) with
               | 0 => getKey k Queries.emptyStats
               | S n => Some (S n)
               end).
  { intros k. rewrite getKey_fold_setKey by apply groupCount_keys_distinct.
    rewrite getKey_groupCount, count_occ_map_filter, Hcount.
    now destruct (length _). }
  repeat match goal with |- _ /\ _ => split end.
  - unfold Queries.attendanceStats. now rewrite Hperiod.
  - intros s e -> ->. split; reflexivity.
  - intros [-> | ->]; unfold lo, hi; [|destruct startDate]; split; reflexivity.
  - intros k Hk. rewrite Hget. fold dated.
    destruct (length _) eqn:Hl; [|reflexivity].
    simpl in Hk. destruct Hk as [<- | [<- | [<- | [<- | []]]]]; reflexivity.
  - intros k Hk. rewrite Hget. fold dated.
    destruct (length _) eqn:Hl; [|reflexivity]. cbn [Nat.eqb].
    unfold Queries.emptyStats, getKey.
    repeat match goal with
           | |- context [String.eqb ?a k] =>
               destruct (String.eqb_spec a k);
               [exfalso; apply Hk; subst; simpl; tauto|]
           end.
    reflexivity.
  - intros Hok. fold dated. rewrite <- !Hcount. apply status_counts_sum.
    apply Forall_forall. intros a Ha. apply filter_In in Ha.
    now apply Hok.
Qed.

Lemma attendanceStats_counts_witness :
  exists stats,
    Queries.attendanceStats (fun _ => 1970%Z) (fun _ => 0%Z)
      (fun _ _ _ => 0%Z) 0 teacher7
      (Some 0%Z) (Some 10%Z) sampleStore = Json 200 stats
    /\ getKey "present" stats = Some 1
    /\ getKey "late" stats = Some 0.
Proof.
  destruct (attendanceStats_counts (fun _ => 1970%Z) (fun _ => 0%Z)
              (fun _ _ _ => 0%Z) 0%Z teacher7
              (Some 0%Z) (Some 10%Z) sampleStore)
    as [stats [lo [hi [Heq [Hgiven [_ [Hin _]]]]]]].
  destruct (Hgiven 0%Z 10%Z eq_refl eq_refl) as [-> ->].
  exists stats. split; [exact Heq|]. split.
  - rewrite (Hin "present") by (simpl; tauto). reflexivity.
  - rewrite (Hin "late") by (simpl; tauto). reflexivity.
Defined.

(** ** The order of strings *)

Lemma ascii_compare_N (a b : ascii) :
  Ascii.compare a b = N.compare (N_of_ascii a) (N_of_ascii b).
Proof. reflexivity. Qed.

Lemma string_leb_trans (a b c : string) :
  String.leb a b = true -> String.leb b c = true -> String.leb a c = true.
Proof.
  unfold String.leb. revert b c.
  induction a as [|x a IH]; intros [|y b] [|z c]; simpl;
    try (intros; congruence); try (intros; reflexivity).
  rewrite !ascii_compare_N.
  destruct (N.compare_spec (N_of_ascii x) (N_of_ascii y)) as [Hxy|Hxy|Hxy];
    destruct (N.compare_spec (N_of_ascii y) (N_of_ascii z)) as [Hyz|Hyz|Hyz];
    destruct (N.compare_spec (N_of_ascii x) (N_of_ascii z)) as [Hxz|Hxz|Hxz];
    try (intros; congruence); try (intros; reflexivity);
    try (intros; exfalso; lia).
  apply IH.
Qed.

Lemma sorted_by_leb (l : list (string * nat)) :
  StronglySorted (fun a b => String.leb (fst a) (fst b) = true)
    (sortDesc (fun a b => String.leb (fst a) (fst b)) l).
Proof.
  apply sortDesc_sorted.
  - intros a b. apply String.leb_total.
  - intros a b c. apply string_leb_trans.
Qed.

Lemma getKey_Some_in (k : string) (v : nat) (obj : list (string * nat)) :
  NoDup (map fst obj) -> (getKey k obj = Some v <-> In (k, v) obj).
Proof.
  induction obj as [|[x n] obj IH]; simpl; intros ND.
  - split; [discriminate | tauto].
  - inversion ND as [|? ? Hnotin ND']; subst.
    destruct (String.eqb_spec x k) as [->|Hne].
    + split.
      * intros [= ->]. now left.
      * intros [[= ->] | Hin]; [reflexivity|].
        exfalso. apply Hnotin. change k with (fst (k, v)). now apply in_map.
    + rewrite (IH ND'). split; [now right|].
      intros [[= -> _] | Hin]; [contradiction | assumption].
Qed.

Lemma getKey_perm (k : string) (l l' : list (string * nat)) :
  Permutation l l' -> NoDup (map fst l) -> getKey k l' = getKey k l.
Proof.
  intros Hp ND.
  assert (ND' : NoDup (map fst l'))
    by (eapply Permutation_NoDup; [apply Permutation_map; exact Hp | exact ND]).
  destruct (getKey k l) as [v|] eqn:Hk.
  - apply (getKey_Some_in k v l ND) in Hk.
    apply (getKey_Some_in k v l' ND').
    eapply Permutation_in; eassumption.
  - destruct (getKey k l') as [v|] eqn:Hk'; [|reflexivity].
    apply (getKey_Some_in k v l' ND') in Hk'.
    apply Permutation_sym in Hp.
    pose proof (Permutation_in _ Hp Hk') as Hin.
    apply (getKey_Some_in k v l ND) in Hin. congruence.
Qed.

Lemma sum_countInto (k : string) (groups : list (string * nat)) :
  list_sum (map snd (countInto k groups)) = S (list_sum (map snd groups)).
Proof.
  induction groups as [|[x n] groups IH]; simpl; [reflexivity|].
  destruct (x =? k)%string; simpl; [reflexivity|]. rewrite IH. lia.
Qed.

Lemma sum_groupCount (keys : list string) :
  list_sum (map snd (groupCount keys)) = length keys.
Proof.
  unfold groupCount.
  assert (H : forall groups,
              list_sum (map snd (fold_left (fun g x => countInto x g) keys groups))
              = length keys + list_sum (map snd groups)).
  { induction keys as [|x keys IH]; intros groups; simpl; [reflexivity|].
    rewrite IH, sum_countInto. lia. }
  rewrite H. simpl. lia.
Qed.

Lemma list_sum_perm (l l' : list nat) :
  Permutation l l' -> list_sum l = list_sum l'.
Proof.
  intros H. induction H; simpl; lia.
Qed.

Lemma groupCount_keys (keys : list string) (k : string) :
  In k (map fst (groupCount keys)) <-> In k keys.
Proof.
  rewrite getKey_in, getKey_groupCount, (count_occ_In string_dec).
  destruct (count_occ string_dec keys k); split; intros H;
    try congruence; try lia; try discriminate.
Qed.

(** X11.  The class distribution lists each class that has an active
    student once, in ascending order of the class name, with the number of
    active students of that class; classes without active students are
    absent, and the counts add up to the [active_students] of the
    dashboard. *)
Theorem classDistribution_counts (cfg : Config) (now : Date) (user : AuthUser)
  (st : Store) :
  let activeIn (c : string) :=
    length (filter (fun s => (Student.status s =? "active")%string
                             && (Student.class s =? c)%string) (students st)) in
  exists rows d,
    Queries.classDistribution user st = Json 200 rows
    /\ Full.dashboard cfg now user st = (mkResponse 200 (DashboardBody d), st)
    /\ NoDup (map fst rows)
    /\ StronglySorted (fun a b => String.leb (fst a) (fst b) = true) rows
    /\ (forall c, getKey c rows
                  = if Nat.eqb (activeIn c) 0 then None else Some (activeIn c))
    /\ list_sum (map snd rows) = active_students d
    /\ length rows <= total_classes d.
Proof.
  cbv zeta. eexists. eexists. split; [reflexivity|]. split; [reflexivity|].
  set (active := filter (fun s => (Student.status s =? "active")%string)
                   (students st)).
  set (groups := groupCount (map Student.class active)).
  assert (ND : NoDup (map fst groups)) by apply groupCount_keys_distinct.
  assert (Hperm : Permutation
                    (sortDesc (fun a b => String.leb (fst a) (fst b)) groups)
                    groups) by apply sortDesc_perm.
  repeat match goal with |- _ /\ _ => split end.
  - eapply Permutation_NoDup; [|exact ND].
    apply Permutation_map. now apply Permutation_sym.
  - apply sorted_by_leb.
  - intros c. rewrite (getKey_perm c groups _ (Permutation_sym Hperm) ND).
    unfold groups. rewrite getKey_groupCount, count_occ_map_filter.
    unfold active.
    replace (filter (fun a => (Student.class a =? c)%string)
               (filter (fun s => (Student.status s =? "active")%string)
                  (students st)))
      with (filter (fun s => (Student.status s =? "active")%string
                             && (Student.class s =? c)%string) (students st)).
    + now destruct (length _).
    + symmetry. apply filter_filter.
  - cbn [active_students]. unfold countDocuments.
    rewrite (list_sum_perm _ _ (Permutation_map snd Hperm)).
    unfold groups. rewrite sum_groupCount, length_map. reflexivity.
  - cbn [total_classes]. rewrite sortDesc_length.
    rewrite <- (length_map fst groups).
    apply NoDup_incl_length; [exact ND|].
    intros c Hc. unfold distinct. apply nodup_In.
    unfold groups in Hc. apply -> groupCount_keys in Hc.
    apply in_map_iff in Hc.
    destruct Hc as [s [<- Hs]]. apply in_map.
    unfold active in Hs. now apply filter_In in Hs.
Qed.

Lemma classDistribution_counts_witness :
  exists rows,
    Queries.classDistribution teacher7 sampleStore = Json 200 rows
    /\ getKey "JSS1" rows = Some 2.
Proof.
  destruct (classDistribution_counts utc 0%Z teacher7 sampleStore)
    as [rows [d [Heq [_ [_ [_ [Hget _]]]]]]].
  exists rows. split; [exact Heq|]. rewrite Hget. reflexivity.
Defined.

(** ** Top performers *)

Lemma sorted_app_le {A : Type} (R : A -> A -> Prop) (l1 l2 : list A) :
  StronglySorted R (l1 ++ l2) ->
  forall x y, In x l1 -> In y l2 -> R x y.
Proof.
  induction l1 as [|a l1 IH]; simpl; intros Hs x y Hx Hy; [contradiction|].
  inversion Hs as [|? ? Hs' Hall]; subst.
  destruct Hx as [<- | Hx].
  - rewrite Forall_forall in Hall. apply Hall. apply in_or_app. now right.
  - now apply IH.
Qed.








Section Performers.
Variable avg : list Number -> Number.







End Performers.


Lemma in_firstn {A : Type} (n : nat) (l : list A) (x : A) :
  In x (firstn n l) -> In x l.
Proof.
  intros H. rewrite <- (firstn_skipn n l). apply in_or_app. now left.
Qed.



(** ** Notifications *)

Lemma ownedBy_other (user other : AuthUser) (n : Notification.t) :
  id user <> id other -> Full.ownedBy user n = true ->
  Full.ownedBy other n = false /\ Full.ownedBy other (Full.markRead n) = false.
Proof.
  unfold Full.ownedBy. intros Hne Hu. apply Nat.eqb_eq in Hu.
  cbn [Full.markRead Notification.recipient]. rewrite Hu.
  split; now apply Nat.eqb_neq.
Qed.

Lemma notify_keeps_others (title message type category : string)
  (user other : AuthUser) (now : Date) (ok : Response) (st : Store) :
  id user <> id other ->
  findMany (Full.ownedBy other)
    (notifications (snd (Full.notify title message type category user now ok st)))
  = findMany (Full.ownedBy other) (notifications st).
Proof.
  intros Hne.
  destruct (notify_effect title message type category user now ok st)
    as [-> | [tt [msg [-> _]]]]; [reflexivity|].
  cbn [notifications setNotifications]. unfold findMany.
  apply filter_snoc_out. unfold Full.ownedBy. cbn [Notification.recipient].
  now apply Nat.eqb_neq.
Qed.

Section OthersNotifications.
Context {E : Externals}.
Variable cfg : Config.

(** A request leaves the notifications of everyone but its audience as
    they are. *)
Lemma step_keeps_others (req : Run.Request) (other : AuthUser) (st : Store) :
  audience req <> Some (id other) ->
  findMany (Full.ownedBy other) (notifications (Run.step cfg st req))
  = findMany (Full.ownedBy other) (notifications st).
Proof.
  intros Haud. unfold Run.step.
  destruct req
    as [now salt full_name email password rl
       | now user name rollNumber class age gender email phone address
           guardianName guardianPhone
       | user i updates | user i
       | now user student_id subject marks term academic_year remarks
       | now user student_id date status remarks
       | now user student_id amount payment_method term academic_year
           receipt_number status
       | user i | user | user i
       | now user title message type category recipient];
    cbn [Run.handle audience] in *;
    try (assert (Hne : id user <> id other) by congruence).
  - unfold register.
    destruct (findOne _ _); [reflexivity|].
    destruct password as [pw|]; [|reflexivity].
    destruct (validateUser _ _ _ _ _ _); reflexivity.
  - unfold Full.createStudent.
    destruct (findOne _ _); [reflexivity|].
    destruct (Full.validateStudent _ _ _ _ _ _ _ _ _ _ _ _); [reflexivity|].
    rewrite notify_keeps_others by assumption. reflexivity.
  - unfold Full.updateStudent.
    destruct (Full.validateStudentUpdates updates) as [e|[]]; [reflexivity|].
    destruct (findById _ _ _); [|reflexivity].
    destruct (Full.changesId _ _); [reflexivity|].
    destruct (Full.rollNumberTaken _ _ _); reflexivity.
  - unfold Full.deleteStudent, findByIdAndDelete, findOneAndDelete.
    destruct (findOne _ _); reflexivity.
  - unfold Full.createGrade.
    destruct (Full.validateGrade _ _ _ _ _ _ _ _ _); [reflexivity|].
    rewrite notify_keeps_others by assumption. reflexivity.
  - unfold Full.markAttendance.
    destruct date as [d|]; [|reflexivity].
    destruct (findOne _ _);
      destruct (Full.validateAttendance _ _ _ _ _ _); reflexivity.
  - unfold Full.createFee.
    destruct (Full.validateFee _ _ _ _ _ _ _ _ _); [reflexivity|].
    rewrite notify_keeps_others by assumption. reflexivity.
  - unfold Full.markNotificationRead, findOneAndUpdate.
    destruct (findOne _ _); [|reflexivity].
    cbn [snd notifications setNotifications]. unfold findMany.
    apply filter_updateFirst_out. intros x Hx.
    unfold Full.ownedWithId in Hx. apply andb_true_iff in Hx.
    now apply (ownedBy_other user).
  - unfold Full.markAllRead.
    cbn [snd notifications setNotifications]. unfold findMany.
    apply filter_updateMany_out. intros x Hx.
    apply andb_true_iff in Hx. now apply (ownedBy_other user).
  - unfold Full.deleteNotification, findOneAndDelete.
    destruct (findOne _ _); [|reflexivity].
    cbn [snd notifications setNotifications]. unfold findMany.
    apply filter_removeFirst_out. intros x Hx.
    unfold Full.ownedWithId in Hx. apply andb_true_iff in Hx.
    now apply (ownedBy_other user).
  - unfold Full.createNotification.
    destruct (Full.newNotification _ _ _ _ _ _ _) as [e|n] eqn:Hv;
      [reflexivity|].
    apply newNotification_inr in Hv.
    destruct Hv as [tt [msg [rc [Hrc [_ [_ ->]]]]]]. injection Hrc as <-.
    cbn [snd notifications setNotifications]. unfold findMany.
    apply filter_snoc_out. unfold Full.ownedBy.
    cbn [Notification.recipient]. apply Nat.eqb_neq. congruence.
Qed.

Lemma run_keeps_others (reqs : list Run.Request) (other : AuthUser)
  (st : Store) :
  Forall (fun req => audience req <> Some (id other)) reqs ->
  findMany (Full.ownedBy other) (notifications (Run.run cfg reqs st))
  = findMany (Full.ownedBy other) (notifications st).
Proof.
  unfold Run.run. intros Hall. revert st.
  induction Hall as [|req reqs Hreq _ IH]; intros st; simpl; [reflexivity|].
  rewrite IH. now apply step_keeps_others.
Qed.

End OthersNotifications.

(** X13.  Whatever requests are handled, a user whom none of them has as
    audience (the acting user, or for [POST /api/notifications] the
    recipient named in the body) is answered the same list of notifications
    and the same unread count afterwards as before. *)
Theorem others_notifications_untouched {E : Externals} (cfg : Config)
  (reqs : list Run.Request) (other : AuthUser) (st : Store) :
  Forall (fun req => audience req <> Some (id other)) reqs ->
  (forall limitParam,
     fst (Full.listNotifications other limitParam (Run.run cfg reqs st))
     = fst (Full.listNotifications other limitParam st))
  /\ fst (Full.unreadCount other (Run.run cfg reqs st))
     = fst (Full.unreadCount other st).
Proof.
  intros Hall.
  pose proof (run_keeps_others cfg reqs other st Hall) as Hsame.
  unfold findMany in Hsame. split.
  - intros limitParam. unfold Full.listNotifications. cbn [fst].
    unfold findMany. now rewrite Hsame.
  - unfold Full.unreadCount, countDocuments. cbn [fst].
    rewrite <- !(filter_filter (Full.ownedBy other)
                   (fun n => negb (Notification.read n))).
    now rewrite Hsame.
Qed.

Lemma others_notifications_untouched_witness :
  fst (Full.listNotifications teacher8 None
         (Run.run (E := sampleExternals) utc sampleRequests storeWithNotes))
  = fst (Full.listNotifications teacher8 None storeWithNotes).
Proof.
  apply (others_notifications_untouched (E := sampleExternals) utc
           sampleRequests teacher8 storeWithNotes).
  unfold sampleRequests. repeat constructor; discriminate.
Defined.

Lemma markRead_read (n : Notification.t) :
  Notification.read n = true -> Full.markRead n = n.
Proof.
  destruct n as [i t m ty c r rd cr]. simpl. intros ->. reflexivity.
Qed.

Lemma own_after_markAllRead (user : AuthUser) (l : list Notification.t) :
  filter (Full.ownedBy user)
    (updateMany (fun n => Full.ownedBy user n && negb (Notification.read n))
       Full.markRead l)
  = map Full.markRead (filter (Full.ownedBy user) l).
Proof.
  unfold updateMany. induction l as [|n l IH]; simpl; [reflexivity|].
  destruct (Full.ownedBy user n) eqn:Ho; simpl.
  - destruct (Notification.read n) eqn:Hr; simpl.
    + rewrite Ho. simpl. rewrite IH. now rewrite (markRead_read n Hr).
    + replace (Full.ownedBy user (Full.markRead n)) with true
        by (symmetry; exact Ho).
      simpl. now rewrite IH.
  - rewrite Ho. exact IH.
Qed.

Lemma insertDesc_map {A : Type} (geb : A -> A -> bool) (f : A -> A) (x : A)
  (l : list A) :
  (forall a b, geb (f a) (f b) = geb a b) ->
  insertDesc geb (f x) (map f l) = map f (insertDesc geb x l).
Proof.
  intros H. induction l as [|y l IH]; simpl; [reflexivity|].
  rewrite H. destruct (geb x y); simpl; [reflexivity | now rewrite IH].
Qed.

Lemma sortDesc_map {A : Type} (geb : A -> A -> bool) (f : A -> A) (l : list A) :
  (forall a b, geb (f a) (f b) = geb a b) ->
  sortDesc geb (map f l) = map f (sortDesc geb l).
Proof.
  intros H. induction l as [|x l IH]; simpl; [reflexivity|].
  rewrite IH. now apply insertDesc_map.
Qed.

Lemma limit_map {A : Type} (f : A -> A) (n : Z) (l : list A) :
  limit n (map f l) = map f (limit n l).
Proof.
  unfold limit. destruct (n =? 0)%Z; [reflexivity | apply firstn_map].
Qed.

(** X14.  After [PUT /api/notifications/mark-all-read] the caller's unread
    count is zero, and the caller is listed the same notifications as
    before, in the same order, each now read. *)
Theorem markAllRead_clears_unread (user : AuthUser) (st : Store) :
  let st' := snd (Full.markAllRead user st) in
  fst (Full.markAllRead user st)
  = mkResponse 200 (MessageBody "All notifications marked as read")
  /\ fst (Full.unreadCount user st') = mkResponse 200 (CountBody 0)
  /\ forall limitParam,
       exists before,
         fst (Full.listNotifications user limitParam st)
         = mkResponse 200 (NotificationsBody before)
         /\ fst (Full.listNotifications user limitParam st')
            = mkResponse 200 (NotificationsBody (map Full.markRead before))
         /\ Forall (fun n => Notification.read n = true)
              (map Full.markRead before).
Proof.
  cbv zeta. split; [reflexivity|]. split.
  - unfold Full.unreadCount, Full.markAllRead, countDocuments.
    cbn [fst snd notifications setNotifications].
    rewrite <- (filter_filter (Full.ownedBy user)
                  (fun n => negb (Notification.read n))).
    rewrite own_after_markAllRead.
    replace (filter _ (map Full.markRead _)) with (@nil Notification.t);
      [reflexivity|].
    symmetry. induction (filter (Full.ownedBy user) (notifications st))
      as [|n l IH]; simpl; [reflexivity | exact IH].
  - intros limitParam. eexists. split; [reflexivity|]. split.
    + unfold Full.listNotifications, Full.markAllRead, findMany.
      cbn [fst snd notifications setNotifications].
      rewrite own_after_markAllRead, sortDesc_map by reflexivity.
      now rewrite limit_map.
    + apply Forall_forall. intros n Hn. apply in_map_iff in Hn.
      destruct Hn as [m [<- _]]. reflexivity.
Qed.

Lemma markAllRead_clears_unread_witness :
  fst (Full.unreadCount teacher7 (snd (Full.markAllRead teacher7 storeWithNotes)))
  = mkResponse 200 (CountBody 0).
Proof.
  apply (markAllRead_clears_unread teacher7 storeWithNotes).
Defined.

Lemma owned_with_id (user : AuthUser) (n : Notification.t)
  (c : list Notification.t) :
  NoDup (map Notification._id c) -> In n c ->
  Notification.recipient n = id user ->
  forall x, In x c ->
    Full.ownedWithId user (Notification._id n) x
    = Nat.eqb (Notification._id x) (Notification._id n).
Proof.
  intros ND Hn Hown x Hx. unfold Full.ownedWithId, Full.ownedBy.
  destruct (Nat.eqb_spec (Notification._id x) (Notification._id n)) as [Heq|];
    [|reflexivity].
  rewrite (unique_by_id Notification._id c x n ND Hx Hn Heq), Hown.
  simpl. apply Nat.eqb_refl.
Qed.

Lemma updateFirst_ext {A : Type} (p q : A -> bool) (f : A -> A) (c : list A) :
  (forall x, In x c -> p x = q x) -> updateFirst p f c = updateFirst q f c.
Proof.
  induction c as [|d c IH]; simpl; intros H; [reflexivity|].
  rewrite (H d) by now left. destruct (q d); [reflexivity|].
  f_equal. apply IH. intros x Hx. apply H. now right.
Qed.

Lemma removeFirst_ext {A : Type} (p q : A -> bool) (c : list A) :
  (forall x, In x c -> p x = q x) -> removeFirst p c = removeFirst q c.
Proof.
  induction c as [|d c IH]; simpl; intros H; [reflexivity|].
  rewrite (H d) by now left. destruct (q d); [reflexivity|].
  f_equal. apply IH. intros x Hx. apply H. now right.
Qed.

Lemma find_ext {A : Type} (p q : A -> bool) (c : list A) :
  (forall x, In x c -> p x = q x) -> find p c = find q c.
Proof.
  induction c as [|d c IH]; simpl; intros H; [reflexivity|].
  rewrite (H d) by now left. destruct (q d); [reflexivity|].
  apply IH. intros x Hx. apply H. now right.
Qed.

Lemma find_by_id {A : Type} (idOf : A -> ObjectId) (c : list A) (x : A) :
  NoDup (map idOf c) -> In x c ->
  find (fun d => Nat.eqb (idOf d) (idOf x)) c = Some x.
Proof.
  intros ND Hx.
  destruct (find_exists (fun d => Nat.eqb (idOf d) (idOf x)) c x Hx
              (Nat.eqb_refl _)) as [y Hy].
  rewrite Hy. f_equal. apply find_some in Hy. destruct Hy as [Hin Heq].
  apply Nat.eqb_eq in Heq. exact (unique_by_id idOf c y x ND Hin Hx Heq).
Qed.

Lemma count_updateFirst {A : Type} (idOf : A -> ObjectId) (q : A -> bool)
  (f : A -> A) (c : list A) (x : A) :
  NoDup (map idOf c) -> In x c ->
  length (filter q (updateFirst (fun d => Nat.eqb (idOf d) (idOf x)) f c))
  + (if q x then 1 else 0)
  = length (filter q c) + (if q (f x) then 1 else 0).
Proof.
  induction c as [|d c IH]; simpl; intros ND Hx; [contradiction|].
  inversion ND as [|? ? Hnotin ND']; subst.
  destruct (Nat.eqb_spec (idOf d) (idOf x)) as [Heq|Hne].
  - assert (d = x).
    { destruct Hx as [Hx|Hx]; [exact Hx|].
      exfalso. apply Hnotin. rewrite Heq. now apply in_map. }
    subst d. simpl. destruct (q x), (q (f x)); simpl; lia.
  - destruct Hx as [Hx|Hx]; [congruence|].
    specialize (IH ND' Hx). simpl. destruct (q d); simpl; lia.
Qed.

(** X15.  [PUT /api/notifications/:id/read] on a notification of the
    caller answers 200 with that notification marked read; the stored
    notification is replaced by the marked one and every other one is kept;
    the caller's unread count goes down by one if it was unread and stays
    otherwise; repeating the request gives the same answer and store. *)
Theorem markNotificationRead_marks_one (user : AuthUser) (n : Notification.t)
  (st : Store) :
  NoDup (map Notification._id (notifications st)) ->
  In n (notifications st) ->
  Notification.recipient n = id user ->
  let st' := snd (Full.markNotificationRead user (Notification._id n) st) in
  fst (Full.markNotificationRead user (Notification._id n) st)
  = mkResponse 200 (NotificationBody (Full.markRead n))
  /\ (forall m, In m (notifications st')
                <-> m = Full.markRead n
                    \/ (In m (notifications st)
                        /\ Notification._id m <> Notification._id n))
  /\ (forall unread unread',
         fst (Full.unreadCount user st) = mkResponse 200 (CountBody unread) ->
         fst (Full.unreadCount user st') = mkResponse 200 (CountBody unread') ->
         unread = unread' + (if Notification.read n then 0 else 1))
  /\ Full.markNotificationRead user (Notification._id n) st'
     = (mkResponse 200 (NotificationBody (Full.markRead n)), st')
  /\ users st' = users st /\ students st' = students st
  /\ grades st' = grades st /\ attendances st' = attendances st
  /\ fees st' = fees st /\ nextId st' = nextId st.
Proof.
  intros ND Hin Hown. cbv zeta.
  pose proof (owned_with_id user n _ ND Hin Hown) as Hext.
  assert (Hfind : findOne (Full.ownedWithId user (Notification._id n))
                    (notifications st) = Some n).
  { unfold findOne. rewrite (find_ext _ _ _ Hext).
    now apply find_by_id. }
  assert (Hupd : updateFirst (Full.ownedWithId user (Notification._id n))
                   Full.markRead (notifications st)
                 = updateFirst
                     (fun d => Nat.eqb (Notification._id d) (Notification._id n))
                     Full.markRead (notifications st))
    by (now apply updateFirst_ext).
  unfold Full.markNotificationRead at 1 2 3 5 6 7 8 9 10 11, findOneAndUpdate.
  rewrite Hfind, Hupd. cbn [fst snd notifications setNotifications users
    students grades attendances fees nextId].
  split; [reflexivity|]. split.
  { intros m. now apply in_updateFirst_unique. }
  split.
  { intros unread unread' [= <-] [= <-]. unfold countDocuments.
    pose proof (count_updateFirst Notification._id
                  (fun x => Full.ownedBy user x && negb (Notification.read x))
                  Full.markRead (notifications st) n ND Hin) as Hc.
    assert (Ho : Full.ownedBy user n = true)
      by (unfold Full.ownedBy; rewrite Hown; apply Nat.eqb_refl).
    assert (Ho' : Full.ownedBy user (Full.markRead n) = true) by exact Ho.
    cbv beta in Hc. rewrite Ho, Ho' in Hc.
    cbn [Full.markRead Notification.read] in Hc.
    simpl in Hc. destruct (Notification.read n); simpl in *; lia. }
  split;
    [| repeat split; unfold Full.markNotificationRead, findOneAndUpdate;
       rewrite Hfind; reflexivity].
  set (c' := updateFirst
               (fun d => Nat.eqb (Notification._id d) (Notification._id n))
               Full.markRead (notifications st)).
  assert (Hids : map Notification._id c' = map Notification._id (notifications st)).
  { unfold c'. clear. induction (notifications st) as [|d c IH]; simpl;
      [reflexivity|].
    destruct (Nat.eqb _ _); simpl; [reflexivity | now rewrite IH]. }
  assert (ND' : NoDup (map Notification._id c')) by (now rewrite Hids).
  assert (Hin' : In (Full.markRead n) c').
  { unfold c'. apply (in_updateFirst_unique Notification._id _ _ _ n); auto. }
  pose proof (owned_with_id user (Full.markRead n) c' ND' Hin' Hown) as Hext'.
  cbn [Full.markRead Notification._id] in Hext'.
  unfold Full.markNotificationRead, findOneAndUpdate.
  cbn [notifications setNotifications nextId].
  unfold findOne. rewrite (find_ext _ _ _ Hext').
  pose proof (find_by_id Notification._id c' (Full.markRead n) ND' Hin') as Hf.
  cbn [Full.markRead Notification._id] in Hf. rewrite Hf.
  rewrite (updateFirst_ext _ _ _ _ Hext').
  f_equal. unfold setNotifications. cbn. f_equal.
  unfold c'. clear - ND Hin.
  induction (notifications st) as [|d c IH]; simpl; [reflexivity|].
  simpl in ND. inversion ND as [|? ? Hnotin ND']; subst.
  destruct (Nat.eqb_spec (Notification._id d) (Notification._id n)) as [Heq|Hne];
    simpl.
  - cbn [Full.markRead Notification._id]. rewrite Heq, Nat.eqb_refl.
    reflexivity.
  - destruct (Nat.eqb_spec (Notification._id d) (Notification._id n));
      [contradiction|].
    f_equal. apply IH; [assumption|].
    destruct Hin as [->|Hin]; [contradiction | assumption].
Qed.

Lemma markNotificationRead_marks_one_witness :
  fst (Full.markNotificationRead teacher7 0 storeWithNotes)
  = mkResponse 200 (NotificationBody (Full.markRead (noteFor 0 7))).
Proof.
  apply (markNotificationRead_marks_one teacher7 (noteFor 0 7) storeWithNotes).
  - simpl. repeat constructor; simpl; intuition discriminate.
  - simpl. now left.
  - reflexivity.
Defined.

Lemma removeFirst_length {A : Type} (p : A -> bool) (c : list A) (x : A) :
  find p c = Some x -> S (length (removeFirst p c)) = length c.
Proof.
  induction c as [|d c IH]; simpl; [discriminate|].
  destruct (p d); [reflexivity|]. intros H. simpl. f_equal. now apply IH.
Qed.

(** X16.  [DELETE /api/notifications/:id] on a notification of the caller
    answers 200 and removes that notification and no other; asking again
    for the same id, to delete it or to mark it read, answers 404 and
    changes nothing. *)
Theorem deleteNotification_removes_one (user : AuthUser) (n : Notification.t)
  (st : Store) :
  NoDup (map Notification._id (notifications st)) ->
  In n (notifications st) ->
  Notification.recipient n = id user ->
  let st' := snd (Full.deleteNotification user (Notification._id n) st) in
  fst (Full.deleteNotification user (Notification._id n) st)
  = mkResponse 200 (MessageBody "Notification deleted")
  /\ (forall m, In m (notifications st')
                <-> In m (notifications st)
                    /\ Notification._id m <> Notification._id n)
  /\ S (length (notifications st')) = length (notifications st)
  /\ Full.deleteNotification user (Notification._id n) st'
     = (mkResponse 404 (ErrorBody "Notification not found"), st')
  /\ Full.markNotificationRead user (Notification._id n) st'
     = (mkResponse 404 (ErrorBody "Notification not found"), st')
  /\ users st' = users st /\ students st' = students st
  /\ grades st' = grades st /\ attendances st' = attendances st
  /\ fees st' = fees st /\ nextId st' = nextId st.
Proof.
  intros ND Hin Hown. cbv zeta.
  pose proof (owned_with_id user n _ ND Hin Hown) as Hext.
  assert (Hfind : findOne (Full.ownedWithId user (Notification._id n))
                    (notifications st) = Some n).
  { unfold findOne. rewrite (find_ext _ _ _ Hext). now apply find_by_id. }
  assert (Hdel : Full.deleteNotification user (Notification._id n) st
                 = (mkResponse 200 (MessageBody "Notification deleted"),
                    setNotifications st
                      (removeFirst
                         (fun d => Nat.eqb (Notification._id d)
                                     (Notification._id n))
                         (notifications st))
                      (nextId st))).
  { unfold Full.deleteNotification, findOneAndDelete. rewrite Hfind.
    now rewrite (removeFirst_ext _ _ _ Hext). }
  rewrite Hdel. cbn [fst snd notifications setNotifications users students
    grades attendances fees nextId].
  assert (Hgone : findOne (Full.ownedWithId user (Notification._id n))
                    (removeFirst
                       (fun d => Nat.eqb (Notification._id d)
                                   (Notification._id n))
                       (notifications st)) = None).
  { unfold findOne. apply find_all_false. intros x Hx.
    apply (in_removeFirst_unique Notification._id _ _ x ND) in Hx.
    unfold Full.ownedWithId. destruct Hx as [_ Hx].
    apply Nat.eqb_neq in Hx. now rewrite Hx. }
  repeat match goal with |- _ /\ _ => split end; try reflexivity.
  - intros m. now apply in_removeFirst_unique.
  - apply (removeFirst_length _ _ n). now apply find_by_id.
  - unfold Full.deleteNotification, findOneAndDelete.
    cbn [notifications setNotifications]. now rewrite Hgone.
  - unfold Full.markNotificationRead, findOneAndUpdate.
    cbn [notifications setNotifications]. now rewrite Hgone.
Qed.

Lemma deleteNotification_removes_one_witness :
  fst (Full.deleteNotification teacher7 0 storeWithNotes)
  = mkResponse 200 (MessageBody "Notification deleted").
Proof.
  apply (deleteNotification_removes_one teacher7 (noteFor 0 7) storeWithNotes).
  - simpl. repeat constructor; simpl; intuition discriminate.
  - simpl. now left.
  - reflexivity.
Defined.

(** X17.  [GET /api/notifications] lists notifications of the caller from
    the newest to the oldest.  Without a limit (or with limit 0) all of them
    are listed; with a limit [k] the list has [min |k| n] rows out of the
    caller's [n], and no notification left out is newer than a listed
    one. *)
Theorem listNotifications_newest_first (user : AuthUser)
  (limitParam : option Z) (st : Store) :
  let own := findMany (Full.ownedBy user) (notifications st) in
  exists rows,
    Full.listNotifications user limitParam st
    = (mkResponse 200 (NotificationsBody rows), st)
    /\ StronglySorted
         (fun a b => (Notification.created_at b <= Notification.created_at a)%Z)
         rows
    /\ (limitParam = None \/ limitParam = Some 0%Z -> Permutation rows own)
    /\ (forall k, limitParam = Some k -> k <> 0%Z ->
          length rows = Nat.min (Z.abs_nat k) (length own))
    /\ (forall m r, In m own -> ~ In m rows -> In r rows ->
          (Notification.created_at m <= Notification.created_at r)%Z).
Proof.
  cbv zeta. eexists. split; [reflexivity|].
  set (own := findMany (Full.ownedBy user) (notifications st)).
  set (sorted := sortDesc
                   (fun a b => (Notification.created_at b
                                <=? Notification.created_at a)%Z) own).
  assert (Hsorted : StronglySorted
            (fun a b => (Notification.created_at b
                         <= Notification.created_at a)%Z) sorted)
    by apply (newestFirst_sorted Notification.created_at).
  assert (Hperm : Permutation sorted own) by apply sortDesc_perm.
  repeat match goal with |- _ /\ _ => split end.
  - unfold limit. destruct (_ =? 0)%Z; [assumption|]. now apply firstn_sorted.
  - intros [-> | ->]; exact Hperm.
  - intros k -> Hk. cbn [Full.withDefault]. unfold limit.
    destruct (Z.eqb_spec k 0); [contradiction|].
    rewrite length_firstn. fold sorted.
    now rewrite (Permutation_length Hperm).
  - intros m r Hm Hnot Hr. unfold limit in *.
    destruct (_ =? 0)%Z.
    + exfalso. apply Hnot. fold sorted.
      eapply Permutation_in; [apply Permutation_sym; exact Hperm | exact Hm].
    + fold sorted in Hnot, Hr.
      set (k := Z.abs_nat (Full.withDefault limitParam 0%Z)) in *.
      assert (Hm' : In m sorted)
        by (eapply Permutation_in;
            [apply Permutation_sym; exact Hperm | exact Hm]).
      rewrite <- (firstn_skipn k sorted) in Hm', Hsorted.
      apply in_app_or in Hm'. destruct Hm' as [Hm' | Hm']; [contradiction|].
      exact (sorted_app_le _ _ _ Hsorted r m Hr Hm').
Qed.

Lemma listNotifications_newest_first_witness :
  exists rows,
    Full.listNotifications teacher7 (Some (-1)%Z) storeWithNotes
    = (mkResponse 200 (NotificationsBody rows), storeWithNotes)
    /\ length rows = 1.
Proof.
  destruct (listNotifications_newest_first teacher7 (Some (-1)%Z)
              storeWithNotes) as [rows [Heq [_ [_ [Hlen _]]]]].
  exists rows. split; [exact Heq|].
  rewrite (Hlen (-1)%Z eq_refl) by discriminate. reflexivity.
Defined.

(** X18.  [POST /api/notifications] with a title and a message that are
    not blank, a type that is absent, empty or allowed and a category that
    is absent or allowed answers 201 with the trimmed texts, type [info] and
    category [system] where absent, addressed to the named recipient, else
    to the caller.  The recipient is then listed the new notification and
    has one more unread. *)
Theorem createNotification_reaches_recipient (now : Date) (user rcpt : AuthUser)
  (title message : string) (type category : option string)
  (recipient : option ObjectId) (st : Store) :
  trim title <> EmptyString -> trim message <> EmptyString ->
  memString (orDefault type "info") Full.notificationTypes = true ->
  memString (Full.withDefault category "system") Full.notificationCategories
  = true ->
  id rcpt = Full.withDefault recipient (id user) ->
  let n := Notification.mk (nextId st) (trim title) (trim message)
             (orDefault type "info")
             (Full.withDefault category "system") (id rcpt) false now in
  let st' := snd (Full.createNotification now user (Some title) (Some message)
                    type category recipient st) in
  Full.createNotification now user (Some title) (Some message) type category
    recipient st
  = (mkResponse 201 (NotificationBody n),
     setNotifications st (notifications st ++ [n]) (S (nextId st)))
  /\ (exists rows,
        fst (Full.listNotifications rcpt None st')
        = mkResponse 200 (NotificationsBody rows) /\ In n rows)
  /\ (forall unread,
        fst (Full.unreadCount rcpt st) = mkResponse 200 (CountBody unread) ->
        fst (Full.unreadCount rcpt st')
        = mkResponse 200 (CountBody (S unread))).
Proof.
  intros Ht Hm Hty Hcat Hr. cbv zeta.
  assert (Heq : Full.createNotification now user (Some title) (Some message)
                  type category recipient st
                = (mkResponse 201
                     (NotificationBody
                        (Notification.mk (nextId st) (trim title) (trim message)
                           (orDefault type "info")
                           (Full.withDefault category "system") (id rcpt)
                           false now)),
                   setNotifications st
                     (notifications st
                      ++ [Notification.mk (nextId st) (trim title)
                            (trim message) (orDefault type "info")
                            (Full.withDefault category "system") (id rcpt)
                            false now])
                     (S (nextId st)))).
  { unfold Full.createNotification, Full.newNotification. simpl option_map.
    rewrite (requiredString_present _ _ _ Ht).
    rewrite (requiredString_present _ _ _ Hm).
    unfold enumOf. cbn [bindResult Full.withDefault].
    rewrite Hty. cbn [bindResult]. rewrite Hcat. cbn [bindResult required].
    rewrite Hr. reflexivity. }
  rewrite Heq. cbn [fst snd]. split; [reflexivity|].
  assert (Hown : Full.ownedBy rcpt
                   (Notification.mk (nextId st) (trim title) (trim message)
                      (orDefault type "info")
                      (Full.withDefault category "system") (id rcpt) false now)
                 = true) by (unfold Full.ownedBy; apply Nat.eqb_refl).
  split.
  - eexists. split; [reflexivity|].
    cbn [Full.withDefault limit Z.eqb]. apply in_sortDesc.
    unfold findMany. apply filter_In. split; [|exact Hown].
    cbn [notifications setNotifications]. apply in_or_app. right. now left.
  - intros unread [= <-]. unfold Full.unreadCount, countDocuments.
    cbn [fst notifications setNotifications]. rewrite filter_app, length_app.
    cbn [filter]. rewrite Hown. simpl. f_equal. f_equal. lia.
Qed.

Lemma createNotification_reaches_recipient_witness :
  Full.createNotification 9 teacher7 (Some " Exam ") (Some "Friday") None None
    (Some 8) storeWithNotes
  = (mkResponse 201
       (NotificationBody
          (Notification.mk 2 "Exam" "Friday" "info" "system" 8 false 9)),
     setNotifications storeWithNotes
       (notifications storeWithNotes
        ++ [Notification.mk 2 "Exam" "Friday" "info" "system" 8 false 9]) 3).
Proof.
  apply (createNotification_reaches_recipient 9 teacher7 teacher8 " Exam "
           "Friday" None None (Some 8) storeWithNotes);
    try reflexivity; vm_compute; discriminate.
Defined.

(** ** Recent activities *)

Ltac divs := Z.div_mod_to_equations; lia.

(** X19.  [formatTimeAgo] reads ["Just now"] for a date less than a minute
    old, a date in the future included; from one minute on it counts whole
    minutes (1 to 59), from one hour on whole hours (1 to 23), from one day
    on whole days, each of the elapsed milliseconds rounded down. *)
Theorem formatTimeAgo_buckets (now date : Date) :
  let ms := (now - date)%Z in
  ((ms < 60000)%Z -> formatTimeAgo now date = "Just now")
  /\ ((60000 <= ms < 3600000)%Z ->
      formatTimeAgo now date = (showZ (ms / 60000) ++ "m ago")%string
      /\ (1 <= ms / 60000 <= 59)%Z)
  /\ ((3600000 <= ms < 86400000)%Z ->
      formatTimeAgo now date = (showZ (ms / 3600000) ++ "h ago")%string
      /\ (1 <= ms / 3600000 <= 23)%Z)
  /\ ((86400000 <= ms)%Z ->
      formatTimeAgo now date = (showZ (ms / 86400000) ++ "d ago")%string
      /\ (1 <= ms / 86400000)%Z).
Proof.
  unfold Date in *. cbv zeta. unfold formatTimeAgo.
  set (ms := (now - date)%Z).
  rewrite !Z.div_div by lia.
  change (1000 * 60)%Z with 60000%Z. change (1000 * 3600)%Z with 3600000%Z.
  change (1000 * 86400)%Z with 86400000%Z. clearbody ms.
  repeat match goal with |- _ /\ _ => split end; intros H.
  - destruct (Z.ltb_spec (ms / 1000) 60); [reflexivity | divs].
  - destruct (Z.ltb_spec (ms / 1000) 60); [divs|].
    destruct (Z.ltb_spec (ms / 1000) 3600); [|divs].
    split; [reflexivity | divs].
  - destruct (Z.ltb_spec (ms / 1000) 60); [divs|].
    destruct (Z.ltb_spec (ms / 1000) 3600); [divs|].
    destruct (Z.ltb_spec (ms / 1000) 86400); [|divs].
    split; [reflexivity | divs].
  - destruct (Z.ltb_spec (ms / 1000) 60); [divs|].
    destruct (Z.ltb_spec (ms / 1000) 3600); [divs|].
    destruct (Z.ltb_spec (ms / 1000) 86400); [divs|].
    split; [reflexivity | divs].
Qed.

Lemma formatTimeAgo_buckets_witness :
  formatTimeAgo 7200999 0 = "2h ago".
Proof.
  pose proof (formatTimeAgo_buckets 7200999%Z 0%Z) as H. cbv zeta in H.
  destruct H as [_ [_ [H _]]].
  destruct H as [H _]; [simpl; lia|].
  rewrite H. reflexivity.
Defined.

Lemma firstn_1_nonempty {A : Type} (l : list A) :
  l <> [] -> exists x, firstn 1 l = [x].
Proof.
  destruct l as [|x l]; [congruence|]. intros _. now exists x.
Qed.

Lemma sortDesc_nonempty {A : Type} (geb : A -> A -> bool) (l : list A) :
  l <> [] -> sortDesc geb l <> [].
Proof.
  intros H Hnil. apply H. apply length_zero_iff_nil.
  now rewrite <- (sortDesc_length geb l), Hnil.
Qed.

(** X20.  [GET /api/activities/recent] answers 500 with the fixed message
    as soon as the store holds one attendance record or one grade.  With
    neither, and the student of every paid fee on record, it answers 200
    with at most three activities, the newest first, each about a student
    or a fee. *)
Theorem recentActivities_fails_on_records {E : Externals} (now : Date)
  (user : AuthUser) (st : Store) :
  (attendances st <> [] \/ grades st <> [] ->
   Queries.recentActivities now user st
   = Refused 500 "Failed to load recent activities")
  /\ (attendances st = [] -> grades st = [] ->
      (forall f, In f (fees st) -> Fee.status f = "paid" ->
         findById Student._id (Fee.student_id f) (students st) <> None) ->
      exists rows,
        Queries.recentActivities now user st = Json 200 rows
        /\ length rows <= 3
        /\ StronglySorted
             (fun a b => (activity_created_at b <= activity_created_at a)%Z)
             rows
        /\ Forall (fun a => activity_type a = "student"
                            \/ activity_type a = "fee") rows).
Proof.
  split.
  - intros Hsome. unfold Queries.recentActivities.
    destruct (attendances st) as [|a l] eqn:Ha.
    + destruct Hsome as [Hsome | Hsome]; [congruence|].
      destruct (firstn_1_nonempty _
                  (sortDesc_nonempty
                     (fun a b => (Grade.created_at b <=? Grade.created_at a)%Z)
                     _ Hsome)) as [g Hg].
      unfold Queries.newestFirst. now rewrite Hg.
    + destruct (firstn_1_nonempty
                  (sortDesc
                     (fun a b => (Attendance.date b <=? Attendance.date a)%Z)
                     (a :: l))) as [x Hx].
      { apply sortDesc_nonempty. discriminate. }
      now rewrite Hx.
  - intros Ha Hg Hfees. unfold Queries.recentActivities. rewrite Ha, Hg.
    unfold Queries.newestFirst. cbn [sortDesc fold_right firstn].
    fold (@Queries.newestFirst Student.t).
    set (students2 := map (Queries.studentActivity now)
                        (firstn 2 (Queries.newestFirst Student.created_at
                                     (students st)))).
    assert (Hlen2 : length students2 <= 2).
    { unfold students2. rewrite length_map. apply firstn_le_length. }
    assert (Htype2 : forall a, In a students2 -> activity_type a = "student").
    { intros a Hin. unfold students2 in Hin. apply in_map_iff in Hin.
      destruct Hin as [s [<- _]]. reflexivity. }
    set (paid := sortDesc (fun a b => (Fee.created_at b <=? Fee.created_at a)%Z)
                   (findMany (fun f => (Fee.status f =? "paid")%string)
                      (fees st))).
    assert (Hpaid : forall f, In f paid ->
                      Full.populate st (Fee.student_id f) <> None).
    { intros f Hin. unfold paid in Hin. apply in_sortDesc in Hin.
      unfold findMany in Hin. apply filter_In in Hin.
      destruct Hin as [Hin Hst]. apply String.eqb_eq in Hst.
      specialize (Hfees f Hin Hst). unfold Full.populate.
      destruct (findById _ _ _); [discriminate | contradiction]. }
    assert (Hrows : forall acts,
              length acts <= 3 ->
              (forall a, In a acts -> activity_type a = "student"
                                      \/ activity_type a = "fee") ->
              length (Queries.latestActivities acts) <= 3
              /\ StronglySorted
                   (fun a b => (activity_created_at b
                                <= activity_created_at a)%Z)
                   (Queries.latestActivities acts)
              /\ Forall (fun a => activity_type a = "student"
                                  \/ activity_type a = "fee")
                   (Queries.latestActivities acts)).
    { intros acts Hlen Hty. unfold Queries.latestActivities.
      repeat match goal with |- _ /\ _ => split end.
      - rewrite length_firstn. unfold Queries.newestFirst.
        rewrite sortDesc_length. lia.
      - apply firstn_sorted. apply newestFirst_sorted.
      - apply Forall_forall. intros a Hin. apply in_firstn in Hin.
        unfold Queries.newestFirst in Hin. apply in_sortDesc in Hin.
        now apply Hty. }
    destruct paid as [|fee rest] eqn:Hp; cbn [firstn].
    + eexists. split; [reflexivity|]. apply Hrows.
      * apply (Nat.le_trans _ 2); [exact Hlen2 | auto].
      * intros a Hin. left. now apply Htype2.
    + destruct (Full.populate st (Fee.student_id fee)) as [payer|] eqn:Hpop.
      * eexists. split; [reflexivity|]. apply Hrows.
        -- rewrite length_app. cbn [length].
           apply (Nat.le_trans _ (2 + 1)); [|auto].
           apply Nat.add_le_mono_r. exact Hlen2.
        -- intros a Hin. apply in_app_or in Hin.
           destruct Hin as [Hin | [<- | []]];
             [left; now apply Htype2 | right; reflexivity].
      * exfalso. apply (Hpaid fee); [now left | exact Hpop].
Qed.

Lemma recentActivities_fails_on_records_witness :
  Queries.recentActivities (E := sampleExternals) 0 teacher7 sampleStore
  = Refused 500 "Failed to load recent activities".
Proof.
  apply (recentActivities_fails_on_records (E := sampleExternals) 0%Z teacher7
           sampleStore).
  left. discriminate.
Defined.

(** ** The account routes *)

Lemma find_unique {A : Type} (p : A -> bool) (c : list A) (x : A) :
  In x c -> p x = true -> (forall y, In y c -> p y = true -> y = x) ->
  find p c = Some x.
Proof.
  intros Hin Hp Huniq.
  destruct (find_exists p c x Hin Hp) as [y Hy]. rewrite Hy. f_equal.
  apply find_some in Hy. destruct Hy as [Hy Hpy]. now apply Huniq.
Qed.

Lemma unique_by {A K : Type} (key : A -> K) (c : list A) (x y : A) :
  NoDup (map key c) -> In x c -> In y c -> key x = key y -> x = y.
Proof.
  induction c as [|d c IH]; simpl; intros ND Hx Hy Heq; [contradiction|].
  inversion ND as [|? ? Hnotin ND']; subst.
  destruct Hx as [-> | Hx], Hy as [-> | Hy]; auto.
  - exfalso. apply Hnotin. rewrite Heq. now apply in_map.
  - exfalso. apply Hnotin. rewrite <- Heq. now apply in_map.
Qed.

Lemma NoDup_key_update {A K : Type} (idOf : A -> ObjectId) (key : A -> K)
  (i : ObjectId) (f : A -> A) (c : list A) :
  NoDup (map idOf c) -> NoDup (map key c) ->
  (forall s d, In s c -> In d c -> idOf s <> i -> idOf d = i ->
     key s <> key (f d)) ->
  NoDup (map key (updateFirst (fun d => Nat.eqb (idOf d) i) f c)).
Proof.
  induction c as [|d c IH]; simpl; intros Hids Hkeys Hother; [constructor|].
  inversion Hids as [|? ? Hidnot Hids']; subst.
  inversion Hkeys as [|? ? Hkeynot Hkeys']; subst.
  destruct (Nat.eqb_spec (idOf d) i) as [Hd|Hd]; simpl.
  - constructor; [|assumption].
    intros Hin. apply in_map_iff in Hin. destruct Hin as [s [Hs Hin]].
    apply (Hother s d); auto.
    intros Heq. apply Hidnot. rewrite Hd, <- Heq. now apply in_map.
  - constructor.
    + intros Hin. apply in_map_iff in Hin. destruct Hin as [y [Hy Hin]].
      apply in_updateFirst in Hin.
      destruct Hin as [Hin | [x [Hx [Hxi ->]]]].
      * apply Hkeynot. rewrite <- Hy. now apply in_map.
      * apply Nat.eqb_eq in Hxi. apply (Hother d x); auto.
    + apply IH; auto.
Qed.

(** X21.  [PUT /api/users/change-password] for a stored caller: with a
    current password that does not compare to the stored hash it answers
    400 and changes nothing; with one that does, it answers 200, stores the
    hash of the new password (never the password itself) on the caller's
    record and on no other, and a login with the caller's email and the new
    password succeeds from then on. *)
Theorem changePassword_then_login (E : Externals) (cfg : Config)
  (salt : string) (user : AuthUser) (u : User.t) (current fresh : string)
  (st : Store) :
  ExternalsLaws E ->
  NoDup (map User._id (users st)) ->
  NoDup (map User.email (users st)) ->
  In u (users st) -> User._id u = id user ->
  bcryptHash fresh salt <> EmptyString ->
  let st' := snd (Account.changePassword salt user (Some current) (Some fresh)
                    st) in
  (bcryptCompare current (User.password u) = false ->
   Account.changePassword salt user (Some current) (Some fresh) st
   = (Refused 400 "Current password is incorrect", st))
  /\ (bcryptCompare current (User.password u) = true ->
      fst (Account.changePassword salt user (Some current) (Some fresh) st)
      = Json 200 "Password changed successfully"
      /\ (forall now,
            Account.login cfg now (Some (User.email u)) (Some fresh) st'
            = Json 200
                ("Login successful", tokenFor cfg u now, Account.profileOf u))
      /\ (forall x,
            In x (users st')
            <-> x = Account.withPassword (bcryptHash fresh salt) u
                \/ (In x (users st) /\ User._id x <> id user))
      /\ bcryptHash fresh salt <> fresh).
Proof.
  intros laws Hids Hemails Hin Hid Hhash. cbv zeta.
  assert (Hfind : findById User._id (id user) (users st) = Some u).
  { unfold findById, findOne. rewrite <- Hid. now apply find_by_id. }
  unfold Account.changePassword. rewrite Hfind. split.
  - intros ->. reflexivity.
  - intros ->. rewrite (requiredString_present _ _ _ Hhash).
    cbn [fst snd]. split; [reflexivity|].
    set (u' := Account.withPassword (bcryptHash fresh salt) u).
    assert (Hmem : forall x,
               In x (saveExisting User._id u' (users st))
               <-> x = u' \/ (In x (users st) /\ User._id x <> id user)).
    { intros x. unfold saveExisting. rewrite <- Hid.
      change (User._id u') with (User._id u).
      apply (in_updateFirst_unique User._id (User._id u) (fun _ => u')
               (users st) u x Hids Hin eq_refl). }
    split; [|split; [exact Hmem | apply (hash_not_plaintext E laws)]].
    intros now. unfold Account.login. cbn [users setUsers]. unfold findOne.
    rewrite (find_unique _ _ u').
    + cbn [Account.withPassword User.password u'].
      unfold u' at 1. cbn [Account.withPassword User.password].
      rewrite (compare_hash E laws). reflexivity.
    + apply Hmem. now left.
    + unfold byEmail. cbn. apply String.eqb_refl.
    + intros y Hy Hp. apply Hmem in Hy. destruct Hy as [Hy | [Hy Hne]];
        [exact Hy|].
      exfalso. apply Hne. rewrite <- Hid. f_equal.
      apply (unique_by User.email (users st) y u Hemails Hy Hin).
      unfold byEmail in Hp. cbn in Hp. now apply String.eqb_eq in Hp.
Qed.

Lemma changePassword_then_login_witness :
  fst (Account.changePassword (E := sampleExternals) "salt"
         (mkAuthUser 0 "teacher") (Some "pw") (Some "new") storeWithAda)
  = Json 200 "Password changed successfully".
Proof.
  apply (changePassword_then_login sampleExternals utc "salt"
           (mkAuthUser 0 "teacher") adaUser "pw" "new" storeWithAda);
    try reflexivity.
  - exact sampleExternals_laws.
  - simpl. repeat constructor; simpl; tauto.
  - simpl. repeat constructor; simpl; tauto.
  - simpl. now left.
  - discriminate.
Defined.

(** X22.  [PUT /api/users/profile] with a name and an email that are not
    empty, for a stored caller: if another user holds the email it answers
    400 and changes nothing; otherwise it answers 200 with the caller's new
    profile, replaces name and email on the caller's record only, keeps
    password, role and creation date, and emails stay unique. *)
Theorem updateProfile_keeps_emails_unique (user : AuthUser) (u : User.t)
  (full_name email : string) (st : Store) :
  NoDup (map User._id (users st)) ->
  NoDup (map User.email (users st)) ->
  In u (users st) -> User._id u = id user ->
  full_name <> EmptyString -> email <> EmptyString ->
  let r := Account.updateProfile user (Some full_name) (Some email) st in
  let u' := User.mk (id user) full_name email (User.password u) (User.role u)
              (User.created_at u) in
  ((exists other, In other (users st) /\ User.email other = email
                  /\ User._id other <> id user) ->
   r = (Refused 400 "Email already in use", st))
  /\ ((forall other, In other (users st) -> User._id other <> id user ->
         User.email other <> email) ->
      fst r = Json 200 ("Profile updated successfully", Account.profileOf u')
      /\ (forall x, In x (users (snd r))
                    <-> x = u' \/ (In x (users st) /\ User._id x <> id user))
      /\ NoDup (map User.email (users (snd r)))
      /\ NoDup (map User._id (users (snd r)))).
Proof.
  intros Hids Hemails Hin Hid Hfn Hem. cbv zeta.
  unfold Account.updateProfile. split.
  - intros [other [Ho [Heq Hne]]].
    destruct (find_exists (Account.emailOfAnother user (Some email))
                (users st) other Ho) as [y Hy].
    { unfold Account.emailOfAnother, byEmail. rewrite Heq. cbn [optStringEqb].
      rewrite String.eqb_refl. apply Nat.eqb_neq in Hne. now rewrite Hne. }
    unfold findOne. now rewrite Hy.
  - intros Hfree.
    assert (Hnone : findOne (Account.emailOfAnother user (Some email))
                      (users st) = None).
    { unfold findOne. apply find_all_false. intros x Hx.
      unfold Account.emailOfAnother, byEmail. cbn [optStringEqb].
      destruct (Nat.eqb_spec (User._id x) (id user)) as [Heq|Hne];
        [apply andb_false_r|].
      apply andb_false_iff. left. apply String.eqb_neq. now apply Hfree. }
    rewrite Hnone. unfold Full.updatedString.
    apply String.eqb_neq in Hfn, Hem. rewrite Hfn, Hem. cbn [bindResult].
    unfold findOneAndUpdate, findOne.
    rewrite <- Hid. rewrite (find_by_id User._id (users st) u Hids Hin).
    cbn [fst snd users setUsers].
    unfold Account.applyProfile at 1. cbn [Full.withDefault].
    split; [reflexivity|]. split; [|split].
    + intros x.
      rewrite (in_updateFirst_unique User._id (User._id u)
                 (Account.applyProfile (Some full_name) (Some email))
                 (users st) u x Hids Hin eq_refl).
      reflexivity.
    + apply NoDup_key_update; try assumption.
      intros s d Hs Hd Hne _. cbn. apply Hfree; [assumption|]. now rewrite <- Hid.
    + rewrite (map_updateFirst User._id); [assumption|]. reflexivity.
Qed.

Lemma updateProfile_keeps_emails_unique_witness :
  fst (Account.updateProfile (mkAuthUser 0 "teacher") (Some "Ada L")
         (Some "ada@new.org") storeWithAda)
  = Json 200
      ("Profile updated successfully",
       Account.Build_Profile 0 "Ada L" "ada@new.org" "teacher" 0).
Proof.
  apply (updateProfile_keeps_emails_unique (mkAuthUser 0 "teacher") adaUser
           "Ada L" "ada@new.org" storeWithAda);
    try reflexivity; try discriminate.
  - simpl. repeat constructor; simpl; tauto.
  - simpl. repeat constructor; simpl; tauto.
  - simpl. now left.
  - intros other [<- | []] Hne. exfalso. now apply Hne.
Defined.

(** ** Signing in *)

Lemma login_200 (E : Externals) (cfg : Config) (now : Date)
  (email password : option string) (st st' : Store) (r : Response) :
  login cfg now email password st = (r, st') -> code r = 200 ->
  exists u em pw,
    email = Some em /\ password = Some pw
    /\ In u (users st) /\ User.email u = em
    /\ bcryptCompare pw (User.password u) = true
    /\ r = mkResponse 200
             (AuthBody "Login successful" (tokenFor cfg u now) (userInfo u)).
Proof.
  intros H Hcode. unfold login in H.
  destruct (findOne (byEmail email) (users st)) as [u|] eqn:Hfind;
    [|injection H as <- _; discriminate].
  destruct password as [pw|]; [|injection H as <- _; discriminate].
  destruct (bcryptCompare pw (User.password u)) eqn:Hpw;
    [|injection H as <- _; discriminate].
  injection H as <- _.
  unfold findOne in Hfind. apply find_some in Hfind.
  destruct Hfind as [Hin Hby]. unfold byEmail in Hby.
  destruct email as [em|]; [|discriminate]. cbn in Hby.
  apply String.eqb_eq in Hby.
  exists u, em, pw. repeat match goal with |- _ /\ _ => split end; auto.
Qed.

(** X23.  [POST /login] never changes the store and answers 200, 400 or
    500.  It answers 200 only when a stored user has the email sent and the
    password sent compares to that user's stored hash; the token it issues
    then decodes to that user's id and role for seven days and to nothing
    after.  Every 400 carries the same message. *)
Theorem login_sound (E : Externals) (cfg : Config) (now : Date)
  (email password : option string) (st st' : Store) (r : Response) :
  ExternalsLaws E ->
  login cfg now email password st = (r, st') ->
  st' = st
  /\ (code r = 200 \/ code r = 400 \/ code r = 500)
  /\ (code r = 400 -> body r = ErrorBody "Invalid credentials")
  /\ (code r = 200 ->
      exists u em pw,
        email = Some em /\ password = Some pw
        /\ In u (users st) /\ User.email u = em
        /\ bcryptCompare pw (User.password u) = true
        /\ r = mkResponse 200
                 (AuthBody "Login successful" (tokenFor cfg u now) (userInfo u))
        /\ (forall t, (t < seconds now + sevenDays)%Z ->
              jwtVerify (tokenFor cfg u now) (JWT_SECRET cfg) t
              = Some (mkAuthUser (User._id u) (User.role u)))
        /\ (forall t, (seconds now + sevenDays <= t)%Z ->
              jwtVerify (tokenFor cfg u now) (JWT_SECRET cfg) t = None)).
Proof.
  intros laws H. unfold login in H.
  destruct (findOne (byEmail email) (users st)) as [u|] eqn:Hfind.
  2:{ injection H as <- <-. cbn. repeat split; auto; discriminate. }
  destruct password as [pw|].
  2:{ injection H as <- <-. cbn. repeat split; auto; discriminate. }
  destruct (bcryptCompare pw (User.password u)) eqn:Hpw.
  2:{ injection H as <- <-. cbn. repeat split; auto; discriminate. }
  injection H as <- <-. cbn [code body].
  split; [reflexivity|]. split; [now left|]. split; [discriminate|].
  intros _. unfold findOne in Hfind. apply find_some in Hfind.
  destruct Hfind as [Hin Hby]. unfold byEmail in Hby.
  destruct email as [em|]; [|discriminate]. cbn in Hby.
  apply String.eqb_eq in Hby.
  exists u, em, pw. repeat match goal with |- _ /\ _ => split end; auto.
  - intros t Ht. unfold tokenFor. now apply (verify_sign E laws).
  - intros t Ht. unfold tokenFor. now apply (verify_expired E laws).
Qed.

Lemma login_sound_witness :
  exists u,
    In u (users storeWithAda)
    /\ fst (login (E := sampleExternals) utc 0 (Some "ada@school.com")
              (Some "pw") storeWithAda)
       = mkResponse 200
           (AuthBody "Login successful"
              (tokenFor (E := sampleExternals) utc u 0) (userInfo u)).
Proof.
  destruct (login_sound sampleExternals utc 0%Z (Some "ada@school.com")
              (Some "pw") storeWithAda storeWithAda
              (fst (login (E := sampleExternals) utc 0 (Some "ada@school.com")
                      (Some "pw") storeWithAda))
              sampleExternals_laws eq_refl)
    as [_ [_ [_ H]]].
  destruct (H eq_refl) as [u [em [pw [_ [_ [Hin [_ [_ [Heq _]]]]]]]]].
  exists u. split; [exact Hin | exact Heq].
Defined.

(** X24.  [POST /register] with a name and an email that are not empty, an
    email no stored user has and a role that is absent, empty or one of the
    two roles answers 201 and appends the user: the stored password is the
    hash and differs from the password sent, and the role is the one asked
    for, [admin] included, [teacher] when none was. *)
Theorem register_grants_requested_role (E : Externals) (cfg : Config)
  (now : Date) (salt full_name email password : string) (role : option string)
  (st : Store) :
  ExternalsLaws E ->
  full_name <> EmptyString -> email <> EmptyString ->
  (forall u, In u (users st) -> User.email u <> email) ->
  bcryptHash password salt <> EmptyString ->
  memString (orDefault role "teacher") userRoles = true ->
  let u := User.mk (nextId st) full_name email (bcryptHash password salt)
             (orDefault role "teacher") now in
  register cfg now salt (Some full_name) (Some email) (Some password) role st
  = (mkResponse 201
       (AuthBody "User registered successfully" (tokenFor cfg u now)
          (userInfo u)),
     setUsers st (users st ++ [u]) (S (nextId st)))
  /\ User.password u <> password
  /\ (role = None \/ role = Some EmptyString -> User.role u = "teacher")
  /\ (forall r, role = Some r -> r <> EmptyString -> User.role u = r)
  /\ (forall t, (t < seconds now + sevenDays)%Z ->
        jwtVerify (tokenFor cfg u now) (JWT_SECRET cfg) t
        = Some (mkAuthUser (nextId st) (orDefault role "teacher"))).
Proof.
  intros laws Hfn Hem Hfree Hhash Hrole. cbv zeta.
  repeat match goal with |- _ /\ _ => split end.
  - unfold register.
    assert (Hnone : findOne (byEmail (Some email)) (users st) = None).
    { unfold findOne. apply find_all_false. intros x Hx. unfold byEmail.
      cbn [optStringEqb]. apply String.eqb_neq. now apply Hfree. }
    rewrite Hnone. unfold validateUser. cbn [requiredString].
    apply String.eqb_neq in Hfn, Hem, Hhash. rewrite Hfn, Hem, Hhash.
    cbn [bindResult]. unfold enumOf. rewrite Hrole. reflexivity.
  - cbn. apply (hash_not_plaintext E laws).
  - intros [-> | ->]; reflexivity.
  - intros r -> Hr. cbn. apply String.eqb_neq in Hr. now rewrite Hr.
  - intros t Ht. unfold tokenFor. cbn [User._id User.role].
    now apply (verify_sign E laws).
Qed.

Lemma register_grants_requested_role_witness :
  fst (register (E := sampleExternals) utc 0 "salt" (Some "Eve")
         (Some "eve@school.com") (Some "pw") (Some "admin") storeWithAda)
  = mkResponse 201
      (AuthBody "User registered successfully"
         (tokenFor (E := sampleExternals) utc
            (User.mk 1 "Eve" "eve@school.com" "$pw" "admin" 0) 0)
         (Build_UserInfo 1 "Eve" "eve@school.com" "admin")).
Proof.
  assert (Hfree : forall u, In u (users storeWithAda) ->
                    User.email u <> "eve@school.com")
    by (intros u [<- | []]; discriminate).
  exact (f_equal fst
           (proj1 (register_grants_requested_role sampleExternals utc 0%Z
                     "salt" "Eve" "eve@school.com" "pw" (Some "admin")
                     storeWithAda sampleExternals_laws
                     ltac:(discriminate) ltac:(discriminate) Hfree
                     ltac:(discriminate) eq_refl))).
Defined.

(** X25.  The token of a successful login, sent as [Bearer <token>], opens
    every guarded route of either server for seven days: the handler runs
    with the id and role the login reported.  From the seventh day on the
    same header gets 400.  Logging out revokes nothing: after the logout
    route has answered, the header still opens every guarded route. *)
Theorem login_token_opens_routes (E : Externals) (cfg : Config) (now : Date)
  (email password : option string) (st : Store) (msg token : string)
  (info : UserInfo) :
  ExternalsLaws E ->
  fst (login cfg now email password st)
  = mkResponse 200 (AuthBody msg token info) ->
  let header := Some ("Bearer " ++ token)%string in
  let user := mkAuthUser (info_id info) (info_role info) in
  forall r, In r fullRoutes \/ In r simplifiedRoutes -> isOpenRoute r = false ->
  forall (handler : option AuthUser -> Handler) (st2 : Store),
    (forall later, (seconds later < seconds now + sevenDays)%Z ->
       serve cfg r later header handler st2 = handler (Some user) st2)
    /\ (forall later, (seconds now + sevenDays <= seconds later)%Z ->
          serve cfg r later header handler st2
          = (mkResponse 400 (ErrorBody "Invalid token"), st2))
    /\ (forall later later',
          (seconds later < seconds now + sevenDays)%Z ->
          (seconds later' < seconds now + sevenDays)%Z ->
          serve cfg (mkRoute POST "/logout" true) later header
            (fun _ => logout user) st2
          = (mkResponse 200 (MessageBody "Logged out successfully"), st2)
          /\ serve cfg r later' header handler
               (snd (serve cfg (mkRoute POST "/logout" true) later header
                       (fun _ => logout user) st2))
             = handler (Some user) st2).
Proof.
  intros laws Hlogin. cbv zeta. intros r Hin Hopen handler st2.
  pose proof (login_200 E cfg now email password st
                (snd (login cfg now email password st))
                (fst (login cfg now email password st))
                (surjective_pairing _)) as H.
  rewrite Hlogin in H. destruct (H eq_refl)
    as [u [em [pw [_ [_ [_ [_ [_ Heq]]]]]]]].
  injection Heq as -> -> ->. cbn [info_id info_role userInfo].
  assert (Hok : forall t, (t < seconds now + sevenDays)%Z ->
                  jwtVerify (tokenFor cfg u now) (JWT_SECRET cfg) t
                  = Some (mkAuthUser (User._id u) (User.role u)))
    by (intros t Ht; unfold tokenFor; now apply (verify_sign E laws)).
  assert (Hexp : forall t, (seconds now + sevenDays <= t)%Z ->
                   jwtVerify (tokenFor cfg u now) (JWT_SECRET cfg) t = None)
    by (intros t Ht; unfold tokenFor; now apply (verify_expired E laws)).
  assert (Hne : (tokenFor cfg u now =? EmptyString)%string = false).
  { apply String.eqb_neq. unfold tokenFor. apply (sign_nonempty E laws). }
  assert (Hserve : forall r' later (h : option AuthUser -> Handler) s,
             usesAuthenticate r' = true ->
             (seconds later < seconds now + sevenDays)%Z ->
             serve cfg r' later (Some ("Bearer " ++ tokenFor cfg u now)%string)
               h s
             = h (Some (mkAuthUser (User._id u) (User.role u))) s).
  { intros r' later h s Hr Hlater. unfold serve, withAuth, authenticate.
    rewrite Hr, bearerToken_of_bearer_header, Hne, (Hok _ Hlater).
    reflexivity. }
  pose proof (guarded_routes r Hin Hopen) as Hr.
  repeat match goal with |- _ /\ _ => split end.
  - intros later Hlater. now apply Hserve.
  - intros later Hlater. unfold serve, withAuth, authenticate.
    rewrite Hr, bearerToken_of_bearer_header, Hne, (Hexp _ Hlater).
    reflexivity.
  - intros later later' Hlater Hlater'.
    rewrite (Hserve (mkRoute POST "/logout" true))
      by (reflexivity || assumption).
    split; [reflexivity|]. cbn [logout snd]. now apply Hserve.
Qed.

Lemma login_token_opens_routes_witness :
  exists token,
    serve (E := sampleExternals) utc (mkRoute GET "/api/students" true) 1000
      (Some ("Bearer " ++ token)%string) (fun _ => root) storeWithAda
    = root storeWithAda.
Proof.
  exists (tokenFor (E := sampleExternals) utc adaUser 0).
  apply (login_token_opens_routes sampleExternals utc 0%Z
           (Some "ada@school.com") (Some "pw") storeWithAda
           "Login successful" (tokenFor (E := sampleExternals) utc adaUser 0)
           (userInfo adaUser) sampleExternals_laws eq_refl
           (mkRoute GET "/api/students" true)).
  - left. simpl. tauto.
  - reflexivity.
  - reflexivity.
Defined.

(** ** Listings *)

Lemma matchesParam_spec (v : option string) (field : string) :
  matchesParam v field = true
  <-> (forall x, v = Some x -> x <> EmptyString -> field = x).
Proof.
  unfold matchesParam, given. destruct v as [s|].
  - destruct (String.eqb_spec s EmptyString) as [->|Hne].
    + split; [|reflexivity]. intros _ x [= <-] Hx. contradiction.
    + rewrite String.eqb_eq. split.
      * intros -> x [= <-] _. reflexivity.
      * intros H. now apply H.
  - split; [|reflexivity]. intros _ x Hx. discriminate.
Qed.

(** X26.  [GET /api/students] lists, newest first, exactly the students
    whose class and status equal the parameters given and, when a search
    text is given, whose name, roll number or email the pattern is found
    in; a parameter that is absent or empty filters nothing.  A search text
    the database rejects as a pattern is answered 500. *)
Theorem listStudents_filters (regexI : string -> option (string -> bool))
  (user : AuthUser) (class status search : option string) (st : Store) :
  let wanted (s : Student.t) : Prop :=
    (forall c, class = Some c -> c <> EmptyString -> Student.class s = c)
    /\ (forall x, status = Some x -> x <> EmptyString -> Student.status s = x)
    /\ (forall p, search = Some p -> p <> EmptyString ->
          exists found,
            regexI p = Some found
            /\ found (Student.name s) || found (Student.rollNumber s)
               || found (Student.email s) = true) in
  (forall p, search = Some p -> p <> EmptyString -> regexI p = None ->
     replyCode (Queries.listStudents regexI user class status search st) = 500)
  /\ ((forall p, search = Some p -> p <> EmptyString -> regexI p <> None) ->
      exists rows,
        Queries.listStudents regexI user class status search st = Json 200 rows
        /\ (forall s, In s rows <-> In s (students st) /\ wanted s)
        /\ StronglySorted
             (fun a b => (Student.created_at b <= Student.created_at a)%Z) rows
        /\ length rows <= length (students st)).
Proof.
  cbv zeta. unfold Queries.listStudents, given. split.
  - intros p -> Hp Hnone. apply String.eqb_neq in Hp. now rewrite Hp, Hnone.
  - intros Hvalid. destruct search as [p|].
    + destruct (String.eqb_spec p EmptyString) as [->|Hp].
      * eexists. split; [reflexivity|]. split; [|split].
        -- intros s. unfold Queries.newestFirst. rewrite in_sortDesc.
           unfold findMany. rewrite filter_In. unfold Queries.studentFilter.
           rewrite andb_true_iff, !matchesParam_spec. split.
           ++ intros [H1 [H2 H3]]. repeat split; auto.
              intros q [= <-] Hq. contradiction.
           ++ tauto.
        -- apply newestFirst_sorted.
        -- unfold Queries.newestFirst. rewrite sortDesc_length.
           apply filter_length_le.
      * destruct (regexI p) as [found|] eqn:Hre;
          [|exfalso; now apply (Hvalid p eq_refl Hp)].
        eexists. split; [reflexivity|]. split; [|split].
        -- intros s. unfold Queries.newestFirst. rewrite in_sortDesc.
           unfold findMany. rewrite filter_In. unfold Queries.studentFilter.
           rewrite !andb_true_iff, !matchesParam_spec. split.
           ++ intros [H1 [[H2 H3] H4]]. repeat split; auto.
              intros q [= <-] Hq. exists found. auto.
           ++ intros [H1 [H2 [H3 H4]]]. repeat split; auto.
              destruct (H4 p eq_refl Hp) as [found' [Hf Hfound]].
              rewrite Hre in Hf. injection Hf as <-. exact Hfound.
        -- apply newestFirst_sorted.
        -- unfold Queries.newestFirst. rewrite sortDesc_length.
           apply filter_length_le.
    + eexists. split; [reflexivity|]. split; [|split].
      * intros s. unfold Queries.newestFirst. rewrite in_sortDesc.
        unfold findMany. rewrite filter_In. unfold Queries.studentFilter.
        rewrite andb_true_iff, !matchesParam_spec. split.
        -- intros [H1 [H2 H3]]. repeat split; auto. intros q Hq. discriminate.
        -- tauto.
      * apply newestFirst_sorted.
      * unfold Queries.newestFirst. rewrite sortDesc_length.
        apply filter_length_le.
Qed.

Lemma listStudents_filters_witness :
  exists rows,
    Queries.listStudents (fun _ => None) teacher7 (Some "JSS1") (Some EmptyString)
      None sampleStore = Json 200 rows
    /\ length rows <= 2.
Proof.
  destruct (listStudents_filters (fun _ => None) teacher7 (Some "JSS1")
              (Some EmptyString) None sampleStore) as [_ H].
  destruct H as [rows [Heq [_ [_ Hlen]]]]; [discriminate|].
  exists rows. split; [exact Heq | exact Hlen].
Defined.

Lemma optDateGeb_total (a b : option Date) :
  Full.optDateGeb a b = true \/ Full.optDateGeb b a = true.
Proof.
  destruct a as [x|], b as [y|]; simpl; auto.
  destruct (Z.leb_spec y x); [now left|]. right. apply Z.leb_le.
  unfold Date in *. lia.
Qed.

Lemma optDateGeb_trans (a b c : option Date) :
  Full.optDateGeb a b = true -> Full.optDateGeb b c = true ->
  Full.optDateGeb a c = true.
Proof.
  destruct a as [x|], b as [y|], c as [z|]; simpl; try congruence.
  rewrite !Z.leb_le. unfold Date in *. lia.
Qed.

Lemma filter_keeps_distinct {T K : Type} (key : T -> K) (keep : T -> bool)
  (c : list T) (distinct : NoDup (map key c)) :
  NoDup (map key (filter keep c)).
Proof.
  revert distinct. induction c as [|d c IH]; simpl; intros distinct;
    [constructor|].
  inversion distinct as [|? ? Hnotin distinct']; subst.
  destruct (keep d); simpl; [|now apply IH].
  constructor; [|now apply IH].
  intros Hin. apply Hnotin. apply in_map_iff in Hin.
  destruct Hin as [x [Hx Hin]]. apply filter_In in Hin.
  rewrite <- Hx. apply in_map. tauto.
Qed.

(** X27.  [GET /api/fees] lists exactly the fees whose status, term and
    academic year equal the parameters given (a parameter that is absent or
    empty filters nothing), each once when the ids are distinct, the latest
    payment date first and the undated ones last; each row carries the
    contact of the fee's student, and as [student_name] that student's name,
    or ["N/A"] when the student is not on record. *)
Theorem listFees_rows (user : AuthUser) (status term academic_year : option string)
  (st : Store) :
  let wanted (f : Fee.t) : Prop :=
    (forall x, status = Some x -> x <> EmptyString -> Fee.status f = x)
    /\ (forall x, term = Some x -> x <> EmptyString -> Fee.term f = x)
    /\ (forall x, academic_year = Some x -> x <> EmptyString ->
          Fee.academic_year f = x) in
  exists rows,
    Queries.listFees user status term academic_year st = Json 200 rows
    /\ (forall f, In f (map row_fee rows) <-> In f (fees st) /\ wanted f)
    /\ (NoDup (map Fee._id (fees st)) ->
        NoDup (map (fun row => Fee._id (row_fee row)) rows))
    /\ length rows <= length (fees st)
    /\ StronglySorted
         (fun a b => Full.optDateGeb (Fee.payment_date (row_fee a))
                       (Fee.payment_date (row_fee b)) = true) rows
    /\ (forall row, In row rows ->
          (findById Student._id (Fee.student_id (row_fee row)) (students st)
           = None ->
           row_student row = None /\ student_name row = "N/A")
          /\ (forall s,
                findById Student._id (Fee.student_id (row_fee row))
                  (students st) = Some s ->
                Student.name s <> EmptyString ->
                student_name row = Student.name s
                /\ option_map contact_email (row_student row)
                   = Some (Student.email s))).
Proof.
  cbv zeta. eexists. split; [reflexivity|].
  set (geb := fun a b : Fee.t =>
                Full.optDateGeb (Fee.payment_date a) (Fee.payment_date b)).
  set (matching := findMany (Queries.feeFilter status term academic_year)
                     (fees st)).
  assert (Hfees : forall l : list Fee.t,
             map row_fee
               (map (fun f =>
                       Build_FeeRow f
                         (Queries.populateContact st (Fee.student_id f))
                         (Queries.studentNameOf
                            (Queries.populateContact st (Fee.student_id f))))
                  l) = l)
    by (intros l; rewrite map_map; cbn [row_fee]; apply map_id).
  repeat match goal with |- _ /\ _ => split end.
  - intros f. rewrite Hfees, in_sortDesc. unfold matching, findMany.
    rewrite filter_In. unfold Queries.feeFilter.
    rewrite !andb_true_iff, !matchesParam_spec. tauto.
  - intros ND. rewrite <- (map_map row_fee Fee._id), Hfees.
    eapply Permutation_NoDup;
      [apply Permutation_map, Permutation_sym, sortDesc_perm|].
    unfold matching, findMany. now apply filter_keeps_distinct.
  - rewrite length_map, sortDesc_length. unfold matching, findMany.
    apply filter_length_le.
  - assert (Hs : StronglySorted (fun a b => geb a b = true)
                   (sortDesc geb matching)).
    { apply sortDesc_sorted.
      - intros a b. apply optDateGeb_total.
      - intros a b c. apply optDateGeb_trans. }
    induction Hs as [|f l Hs IH Hall]; simpl; constructor; [exact IH|].
    apply Forall_forall. intros row Hrow. apply in_map_iff in Hrow.
    destruct Hrow as [g [<- Hg]]. cbn [row_fee].
    rewrite Forall_forall in Hall. now apply Hall.
  - intros row Hrow. apply in_map_iff in Hrow. destruct Hrow as [f [<- Hf]].
    cbn [row_fee row_student student_name]. split.
    + unfold Queries.populateContact. intros ->. split; reflexivity.
    + unfold Queries.populateContact. intros s -> Hname. cbn.
      apply String.eqb_neq in Hname. rewrite Hname. split; reflexivity.
Qed.

Lemma listFees_rows_witness :
  exists rows,
    Queries.listFees teacher7 (Some "paid") None None sampleStore = Json 200 rows
    /\ NoDup (map (fun row => Fee._id (row_fee row)) rows)
    /\ forall f, In f (map row_fee rows) -> Fee.status f = "paid".
Proof.
  destruct (listFees_rows teacher7 (Some "paid") None None sampleStore)
    as [rows [Heq [Hin [Hnd _]]]].
  exists rows. split; [exact Heq|]. split.
  - apply Hnd. simpl. repeat constructor. simpl. tauto.
  - intros f Hf. apply Hin in Hf. destruct Hf as [_ [Hs _]].
    apply (Hs "paid" eq_refl). discriminate.
Defined.

(** X28.  [GET /api/grades/all] lists every grade once, the newest first,
    each with the reference of its student (none when the student is not on
    record); [GET /api/grades/student/:studentId] lists of these rows
    exactly the ones of that student. *)
Theorem grades_listings_agree (user : AuthUser) (sid : ObjectId) (st : Store) :
  exists all own,
    Queries.allGrades user st = Json 200 all
    /\ Full.gradesOfStudent user sid st
       = (mkResponse 200 (GradesBody own), st)
    /\ Permutation (map fst all) (grades st)
    /\ StronglySorted
         (fun a b => (Grade.created_at (fst b) <= Grade.created_at (fst a))%Z)
         all
    /\ (forall row, In row all ->
          snd row = Full.populate st (Grade.student_id (fst row)))
    /\ (forall row, In row own
                    <-> In row all /\ Grade.student_id (fst row) = sid)
    /\ map fst own = gradesOf sid (grades st).
Proof.
  eexists. eexists. split; [reflexivity|]. split; [reflexivity|].
  set (rows := map (fun g => (g, Full.populate st (Grade.student_id g)))
                 (grades st)).
  assert (Hperm : Permutation
                    (Queries.newestFirst
                       (fun gp : Grade.t * option StudentRef =>
                          Grade.created_at (fst gp)) rows) rows)
    by apply sortDesc_perm.
  repeat match goal with |- _ /\ _ => split end.
  - etransitivity; [apply Permutation_map; exact Hperm|].
    unfold rows. rewrite map_map. cbn [fst]. now rewrite map_id.
  - apply (newestFirst_sorted
             (fun gp : Grade.t * option StudentRef => Grade.created_at (fst gp))).
  - intros row Hrow. unfold Queries.newestFirst in Hrow.
    apply in_sortDesc in Hrow. unfold rows in Hrow. apply in_map_iff in Hrow.
    destruct Hrow as [g [<- _]]. reflexivity.
  - intros row. unfold Queries.newestFirst. rewrite in_sortDesc.
    unfold rows, findMany. rewrite !in_map_iff. split.
    + intros [g [<- Hg]]. apply filter_In in Hg. destruct Hg as [Hg Hs].
      apply Nat.eqb_eq in Hs. split; [now exists g | exact Hs].
    + intros [[g [<- Hg]] Hs]. exists g. split; [reflexivity|].
      apply filter_In. split; [exact Hg | now apply Nat.eqb_eq].
  - rewrite map_map. cbn [fst]. now rewrite map_id.
Qed.

Lemma grades_listings_agree_witness :
  exists all own,
    Queries.allGrades teacher7 sampleStore = Json 200 all
    /\ Full.gradesOfStudent teacher7 1 sampleStore
       = (mkResponse 200 (GradesBody own), sampleStore)
    /\ map fst own = gradesOf 1 (grades sampleStore).
Proof.
  destruct (grades_listings_agree teacher7 1 sampleStore)
    as [all [own [Hall [Hown [_ [_ [_ [_ Hmap]]]]]]]].
  exists all, own. auto.
Defined.

(** X29.  [POST /api/fees] with a student id, an amount, a term and an
    academic year, a payment method that is absent or allowed and a status
    that is absent, empty or allowed answers 201, whether or not the student
    is on record: the fee is stored with status [paid] when none was sent
    and with the request's time as payment date, the caller gets a
    notification naming the amount, and the student's fee list shows the
    fee. *)
Theorem createFee_stores_and_notifies (E : Externals) (now : Date)
  (user : AuthUser) (sid : ObjectId) (amount : Number)
  (payment_method : option string) (term academic_year : string)
  (receipt_number status : option string) (st : Store) :
  term <> EmptyString -> academic_year <> EmptyString ->
  ~ outside Full.paymentMethods payment_method ->
  memString (orDefault status "paid") Full.feeStatuses = true ->
  let fee := Fee.mk (nextId st) sid amount (Some now) payment_method term
               academic_year (orDefault status "paid") receipt_number now in
  let note := Notification.mk (S (nextId st)) "Fee Payment Recorded"
                (trim ("Payment of " ++ Full.naira ++ toLocaleString amount
                       ++ " has been recorded"))
                "success" "fee" (id user) false now in
  let result := Full.createFee now user (Some sid) (Some amount) payment_method
                  (Some term) (Some academic_year) receipt_number status st in
  fst result = mkResponse 201 (FeeBody "Fee payment recorded successfully" fee)
  /\ fees (snd result) = fees st ++ [fee]
  /\ notifications (snd result) = notifications st ++ [note]
  /\ nextId (snd result) = S (S (nextId st))
  /\ students (snd result) = students st
  /\ (exists rows,
        fst (Full.feesOfStudent user sid (snd result))
        = mkResponse 200 (FeesBody rows)
        /\ In (fee, Full.populate st sid) rows).
Proof.
  intros Htm Hay Hpm Hst. cbv zeta.
  assert (Hv : Full.validateFee (Some sid) (Some amount) payment_method
                 (Some term) (Some academic_year) receipt_number
                 (orDefault status "paid") (nextId st) now
               = inr (Fee.mk (nextId st) sid amount (Some now) payment_method
                        term academic_year (orDefault status "paid")
                        receipt_number now)).
  { unfold Full.validateFee. cbn [required bindResult].
    assert (Ho : optionalEnum "Fee" "payment_method" Full.paymentMethods
                   payment_method = inr payment_method).
    { unfold optionalEnum. destruct payment_method as [pm|]; [|reflexivity].
      destruct (memString pm Full.paymentMethods) eqn:Hm; [reflexivity|].
      exfalso. apply Hpm. now exists pm. }
    rewrite Ho. cbn [bindResult requiredString].
    apply String.eqb_neq in Htm, Hay. rewrite Htm, Hay. cbn [bindResult].
    unfold enumOf. rewrite Hst. reflexivity. }
  unfold Full.createFee. rewrite Hv. cbn [Fee.amount].
  assert (Hmsg : trim ("Payment of " ++ Full.naira ++ toLocaleString amount
                       ++ " has been recorded") <> EmptyString)
    by (apply (trim_starts_nonspace "P"); reflexivity).
  assert (Htitle : trim "Fee Payment Recorded" = "Fee Payment Recorded")
    by (vm_compute; reflexivity).
  rewrite notify_adds;
    [| rewrite Htitle; discriminate | exact Hmsg | reflexivity | reflexivity].
  rewrite Htitle.
  cbn [fst snd fees notifications students nextId setFees setNotifications].
  repeat match goal with |- _ /\ _ => split end; try reflexivity.
  eexists. split; [reflexivity|].
  apply in_map_iff. exists (Fee.mk (nextId st) sid amount (Some now)
    payment_method term academic_year (orDefault status "paid")
    receipt_number now).
  split; [reflexivity|]. apply in_sortDesc. unfold findMany.
  apply filter_In. split; [apply in_or_app; right; now left|].
  cbn. apply Nat.eqb_refl.
Qed.

Lemma createFee_stores_and_notifies_witness :
  fees (snd (Full.createFee (E := sampleExternals) 9 teacher7 (Some 42)
               (Some 5000%Q) None (Some "T1") (Some "2024") None None
               emptyStore))
  = [Fee.mk 0 42 5000 (Some 9%Z) None "T1" "2024" "paid" None 9].
Proof.
  apply (createFee_stores_and_notifies sampleExternals 9%Z teacher7 42 5000%Q
           None "T1" "2024" None None emptyStore);
    try discriminate; try reflexivity.
  intros [s [Hs _]]. discriminate.
Defined.
